(** * Course-Rater: the scoring engine of [rater.py]

    A shallow embedding of [rater.py] and the properties its specification
    states about it.

    - Part 1 ([Module Py]) models the pieces of the Python runtime the
      program calls: exceptions, [float] values and their arithmetic, the
      built-ins [str], [float], [min], [max], [abs] and the [str] methods
      [strip], [upper], [lower] and [in].
    - Part 2 ([Module Binary64]) is the arithmetic of [rater.py] on IEEE-754
      binary64 numbers, to evaluate it at given inputs.
    - Part 3 transcribes [rater.py] function by function, with its names,
      [main] included: the path it reads, the table steps, the name of the
      output file and the preview.  The table steps are given twice: as
      functions, and as steps that receive the module's globals and hand
      them on.
    - Part 4 states and proves the properties: first those the
      specification states, then further ones read off the code.
    - Part 5 gives instances, and evaluates the binary64 arithmetic.

    Numbers.  A Python [float] is an IEEE-754 binary64 number.  In Parts 1, 3
    and 4 a finite float is an exact rational in lowest terms, and the three
    special values (the two infinities and NaN) are kept with their IEEE
    arithmetic and comparisons; rounding of finite results is not modelled,
    neither in the arithmetic nor where [float] reads a decimal.  No
    operation of the program can overflow: a parsed number is below the
    overflow threshold, and the linear maps and the weighted sum only shrink
    it.  Part 5 evaluates the same arithmetic on true binary64 numbers at the
    values the specification names and at the two ends of the score range.

    Text.  A text is kept as its UTF-8 bytes.  [strip] removes the
    whitespace characters of Unicode, and [float] reads whitespace and
    decimal digits beyond ASCII as Python does; which characters beyond
    ASCII are decimal digits depends on the Unicode database of the Python
    that runs, and is a parameter.  [upper] and [lower] change the letters A
    to Z and a to z, and keep the letters beyond ASCII as they are.

    Tables.  [sort_values] is pandas code.  It is a parameter of the table
    steps, a function of the key column and the table; where a property
    needs more of it, that is a hypothesis. *)

From Stdlib Require Import ZArith QArith Qabs Qminmax Lqa Lia Bool Ascii String List.
From Stdlib Require Import Permutation Sorted Floats.
From stdpp Require Import gmap strings list.

Set Warnings "-inexact-float".

Set Default Proof Using "Type".

(* ===================================================================== *)
(** * Part 1: the Python runtime                                          *)
(* ===================================================================== *)

Module Py.

(** ** Exceptions *)

Inductive exn : Type :=
  | TypeError
  | ValueError
  | OverflowError
  | ZeroDivisionError
  | KeyError.

(** A computation that returns a value or raises. *)
Inductive Exc (A : Type) : Type :=
  | Ok (a : A)
  | Raise (e : exn).
Arguments Ok {A} a.
Arguments Raise {A} e.

Definition bind {A B : Type} (m : Exc A) (k : A → Exc B) : Exc B :=
  match m with
  | Ok a => k a
  | Raise e => Raise e
  end.

Fixpoint mapM {A B : Type} (f : A → Exc B) (l : list A) : Exc (list B) :=
  match l with
  | [] => Ok []
  | x :: l' => bind (f x) (λ y, bind (mapM f l') (λ ys, Ok (y :: ys)))
  end.

(** ** Floats *)

(** A Python [float]: a finite number, an infinity, or NaN. *)
Inductive pyfloat : Type :=
  | Fin (q : Q)
  | PInf
  | NInf
  | NaN.

Definition Qltb (a b : Q) : bool := negb (Qle_bool b a).
Definition Qis0 (a : Q) : bool := Qeq_bool a 0.

(** The infinity with the sign of [q] (for [q] not zero). *)
Definition inf_sign (q : Q) : pyfloat := if Qltb q 0 then NInf else PInf.

(** [x + y] *)
Definition fadd (x y : pyfloat) : pyfloat :=
  match x, y with
  | NaN, _ | _, NaN => NaN
  | PInf, NInf | NInf, PInf => NaN
  | PInf, _ | _, PInf => PInf
  | NInf, _ | _, NInf => NInf
  | Fin a, Fin b => Fin (Qred (a + b))
  end.

(** [x - y] *)
Definition fsub (x y : pyfloat) : pyfloat :=
  match x, y with
  | NaN, _ | _, NaN => NaN
  | PInf, PInf | NInf, NInf => NaN
  | PInf, _ | _, NInf => PInf
  | NInf, _ | _, PInf => NInf
  | Fin a, Fin b => Fin (Qred (a - b))
  end.

(** [x * y] *)
Definition fmul (x y : pyfloat) : pyfloat :=
  match x, y with
  | NaN, _ | _, NaN => NaN
  | Fin a, Fin b => Fin (Qred (a * b))
  | Fin a, PInf | PInf, Fin a => if Qis0 a then NaN else inf_sign a
  | Fin a, NInf | NInf, Fin a => if Qis0 a then NaN else inf_sign (- a)
  | PInf, PInf | NInf, NInf => PInf
  | PInf, NInf | NInf, PInf => NInf
  end.

(** [x / y]: Python raises [ZeroDivisionError] on a zero divisor. *)
Definition fdiv (x y : pyfloat) : Exc pyfloat :=
  match x, y with
  | _, Fin b =>
      if Qis0 b then Raise ZeroDivisionError
      else match x with
           | Fin a => Ok (Fin (Qred (a / b)))
           | PInf => Ok (inf_sign b)
           | NInf => Ok (inf_sign (- b))
           | NaN => Ok NaN
           end
  | NaN, _ | _, NaN => Ok NaN
  | Fin _, _ => Ok (Fin 0)
  | _, _ => Ok NaN
  end.

(** [abs(x)] *)
Definition fabs (x : pyfloat) : pyfloat :=
  match x with
  | Fin q => Fin (Qred (Qabs q))
  | PInf | NInf => PInf
  | NaN => NaN
  end.

(** [x < y]; every comparison with NaN is false. *)
Definition flt (x y : pyfloat) : bool :=
  match x, y with
  | NaN, _ | _, NaN => false
  | Fin a, Fin b => Qltb a b
  | NInf, (Fin _ | PInf) => true
  | Fin _, PInf => true
  | _, _ => false
  end.

(** [x > y] *)
Definition fgt (x y : pyfloat) : bool := flt y x.

(** [x <= y] *)
Definition fle (x y : pyfloat) : bool :=
  match x, y with
  | NaN, _ | _, NaN => false
  | Fin a, Fin b => Qle_bool a b
  | NInf, _ | _, PInf => true
  | _, _ => false
  end.

Definition is_finite (x : pyfloat) : bool :=
  match x with Fin _ => true | _ => false end.

(** [min(a, b)]: keeps [a] unless [b < a]. *)
Definition py_min (a b : pyfloat) : pyfloat := if flt b a then b else a.

(** [max(a, b)]: keeps [a] unless [b > a]. *)
Definition py_max (a b : pyfloat) : pyfloat := if fgt b a then b else a.

(** Magnitudes from [2^1024 - 2^970] on round to an infinity in binary64. *)
Definition overflow_threshold : Q := inject_Z (2 ^ 1024 - 2 ^ 970).

Definition overflows (q : Q) : bool := Qle_bool overflow_threshold (Qabs q).

(** ** Text *)

Local Open Scope string_scope.

Definition code (c : ascii) : N := N_of_ascii c.

(** A text is kept as its UTF-8 bytes: a character is one byte below 128,
    or a lead byte followed by one to three continuation bytes. *)

(** The six payload bits of a continuation byte. *)
Definition cont (c : ascii) : option N :=
  let n := code c in
  if ((128 <=? n) && (n <? 192))%N then Some (n - 128)%N else None.

(** The character (its code point) that one, two, three or four bytes
    encode.  A character has one encoding, the shortest, and the surrogates
    have none. *)
Definition char1 (c : ascii) : option N :=
  let n := code c in
  if (n <? 128)%N then Some n else None.

Definition char2 (c d : ascii) : option N :=
  let n := code c in
  if ((194 <=? n) && (n <? 224))%N then
    x ← cont d; Some ((n - 192) * 64 + x)%N
  else None.

Definition char3 (c d e : ascii) : option N :=
  let n := code c in
  if ((224 <=? n) && (n <? 240))%N then
    x ← cont d; y ← cont e;
    let ch := (((n - 224) * 64 + x) * 64 + y)%N in
    if ((0x800 <=? ch) && negb ((0xD800 <=? ch) && (ch <=? 0xDFFF)))%N
    then Some ch else None
  else None.

Definition char4 (c d e f : ascii) : option N :=
  let n := code c in
  if ((240 <=? n) && (n <? 245))%N then
    x ← cont d; y ← cont e; z ← cont f;
    let ch := ((((n - 240) * 64 + x) * 64 + y) * 64 + z)%N in
    if ((0x10000 <=? ch) && (ch <=? 0x10FFFF))%N then Some ch else None
  else None.

(** [ch.isspace()]: the characters [str.strip] removes. *)
Definition is_space (n : N) : bool :=
  ((9 <=? n) && (n <=? 13) || (28 <=? n) && (n <=? 32)
   || (n =? 0x85) || (n =? 0xA0) || (n =? 0x1680)
   || (0x2000 <=? n) && (n <=? 0x200A)
   || (n =? 0x2028) || (n =? 0x2029) || (n =? 0x202F) || (n =? 0x205F)
   || (n =? 0x3000))%N.

Definition space_of (ch : option N) : bool :=
  match ch with Some n => is_space n | None => false end.

(** The bytes of one whitespace character; none takes four bytes. *)
Definition space1 (c : ascii) : bool := space_of (char1 c).
Definition space2 (c d : ascii) : bool := space_of (char2 c d).
Definition space3 (c d e : ascii) : bool := space_of (char3 c d e).

(** A text that is one whitespace character. *)
Definition is_space_char (s : string) : bool :=
  match s with
  | String c "" => space1 c
  | String c (String d "") => space2 c d
  | String c (String d (String e "")) => space3 c d e
  | _ => false
  end.

Definition upper_char (c : ascii) : ascii :=
  let n := code c in
  if ((97 <=? n) && (n <=? 122))%N then ascii_of_N (n - 32) else c.

Definition lower_char (c : ascii) : ascii :=
  let n := code c in
  if ((65 <=? n) && (n <=? 90))%N then ascii_of_N (n + 32) else c.

Fixpoint map_chars (f : ascii → ascii) (s : string) : string :=
  match s with
  | "" => ""
  | String c r => String (f c) (map_chars f r)
  end.

(** [s.upper()] and [s.lower()], on the letters a to z. *)
Definition upper (s : string) : string := map_chars upper_char s.
Definition lower (s : string) : string := map_chars lower_char s.

(** [s.lstrip()]: the whitespace characters at the head are dropped. *)
Fixpoint lstrip (s : string) : string :=
  match s with
  | String c r =>
      if space1 c then lstrip r
      else
        match r with
        | String d r2 =>
            if space2 c d then lstrip r2
            else
              match r2 with
              | String e r3 => if space3 c d e then lstrip r3 else s
              | "" => s
              end
        | "" => s
        end
  | "" => ""
  end.

(** [s.rstrip()]: from the right, a character is dropped when it is
    whitespace and nothing is kept after it. *)
Fixpoint rstrip (s : string) : string :=
  match s with
  | String c r =>
      let r' := rstrip r in
      if is_space_char (String c r') then "" else String c r'
  | "" => ""
  end.

(** [s.strip()] *)
Definition strip (s : string) : string := rstrip (lstrip s).

(** [needle in s] *)
Fixpoint contains (needle s : string) : bool :=
  String.prefix needle s ||
  match s with
  | String _ r => contains needle r
  | "" => false
  end.

(** ** Values a table cell can hold *)

(** [None] is what [row.get] gives for a column the table does not have; an
    empty cell is read as the float NaN; the other cells are text, floats,
    integers or booleans. *)
Inductive PyVal : Type :=
  | PyNone
  | PyStr (s : string)
  | PyFloat (x : pyfloat)
  | PyInt (n : Z)
  | PyBool (b : bool).

(** ** [float(v)] *)

Definition digit_of (c : ascii) : option Z :=
  let n := code c in
  if ((48 <=? n) && (n <=? 57))%N then Some (Z.of_N n - 48)%Z else None.

(** The digits after the first one of a [digitpart]: a digit, or an
    underscore followed by a digit.  Returns the number read, how many digits
    it has, and the text left. *)
Fixpoint digits_rest (s : string) (acc : Z) (n : nat) : Z * nat * string :=
  match s with
  | String c r =>
      match digit_of c with
      | Some d => digits_rest r (10 * acc + d)%Z (S n)
      | None =>
          if Ascii.eqb c "_" then
            match r with
            | String c' r' =>
                match digit_of c' with
                | Some d => digits_rest r' (10 * acc + d)%Z (S n)
                | None => (acc, n, s)
                end
            | "" => (acc, n, s)
            end
          else (acc, n, s)
      end
  | "" => (acc, n, "")
  end.

(** [digitpart ::= digit (["_"] digit)*] *)
Definition digitpart (s : string) : option (Z * nat * string) :=
  match s with
  | String c r =>
      match digit_of c with
      | Some d => Some (digits_rest r d 1)
      | None => None
      end
  | "" => None
  end.

Definition pow10 (k : nat) : Z := (10 ^ Z.of_nat k)%Z.

(** [number ::= [digitpart] "." digitpart | digitpart ["."]] *)
Definition number (s : string) : option (Q * string) :=
  match digitpart s with
  | Some (i, _, rest) =>
      match rest with
      | String "." rest' =>
          match digitpart rest' with
          | Some (f, k, rest'') =>
              Some (inject_Z (i * pow10 k + f) / inject_Z (pow10 k), rest'')%Q
          | None => Some (inject_Z i, rest')
          end
      | _ => Some (inject_Z i, rest)
      end
  | None =>
      match s with
      | String "." rest' =>
          match digitpart rest' with
          | Some (f, k, rest'') => Some (inject_Z f / inject_Z (pow10 k), rest'')%Q
          | None => None
          end
      | _ => None
      end
  end.

(** An optional sign: whether it is a minus, and the text after it. *)
Definition sign (s : string) : bool * string :=
  match s with
  | String "-" r => (true, r)
  | String "+" r => (false, r)
  | _ => (false, s)
  end.

(** [exponent ::= ("e" | "E") [sign] digitpart], up to the end of the text;
    no exponent at all counts as exponent 0. *)
Definition exponent (s : string) : option Z :=
  match s with
  | "" => Some 0%Z
  | String c r =>
      if Ascii.eqb (lower_char c) "e" then
        let '(neg, r') := sign r in
        match digitpart r' with
        | Some (e, _, "") => Some (if neg then - e else e)%Z
        | _ => None
        end
      else None
  end.

Definition Qpow10 (e : Z) : Q :=
  match e with
  | Z0 => 1
  | Zpos p => inject_Z (10 ^ Zpos p)
  | Zneg p => / inject_Z (10 ^ Zpos p)
  end%Q.

(** A decimal value as the float it denotes. *)
Definition to_float (q : Q) : pyfloat :=
  if overflows q then inf_sign q else Fin (Qred q).

(** The whitespace [float] drops around a number: tab, line feed, vertical
    tab, form feed, carriage return and space. *)
Definition is_float_space (c : ascii) : bool :=
  let n := code c in
  ((9 <=? n) && (n <=? 13) || (n =? 32))%N.

Fixpoint float_lstrip (s : string) : string :=
  match s with
  | String c r => if is_float_space c then float_lstrip r else s
  | "" => ""
  end.

Fixpoint float_rstrip (s : string) : string :=
  match s with
  | String c r =>
      match float_rstrip r with
      | "" => if is_float_space c then "" else String c ""
      | r' => String c r'
      end
  | "" => ""
  end.

Definition float_strip (s : string) : string := float_rstrip (float_lstrip s).

(** The number a text without surrounding whitespace denotes: an optional
    sign, then [inf], [infinity] or [nan] in any case, or a decimal number
    with an optional exponent.  The decimal is kept as it is written. *)
Definition parse_float (s : string) : Exc pyfloat :=
  let '(neg, body) := sign s in
  let word := lower body in
  if (String.eqb word "inf" || String.eqb word "infinity") then
    Ok (if neg then NInf else PInf)
  else if String.eqb word "nan" then Ok NaN
  else
    match number body with
    | Some (m, rest) =>
        match exponent rest with
        | Some e =>
            let q := (m * Qpow10 e)%Q in
            Ok (to_float (if neg then - q else q)%Q)
        | None => Raise ValueError
        end
    | None => Raise ValueError
    end.

Section Float.

(** The decimal value the Unicode database gives a character beyond ASCII
    that is a decimal digit (an Arabic-Indic or a full-width digit, say);
    which characters are digits depends on the version of the database. *)
Variable unicode_decimal : N → option N.

(** What [float] makes of one character before it parses: a character below
    127 stays, whitespace beyond becomes a space, a decimal digit beyond
    becomes the ASCII digit, and any other character is no part of a
    number. *)
Definition ascii_of_char (n : N) : option ascii :=
  if (n <? 127)%N then Some (ascii_of_N n)
  else if is_space n then Some " "%char
  else d ← unicode_decimal n; Some (ascii_of_N (48 + d)).

Fixpoint to_ascii (s : string) : option string :=
  match s with
  | "" => Some ""
  | String c r =>
      match char1 c with
      | Some n => a ← ascii_of_char n; String a <$> to_ascii r
      | None =>
          match r with
          | String d r2 =>
              match char2 c d with
              | Some n => a ← ascii_of_char n; String a <$> to_ascii r2
              | None =>
                  match r2 with
                  | String e r3 =>
                      match char3 c d e with
                      | Some n => a ← ascii_of_char n; String a <$> to_ascii r3
                      | None =>
                          match r3 with
                          | String f r4 =>
                              match char4 c d e f with
                              | Some n =>
                                  a ← ascii_of_char n; String a <$> to_ascii r4
                              | None => None
                              end
                          | "" => None
                          end
                      end
                  | "" => None
                  end
              end
          | "" => None
          end
      end
  end.

(** [float(s)] for a text [s]: the characters are brought to ASCII, the
    whitespace around the number is dropped, and the rest is parsed.  A text
    with a character that is no part of a number raises [ValueError]. *)
Definition float_of_string (s : string) : Exc pyfloat :=
  match to_ascii s with
  | Some t => parse_float (float_strip t)
  | None => Raise ValueError
  end.

(** [float(v)] *)
Definition py_float (v : PyVal) : Exc pyfloat :=
  match v with
  | PyNone => Raise TypeError
  | PyStr s => float_of_string s
  | PyFloat x => Ok x
  | PyInt n =>
      if overflows (inject_Z n) then Raise OverflowError
      else Ok (Fin (inject_Z n))
  | PyBool b => Ok (Fin (if b then 1 else 0))
  end.

End Float.

(** ** [str(v)] *)

Definition digit_char (d : Z) : ascii := ascii_of_N (48 + Z.to_N d).

Fixpoint nat_digits (fuel : nat) (n : Z) (acc : string) : string :=
  match fuel with
  | O => acc
  | S fuel' =>
      let acc' := String (digit_char (n mod 10)) acc in
      if (n <? 10)%Z then acc' else nat_digits fuel' (n / 10) acc'
  end.

(** Decimal digits of an integer. *)
Definition int_str (n : Z) : string :=
  let m := Z.abs n in
  let ds := nat_digits (S (Z.to_nat (Z.log2 m))) m "" in
  if (n <? 0)%Z then String "-" ds else ds.

Section Str.

(** The text Python prints for a finite float (the shortest decimal that
    reads back as the same binary64 number). *)
Variable repr_finite : Q → string.

(** [str(v)] *)
Definition py_str (v : PyVal) : string :=
  match v with
  | PyNone => "None"
  | PyStr s => s
  | PyFloat (Fin q) => repr_finite q
  | PyFloat PInf => "inf"
  | PyFloat NInf => "-inf"
  | PyFloat NaN => "nan"
  | PyInt n => int_str n
  | PyBool true => "True"
  | PyBool false => "False"
  end.

End Str.

End Py.

Import Py.

#[global] Instance Exc_bind : MBind Exc := λ A B k m, Py.bind m k.

(** A float literal of the source, in lowest terms. *)
Definition lit (q : Q) : pyfloat := Fin (Qred q).

(* ===================================================================== *)
(** * Part 2: the arithmetic of [rater.py] on binary64 numbers            *)
(* ===================================================================== *)

Module Binary64.

Local Open Scope float_scope.

(** [min(a, b)] and [max(a, b)] *)
Definition py_min (a b : float) : float := if b <? a then b else a.
Definition py_max (a b : float) : float := if a <? b then b else a.

Definition clip01 (x : float) : float := py_max 0.0 (py_min 1.0 x).

(** [util_cost], [util_benefit] and [util_group] once [float(v)] has
    returned [x]. *)
Definition cost (x : float) : float := clip01 ((5.0 - x) / 4.0).
Definition benefit (x : float) : float := clip01 ((x - 1.0) / 4.0).
Definition group (x : float) : float := clip01 (1.0 - abs (x - 3.0) / 2.0).

Definition w_prog     : float := 0.10.
Definition w_loc      : float := 0.05.
Definition w_fmt      : float := 0.05.
Definition w_hard     : float := 0.10.
Definition w_work     : float := 0.10.
Definition w_interest : float := 0.20.
Definition w_useful   : float := 0.20.
Definition w_align    : float := 0.15.
Definition w_group    : float := 0.05.
Definition w_exam     : float := 0.00.

(** The expression assigned to [score] in [compute_score]. *)
Definition score
    (u_prog u_loc u_fmt u_hard u_work u_inter u_useful u_align u_group u_exam : float)
  : float :=
  100.0 * (
    w_prog     * u_prog   +
    w_loc      * u_loc    +
    w_fmt      * u_fmt    +
    w_hard     * u_hard   +
    w_work     * u_work   +
    w_interest * u_inter  +
    w_useful   * u_useful +
    w_align    * u_align  +
    w_group    * u_group  +
    w_exam     * u_exam
  ).

End Binary64.

(* ===================================================================== *)
(** * Part 3: [rater.py]                                                  *)
(* ===================================================================== *)

Local Open Scope string_scope.
Local Open Scope Q_scope.

Definition COL_PROG     : string := "Programme recommended (Y/N)".
Definition COL_LOC      : string := "Location (Johanneberg/Lindholmen/online)".
Definition COL_FMT      : string := "Teaching format (lectures / proj)".
Definition COL_HARD     : string := "Hardness (1–5)".
Definition COL_WORK     : string := "Workload (1–5)".
Definition COL_INTEREST : string := "Interest / fun (1–5)".
Definition COL_USEFUL   : string := "Usefulness for career (1–5)".
Definition COL_ALIGN    : string := "Alignment with SE master (1–5)".
Definition COL_EXAM     : string := "Exam type (written / proj / mixed)".
Definition COL_GROUP    : string := "Group work level (1–5)".

(** The dict [compute_score] returns, as its items in the order the source
    lists them. *)
Abbreviation ScoreDict := (list (string * pyfloat)).

(** One row of the table: column label to cell. *)
Abbreviation Row := (gmap string PyVal).

(** [row.get(col)]: the cell, or [None] when the row has no such column. *)
Definition get (row : Row) (col : string) : PyVal := default PyNone (row !! col).

(** [clip01(x)]: [max(0.0, min(1.0, x))] *)
Definition clip01 (x : pyfloat) : pyfloat := py_max (lit 0.0) (py_min (lit 1.0) x).

Section Rater.

Variable repr_finite : Q → string.
Variable unicode_decimal : N → option N.

Abbreviation str := (py_str repr_finite).
Abbreviation py_float := (Py.py_float unicode_decimal).
Abbreviation float_of_string := (Py.float_of_string unicode_decimal).
Abbreviation to_ascii := (Py.to_ascii unicode_decimal).
Abbreviation ascii_of_char := (Py.ascii_of_char unicode_decimal).

(** Programme recommended (Y/N). *)
Definition util_prog (y_or_n : PyVal) : pyfloat :=
  let text := upper (strip (str y_or_n)) in
  if String.eqb text "Y" then lit 1.0
  else if String.eqb text "N" then lit 0.6
  else lit 0.6.

(** Location (Lindholmen/Johanneberg/online). *)
Definition util_location (loc : PyVal) : pyfloat :=
  let loc_s := strip (str loc) in
  if String.eqb loc_s "Lindholmen" then lit 1.0
  else if String.eqb loc_s "Johanneberg" then lit 0.8
  else if String.eqb (lower loc_s) "online" then lit 0.9
  else lit 0.9.

(** Teaching format (lectures / proj / both). *)
Definition util_format (fmt : PyVal) : pyfloat :=
  let fmt_s := lower (strip (str fmt)) in
  if contains "lecture" fmt_s then lit 1.0
  else if contains "project" fmt_s && negb (contains "lecture" fmt_s) then lit 0.9
  else if contains "both" fmt_s || contains "bth" fmt_s || contains "mixed" fmt_s
       then lit 0.85
  else lit 0.9.

(** Exam type (written / proj / mixed). *)
Definition util_exam (exam : PyVal) : pyfloat :=
  let exam_s := lower (strip (str exam)) in
  if contains "proj" exam_s then lit 1.0
  else if contains "mix" exam_s || contains "both" exam_s then lit 0.8
  else if contains "written" exam_s then lit 0.7
  else lit 0.8.

(** Lower is better (Hardness, Workload): maps 1..5 to 1..0 linearly.

    The [try]/[except Exception] of the three numeric utilities guards the
    call of [float] only; the arithmetic after it is outside the [try]. *)
Definition util_cost (v : PyVal) : Exc pyfloat :=
  match py_float v with
  | Raise _ => Ok (lit 0.5)
  | Ok x =>
      u ← fdiv (fsub (lit 5.0) x) (lit 4.0);
      Ok (clip01 u)
  end.

(** Higher is better (Interest, Usefulness, Alignment): maps 1..5 to 0..1
    linearly. *)
Definition util_benefit (v : PyVal) : Exc pyfloat :=
  match py_float v with
  | Raise _ => Ok (lit 0.5)
  | Ok x =>
      u ← fdiv (fsub x (lit 1.0)) (lit 4.0);
      Ok (clip01 u)
  end.

(** Group work level, best around 3: 3 gives 1.0, 2 and 4 give 0.5, 1 and 5
    give 0.0. *)
Definition util_group (v : PyVal) : Exc pyfloat :=
  match py_float v with
  | Raise _ => Ok (lit 0.5)
  | Ok x =>
      d ← fdiv (fabs (fsub x (lit 3.0))) (lit 2.0);
      Ok (clip01 (fsub (lit 1.0) d))
  end.

(** The weights, module-level constants of the source. *)
Definition w_prog     : pyfloat := lit 0.10.
Definition w_loc      : pyfloat := lit 0.05.
Definition w_fmt      : pyfloat := lit 0.05.
Definition w_hard     : pyfloat := lit 0.10.
Definition w_work     : pyfloat := lit 0.10.
Definition w_interest : pyfloat := lit 0.20.
Definition w_useful   : pyfloat := lit 0.20.
Definition w_align    : pyfloat := lit 0.15.
Definition w_group    : pyfloat := lit 0.05.
Definition w_exam     : pyfloat := lit 0.00.

(** The ten utilities of one row, as [compute_score] names them. *)
Record Utilities : Type := mkUtilities {
  u_prog : pyfloat;
  u_loc : pyfloat;
  u_fmt : pyfloat;
  u_hard : pyfloat;
  u_work : pyfloat;
  u_inter : pyfloat;
  u_useful : pyfloat;
  u_align : pyfloat;
  u_group : pyfloat;
  u_exam : pyfloat
}.

Infix "⊕" := fadd (at level 50, left associativity).
Infix "⊗" := fmul (at level 40, left associativity).

(** The expression assigned to [score] in [compute_score]. *)
Definition score_of (u : Utilities) : pyfloat :=
  lit 100.0 ⊗ (
    w_prog     ⊗ u_prog u   ⊕
    w_loc      ⊗ u_loc u    ⊕
    w_fmt      ⊗ u_fmt u    ⊕
    w_hard     ⊗ u_hard u   ⊕
    w_work     ⊗ u_work u   ⊕
    w_interest ⊗ u_inter u  ⊕
    w_useful   ⊗ u_useful u ⊕
    w_align    ⊗ u_align u  ⊕
    w_group    ⊗ u_group u  ⊕
    w_exam     ⊗ u_exam u
  ).

(** The ten assignments at the head of [compute_score]. *)
Definition utilities (row : Row) : Exc Utilities :=
  let u_prog := util_prog (get row COL_PROG) in
  let u_loc  := util_location (get row COL_LOC) in
  let u_fmt  := util_format (get row COL_FMT) in
  u_hard   ← util_cost (get row COL_HARD);
  u_work   ← util_cost (get row COL_WORK);
  u_inter  ← util_benefit (get row COL_INTEREST);
  u_useful ← util_benefit (get row COL_USEFUL);
  u_align  ← util_benefit (get row COL_ALIGN);
  u_group  ← util_group (get row COL_GROUP);
  let u_exam := util_exam (get row COL_EXAM) in
  Ok (mkUtilities u_prog u_loc u_fmt u_hard u_work u_inter u_useful u_align
                  u_group u_exam).

(** Compute per-course utilities and final score. *)
Definition compute_score (row : Row) : Exc ScoreDict :=
  u ← utilities row;
  let score := score_of u in
  Ok [ ("u_prog", u_prog u);
       ("u_loc", u_loc u);
       ("u_fmt", u_fmt u);
       ("u_hard", u_hard u);
       ("u_work", u_work u);
       ("u_interest", u_inter u);
       ("u_useful", u_useful u);
       ("u_align", u_align u);
       ("u_group", u_group u);
       ("u_exam", u_exam u);
       ("Score", score) ].

(** *** The table steps of [main]

    [df.apply(compute_score, axis=1, result_type="expand")] calls
    [compute_score] on the rows in order and makes a table of the dicts;
    [pd.concat([df, scores_df], axis=1)] puts each row next to its dict;
    [sort_values("Score", ascending=False)] reorders the rows. *)

(** A table as [read_csv] returns it: the column labels and the rows in
    index order.  Every row of a table has the table's columns. *)
Record DataFrame : Type := mkDataFrame {
  df_columns : list string;
  df_rows : list Row
}.

(** [d[key]] on a dict given as its items. *)
Fixpoint dict_get {A : Type} (d : list (string * A)) (key : string) : option A :=
  match d with
  | [] => None
  | (k, v) :: d' => if String.eqb k key then Some v else dict_get d' key
  end.

(** The cell of an output row in one of the appended columns.  Every output
    row has all eleven, so the default is never read. *)
Definition column (key : string) (r : Row * ScoreDict) : pyfloat :=
  default NaN (dict_get r.2 key).

(** What [sort_values(by, ascending=False)] with the default [kind] promises
    on a key column without missing values: the same rows, largest key
    first.  The default [kind] is pandas' "quicksort"; the order it gives
    rows with equal keys is decided inside pandas and numpy. *)
Definition sorts_descending {A : Type}
    (sort : (A → pyfloat) → list A → list A) : Prop :=
  ∀ (key : A → pyfloat) (l : list A),
    Forall (λ a, is_finite (key a) = true) l →
    Permutation l (sort key l) ∧
    StronglySorted (λ a b, fle (key b) (key a) = true) (sort key l).

(** A sort that keeps the promise, to run the examples: an insertion sort
    that puts a row before the rows already placed whose key is not
    larger. *)
Section InsertionSort.

Context {A : Type} (key : A → pyfloat).

Definition goes_before (x y : A) : bool := fle (key y) (key x).

Fixpoint insert_desc (x : A) (l : list A) : list A :=
  match l with
  | [] => [x]
  | y :: l' => if goes_before x y then x :: l else y :: insert_desc x l'
  end.

Fixpoint isort_desc (l : list A) : list A :=
  match l with
  | [] => []
  | x :: l' => insert_desc x (isort_desc l')
  end.


End InsertionSort.

(** [df.apply] on a table with rows and columns. *)
Definition df_apply (rows : list Row) : Exc (list ScoreDict) :=
  mapM compute_score rows.

Definition concat (rows : list Row) (scores_df : list ScoreDict)
  : list (Row * ScoreDict) := zip rows scores_df.

(** [df.apply] on a table without rows or without columns calls nothing and
    returns a copy of the table. *)
Definition one_axis_empty (df : DataFrame) : bool :=
  bool_decide (df_rows df = []) || bool_decide (df_columns df = []).

Section Main.

(** The reordering [sort_values] does is pandas code: a function of the key
    column and the table. *)
Variable sort_values :
  (Row * ScoreDict → pyfloat) → list (Row * ScoreDict) → list (Row * ScoreDict).

(** Lines 178 to 182.  [sort_values("Score", ...)] looks the label up first:
    a label that two columns carry is a [ValueError], a label that no column
    carries a [KeyError].  When [apply] returned a copy of the table,
    [df_out] has the columns of [df] twice; otherwise it has them and the
    eleven new ones, [Score] among these. *)
Definition main_table (df : DataFrame) : Exc (list (Row * ScoreDict)) :=
  if one_axis_empty df then
    if bool_decide ("Score" ∈ df_columns df) then Raise ValueError
    else Raise KeyError
  else
    scores_df ← df_apply (df_rows df);
    let df_out := concat (df_rows df) scores_df in
    if bool_decide ("Score" ∈ df_columns df) then Raise ValueError
    else Ok (sort_values (column "Score") df_out).

End Main.

(** *** The module's globals

    The ten weights are names of the module.  Python looks such a name up
    each time the expression of [score] is evaluated, so what
    [compute_score] returns depends on what the names hold at that moment,
    and a function that assigned one of them would change the scores of the
    rows scored after it.  Here the names are a state that every step
    receives and hands on. *)
Record Globals : Type := mkGlobals {
  g_w_prog : pyfloat;
  g_w_loc : pyfloat;
  g_w_fmt : pyfloat;
  g_w_hard : pyfloat;
  g_w_work : pyfloat;
  g_w_interest : pyfloat;
  g_w_useful : pyfloat;
  g_w_align : pyfloat;
  g_w_group : pyfloat;
  g_w_exam : pyfloat
}.

(** The globals once the module body has run (lines 108 to 117). *)
Definition module_globals : Globals :=
  mkGlobals w_prog w_loc w_fmt w_hard w_work w_interest w_useful w_align
    w_group w_exam.

(** A step of the program: from the globals it finds, a value or an
    exception, and the globals it leaves. *)
Definition Run (A : Type) : Type := Globals → Exc A * Globals.

Definition run_ret {A : Type} (a : A) : Run A := λ g, (Ok a, g).

Definition run_bind {A B : Type} (m : Run A) (k : A → Run B) : Run B :=
  λ g, match m g with
       | (Ok a, g') => k a g'
       | (Raise e, g') => (Raise e, g')
       end.

(** The value of a global name. *)
Definition load (name : Globals → pyfloat) : Run pyfloat :=
  λ g, (Ok (name g), g).

(** A call of code that names no weight. *)
Definition call {A : Type} (m : Exc A) : Run A := λ g, (m, g).

Fixpoint run_mapM {A B : Type} (f : A → Run B) (l : list A) : Run (list B) :=
  match l with
  | [] => run_ret []
  | x :: l' =>
      run_bind (f x) (λ y, run_bind (run_mapM f l') (λ ys, run_ret (y :: ys)))
  end.

Notation "x ⇐ m ; k" := (run_bind m (λ x, k))
  (at level 20, m at level 100, k at level 200, right associativity,
   format "x  ⇐  m ; '/' k").

(** The expression assigned to [score], with the weights read from the
    globals. *)
Definition run_score (u : Utilities) : Run pyfloat :=
  w_prog ⇐ load g_w_prog;
  w_loc ⇐ load g_w_loc;
  w_fmt ⇐ load g_w_fmt;
  w_hard ⇐ load g_w_hard;
  w_work ⇐ load g_w_work;
  w_interest ⇐ load g_w_interest;
  w_useful ⇐ load g_w_useful;
  w_align ⇐ load g_w_align;
  w_group ⇐ load g_w_group;
  w_exam ⇐ load g_w_exam;
  run_ret (lit 100.0 ⊗ (
    w_prog     ⊗ u_prog u   ⊕
    w_loc      ⊗ u_loc u    ⊕
    w_fmt      ⊗ u_fmt u    ⊕
    w_hard     ⊗ u_hard u   ⊕
    w_work     ⊗ u_work u   ⊕
    w_interest ⊗ u_inter u  ⊕
    w_useful   ⊗ u_useful u ⊕
    w_align    ⊗ u_align u  ⊕
    w_group    ⊗ u_group u  ⊕
    w_exam     ⊗ u_exam u
  )).

(** [compute_score] as a step: the utility functions name no weight, the
    expression of [score] reads all ten. *)
Definition run_compute_score (row : Row) : Run ScoreDict :=
  u ⇐ call (utilities row);
  score ⇐ run_score u;
  run_ret [ ("u_prog", u_prog u);
            ("u_loc", u_loc u);
            ("u_fmt", u_fmt u);
            ("u_hard", u_hard u);
            ("u_work", u_work u);
            ("u_interest", u_inter u);
            ("u_useful", u_useful u);
            ("u_align", u_align u);
            ("u_group", u_group u);
            ("u_exam", u_exam u);
            ("Score", score) ].

(** The table steps as steps: [apply] calls [compute_score] row after row,
    each call finding the globals the one before it left. *)
Definition run_df_apply (rows : list Row) : Run (list ScoreDict) :=
  run_mapM run_compute_score rows.

Definition run_main_table
    (sort_values : (Row * ScoreDict → pyfloat) →
                   list (Row * ScoreDict) → list (Row * ScoreDict))
    (df : DataFrame) : Run (list (Row * ScoreDict)) :=
  if one_axis_empty df then
    if bool_decide ("Score" ∈ df_columns df) then call (Raise ValueError)
    else call (Raise KeyError)
  else
    scores_df ⇐ run_df_apply (df_rows df);
    let df_out := concat (df_rows df) scores_df in
    if bool_decide ("Score" ∈ df_columns df) then call (Raise ValueError)
    else run_ret (sort_values (column "Score") df_out).

(** [main] run twice in one process on the same table: the second run finds
    the globals the first one left. *)
Definition run_twice {A : Type} (m : Run A) : Run (Exc A * Exc A) :=
  λ g, let '(r1, g1) := m g in
       let '(r2, g2) := m g1 in
       (Ok (r1, r2), g2).

(** *** The aggregator as the specification words it

    An attribute is a name, the column it reads, its utility function and
    its weight; the score is 100 times the sum, over the ten attributes, of
    weight times utility. *)
Record AttributeSpec : Type := mkAttr {
  attr_name : string;
  attr_field : string;
  attr_utility : PyVal → Exc pyfloat;
  attr_weight : pyfloat
}.

Definition attributes : list AttributeSpec :=
  [ mkAttr "u_prog" COL_PROG (λ v, Ok (util_prog v)) w_prog;
    mkAttr "u_loc" COL_LOC (λ v, Ok (util_location v)) w_loc;
    mkAttr "u_fmt" COL_FMT (λ v, Ok (util_format v)) w_fmt;
    mkAttr "u_hard" COL_HARD util_cost w_hard;
    mkAttr "u_work" COL_WORK util_cost w_work;
    mkAttr "u_interest" COL_INTEREST util_benefit w_interest;
    mkAttr "u_useful" COL_USEFUL util_benefit w_useful;
    mkAttr "u_align" COL_ALIGN util_benefit w_align;
    mkAttr "u_group" COL_GROUP util_group w_group;
    mkAttr "u_exam" COL_EXAM (λ v, Ok (util_exam v)) w_exam ].

(** Each attribute's utility function applied to the row's cell for it. *)
Definition spec_utilities (row : Row) : Exc (list (AttributeSpec * pyfloat)) :=
  mapM (λ a, u ← attr_utility a (get row (attr_field a)); Ok (a, u)) attributes.

(** The sum of weight times utility. *)
Definition weighted_sum (us : list (AttributeSpec * pyfloat)) : pyfloat :=
  foldl (λ acc au, acc ⊕ attr_weight au.1 ⊗ au.2) (lit 0.0) us.

(** The ten utilities under their names, then the score. *)
Definition spec_result (row : Row) : Exc ScoreDict :=
  us ← spec_utilities row;
  Ok (map (λ au, (attr_name au.1, au.2)) us
        ++ [("Score", lit 100.0 ⊗ weighted_sum us)])%list.

(** The score of ten finite utilities, in exact arithmetic. *)
Definition score_Q (p l f h w i u a g e : Q) : Q :=
  100 * (0.10 * p + 0.05 * l + 0.05 * f + 0.10 * h + 0.10 * w
         + 0.20 * i + 0.20 * u + 0.15 * a + 0.05 * g + 0.00 * e).

(** One utility replaced, the other nine kept. *)
Definition with_hard (x : pyfloat) (u : Utilities) : Utilities :=
  mkUtilities (u_prog u) (u_loc u) (u_fmt u) x (u_work u) (u_inter u)
    (u_useful u) (u_align u) (u_group u) (u_exam u).
Definition with_work (x : pyfloat) (u : Utilities) : Utilities :=
  mkUtilities (u_prog u) (u_loc u) (u_fmt u) (u_hard u) x (u_inter u)
    (u_useful u) (u_align u) (u_group u) (u_exam u).
Definition with_inter (x : pyfloat) (u : Utilities) : Utilities :=
  mkUtilities (u_prog u) (u_loc u) (u_fmt u) (u_hard u) (u_work u) x
    (u_useful u) (u_align u) (u_group u) (u_exam u).
Definition with_useful (x : pyfloat) (u : Utilities) : Utilities :=
  mkUtilities (u_prog u) (u_loc u) (u_fmt u) (u_hard u) (u_work u) (u_inter u)
    x (u_align u) (u_group u) (u_exam u).
Definition with_align (x : pyfloat) (u : Utilities) : Utilities :=
  mkUtilities (u_prog u) (u_loc u) (u_fmt u) (u_hard u) (u_work u) (u_inter u)
    (u_useful u) x (u_group u) (u_exam u).

(** All ten utilities are finite numbers. *)
Definition finite_utilities (u : Utilities) : bool :=
  forallb is_finite
    [u_prog u; u_loc u; u_fmt u; u_hard u; u_work u; u_inter u; u_useful u;
     u_align u; u_group u; u_exam u].

(** *** The rest of [main]: the path, the output name, the preview *)

(** A text of whitespace characters only (the empty text included). *)
Fixpoint blank (s : string) : bool :=
  match s with
  | "" => true
  | String c r =>
      space1 c && blank r ||
      match r with
      | String d r2 =>
          space2 c d && blank r2 ||
          match r2 with
          | String e r3 => space3 c d e && blank r3
          | "" => false
          end
      | "" => false
      end
  end.

(** A text of the whitespace [float] drops around a number: its six ASCII
    characters and the whitespace characters beyond ASCII. *)
Fixpoint float_blank (s : string) : bool :=
  match s with
  | "" => true
  | String c r =>
      is_float_space c && float_blank r ||
      match r with
      | String d r2 =>
          space2 c d && float_blank r2 ||
          match r2 with
          | String e r3 => space3 c d e && float_blank r3
          | "" => false
          end
      | "" => false
      end
  end.

(** The first byte of a text is no continuation byte. *)
Definition starts_char (s : string) : Prop :=
  match s with String c _ => cont c = None | "" => True end.



(** One step of [to_ascii], by the length of the first character. *)
Definition put (n : N) (rest : option string) : option string :=
  a ← ascii_of_char n; String a <$> rest.

(** [c in s] for a character. *)
Fixpoint occurs (c : ascii) (s : string) : bool :=
  match s with
  | "" => false
  | String d r => Ascii.eqb d c || occurs c r
  end.

(** A text of decimal digits only. *)
Fixpoint all_digits (s : string) : bool :=
  match s with
  | "" => true
  | String c r =>
      match digit_of c with Some _ => true | None => false end && all_digits r
  end.

(** [csv_path = input(...).strip()] and the test [if not csv_path]: the path
    [main] goes on with, or [None] when it prints "No path given, exiting."
    and exits with status 1. *)
Definition read_path (line : string) : option string :=
  let csv_path := strip line in
  if String.eqb csv_path "" then None else Some csv_path.

(** [p.rfind(c)]: the index of the last [c] in [p], or -1. *)
Fixpoint rfind_from (c : ascii) (p : string) (i : Z) : Z :=
  match p with
  | "" => (-1)%Z
  | String d r =>
      let j := rfind_from c r (i + 1)%Z in
      if (0 <=? j)%Z then j else if Ascii.eqb d c then i else (-1)%Z
  end.

Definition rfind (c : ascii) (p : string) : Z := rfind_from c p 0.

(** [p[:k]] and [p[k:]] *)
Fixpoint str_take (k : nat) (p : string) : string :=
  match k, p with
  | S k', String c r => String c (str_take k' r)
  | _, _ => ""
  end.

Fixpoint str_drop (k : nat) (p : string) : string :=
  match k, p with
  | S k', String _ r => str_drop k' r
  | _, _ => p
  end.

(** The loop of [os.path.splitext] that skips the leading dots of the file
    name: from [filenameIndex], at most [n] characters up to the last dot;
    [true] when it meets a character that is not a dot. *)
Fixpoint name_before_dot (p : string) (filenameIndex n : nat) : bool :=
  match n with
  | O => false
  | S n' =>
      match String.get filenameIndex p with
      | Some "."%char => name_before_dot p (S filenameIndex) n'
      | _ => true
      end
  end.

(** [os.path.splitext(p)] with the separator "/" and the extension
    separator ".": the text is split at its last dot when that dot comes
    after the last separator and after a character of the file name that is
    not a dot. *)
Definition splitext (p : string) : string * string :=
  let sepIndex := rfind "/" p in
  let dotIndex := rfind "." p in
  if (sepIndex <? dotIndex)%Z then
    let filenameIndex := Z.to_nat (sepIndex + 1) in
    if name_before_dot p filenameIndex (Z.to_nat dotIndex - filenameIndex)
    then (str_take (Z.to_nat dotIndex) p, str_drop (Z.to_nat dotIndex) p)
    else (p, "")
  else (p, "").

(** [base + "_scored" + (ext if ext else ".csv")] *)
Definition out_path (csv_path : string) : string :=
  let '(base, ext) := splitext csv_path in
  base ++ "_scored" ++ (if String.eqb ext "" then ".csv" else ext).

(** The test of the list comprehension that picks the identifying columns. *)
Definition names_course (c : string) : bool :=
  contains "Course" c || contains "code" c || contains "name" c.

(** [cols_to_show], from [df.columns]. *)
Definition cols_to_show (columns : list string) : list string :=
  (take 2 (List.filter names_course columns) ++ ["Score"])%list.

(** [df_out.head(5)] *)
Definition head5 {A : Type} (df_out : list A) : list A := take 5 df_out.

(** The [Score] that [compute_score] returns for a row. *)
Definition row_score (row : Row) : pyfloat :=
  match compute_score row with
  | Ok d => default NaN (dict_get d "Score")
  | Raise _ => NaN
  end.

(** The ten columns [compute_score] reads. *)
Definition attribute_columns : list string :=
  [ COL_PROG; COL_LOC; COL_FMT; COL_HARD; COL_WORK; COL_INTEREST; COL_USEFUL;
    COL_ALIGN; COL_GROUP; COL_EXAM ].

(** *** Sample data for the examples *)

(** Ten utilities of 0.5. *)
Definition u_half : Utilities :=
  mkUtilities (lit 0.5) (lit 0.5) (lit 0.5) (lit 0.5) (lit 0.5) (lit 0.5)
    (lit 0.5) (lit 0.5) (lit 0.5) (lit 0.5).

(** A course with every column filled in. *)
Definition course_a : Row :=
  {[ "Course" := PyStr "DAT001"; COL_PROG := PyStr "Y";
     COL_LOC := PyStr "Johanneberg"; COL_FMT := PyStr "lectures";
     COL_HARD := PyInt 3; COL_WORK := PyInt 4; COL_INTEREST := PyInt 5;
     COL_USEFUL := PyInt 4; COL_ALIGN := PyInt 3; COL_GROUP := PyInt 2;
     COL_EXAM := PyStr "written" ]}.

(** The same ratings under another course code. *)
Definition course_b : Row := <["Course" := PyStr "DAT002"]> course_a.

(** [course_a] with another exam type. *)
Definition course_a_project : Row := <[COL_EXAM := PyStr "project"]> course_a.

(** A course that is better on every rating. *)
Definition course_c : Row :=
  {[ "Course" := PyStr "DAT003"; COL_PROG := PyStr "Y";
     COL_LOC := PyStr "Lindholmen"; COL_FMT := PyStr "lectures";
     COL_HARD := PyInt 1; COL_WORK := PyInt 1; COL_INTEREST := PyInt 5;
     COL_USEFUL := PyInt 5; COL_ALIGN := PyInt 5; COL_GROUP := PyInt 3;
     COL_EXAM := PyStr "project" ]}.

(** What [compute_score] returns for [course_a] (and [course_b]), and for
    [course_c]. *)
Definition scores_a : ScoreDict :=
  [ ("u_prog", lit 1.0); ("u_loc", lit 0.8); ("u_fmt", lit 1.0);
    ("u_hard", lit 0.5); ("u_work", lit 0.25); ("u_interest", lit 1.0);
    ("u_useful", lit 0.75); ("u_align", lit 0.5); ("u_group", lit 0.5);
    ("u_exam", lit 0.7); ("Score", lit 71.5) ].

Definition scores_c : ScoreDict :=
  [ ("u_prog", lit 1.0); ("u_loc", lit 1.0); ("u_fmt", lit 1.0);
    ("u_hard", lit 1.0); ("u_work", lit 1.0); ("u_interest", lit 1.0);
    ("u_useful", lit 1.0); ("u_align", lit 1.0); ("u_group", lit 1.0);
    ("u_exam", lit 1.0); ("Score", lit 100.0) ].

(** [course_a] under another course code, with another interest and another
    hardness rating. *)
Definition course_rated (code : string) (interest hard : Z) : Row :=
  <["Course" := PyStr code]>
    (<[COL_INTEREST := PyInt interest]> (<[COL_HARD := PyInt hard]> course_a)).

(** What [compute_score] returns for such a course. *)
Definition scores_rated (u_inter u_hard score : Q) : ScoreDict :=
  [ ("u_prog", lit 1.0); ("u_loc", lit 0.8); ("u_fmt", lit 1.0);
    ("u_hard", lit u_hard); ("u_work", lit 0.25); ("u_interest", lit u_inter);
    ("u_useful", lit 0.75); ("u_align", lit 0.5); ("u_group", lit 0.5);
    ("u_exam", lit 0.7); ("Score", lit score) ].

(** A table of seven courses, no two with the same score. *)
Definition seven_courses : DataFrame :=
  mkDataFrame
    [ "Course"; COL_PROG; COL_LOC; COL_FMT; COL_HARD; COL_WORK; COL_INTEREST;
      COL_USEFUL; COL_ALIGN; COL_GROUP; COL_EXAM ]
    [ course_rated "DAT101" 3 3; course_rated "DAT102" 1 5;
      course_rated "DAT103" 5 1; course_rated "DAT104" 2 3;
      course_rated "DAT105" 5 3; course_rated "DAT106" 1 3;
      course_rated "DAT107" 4 3 ].

(** The seven courses with their scores, best first. *)
Definition seven_sorted : list (Row * ScoreDict) :=
  [ (course_rated "DAT103" 5 1, scores_rated 1.0 1.0 76.5);
    (course_rated "DAT105" 5 3, scores_rated 1.0 0.5 71.5);
    (course_rated "DAT107" 4 3, scores_rated 0.75 0.5 66.5);
    (course_rated "DAT101" 3 3, scores_rated 0.5 0.5 61.5);
    (course_rated "DAT104" 2 3, scores_rated 0.25 0.5 56.5);
    (course_rated "DAT106" 1 3, scores_rated 0.0 0.5 51.5);
    (course_rated "DAT102" 1 5, scores_rated 0.0 0.0 46.5) ].

(** The globals after an assignment to [w_exam] ("set to >0 if you care
    about this"). *)
Definition with_w_exam (w : pyfloat) (g : Globals) : Globals :=
  mkGlobals (g_w_prog g) (g_w_loc g) (g_w_fmt g) (g_w_hard g) (g_w_work g)
    (g_w_interest g) (g_w_useful g) (g_w_align g) (g_w_group g) w.

(** The no-break space, U+00A0, in UTF-8. *)
Definition no_break_space : string := String "194" (String "160" "").

(** A stand-in for Python's printing of a finite float, to run the examples:
    their categorical cells hold text, so it is never called. *)
Definition sample_repr (q : Q) : string := "0.0".

(** A table of decimal digits beyond ASCII, to run the examples: the
    Arabic-Indic digits and the full-width digits. *)
Definition sample_decimal (n : N) : option N :=
  if ((0x660 <=? n) && (n <=? 0x669))%N then Some (n - 0x660)%N
  else if ((0xFF10 <=? n) && (n <=? 0xFF19))%N then Some (n - 0xFF10)%N
  else None.

(* ===================================================================== *)
(** * Part 4: properties                                                  *)
(* ===================================================================== *)

(** Runs the monadic glue of a computation whose head has returned. *)
Ltac exc_simpl := cbn [mbind Exc_bind Py.bind].

(** ** Literals and comparisons *)

Lemma Qltb_true (a b : Q) : Qltb a b = true ↔ a < b.
Proof.
unfold Qltb. rewrite negb_true_iff, <- not_true_iff_false, Qle_bool_iff.
split; [apply Qnot_le_lt | apply Qlt_not_le].
Qed.

Lemma Qltb_false (a b : Q) : Qltb a b = false ↔ b <= a.
Proof. unfold Qltb. rewrite negb_false_iff. apply Qle_bool_iff. Qed.

Lemma fle_Fin (a b : Q) : fle (Fin a) (Fin b) = true ↔ a <= b.
Proof. apply Qle_bool_iff. Qed.

(** ** [clip01] *)

(** [clip01] returns 0, 1, or its argument when that lies strictly between
  them; NaN is sent to 1 because both comparisons with it are false. *)
Lemma clip01_cases (x : pyfloat) :
match x with
| Fin q => if Qltb q 1 then (if Qltb 0 q then clip01 x = Fin q else clip01 x = Fin 0)
           else clip01 x = Fin 1
| PInf => clip01 x = Fin 1
| NInf => clip01 x = Fin 0
| NaN => clip01 x = Fin 1
end.
Proof.
destruct x as [q| | |]; try reflexivity.
unfold clip01, py_max, py_min, fgt. change (lit 1.0) with (Fin 1).
change (lit 0.0) with (Fin 0). cbn [flt].
destruct (Qltb q 1) eqn:H1; cbn [flt].
- destruct (Qltb 0 q); reflexivity.
- reflexivity.
Qed.

Lemma clip01_range (x : pyfloat) : ∃ q, clip01 x = Fin q ∧ 0 <= q <= 1.
Proof.
pose proof (clip01_cases x) as H. destruct x as [q| | |].
- destruct (Qltb q 1) eqn:H1.
  + destruct (Qltb 0 q) eqn:H0.
    * exists q. apply Qltb_true in H1, H0. split; [done | lra].
    * exists 0. split; [done | lra].
  + exists 1. split; [done | lra].
- exists 1. split; [done | lra].
- exists 0. split; [done | lra].
- exists 1. split; [done | lra].
Qed.

(** On a finite argument [clip01] is the clamp to the unit interval. *)
Lemma clip01_Fin (q : Q) : ∃ u, clip01 (Fin q) = Fin u ∧ u == Qmax 0 (Qmin 1 q).
Proof.
pose proof (clip01_cases (Fin q)) as H. cbn in H.
destruct (Qltb q 1) eqn:H1.
- apply Qltb_true in H1. destruct (Qltb 0 q) eqn:H0.
  + apply Qltb_true in H0. exists q. split; [done |].
    rewrite (Q.min_r 1 q) by lra. rewrite Q.max_r by lra. reflexivity.
  + apply Qltb_false in H0. exists 0. split; [done |].
    rewrite (Q.min_r 1 q) by lra. rewrite Q.max_l by lra. reflexivity.
- apply Qltb_false in H1. exists 1. split; [done |].
  rewrite (Q.min_l 1 q) by lra. rewrite Q.max_r by lra. reflexivity.
Qed.

(** ** The numeric utilities never raise *)

(** Division by a literal that is not zero returns. *)
Lemma fdiv_total (x : pyfloat) (b : Q) :
Qis0 b = false → ∃ y, fdiv x (Fin b) = Ok y.
Proof. intros Hb. unfold fdiv. destruct x; rewrite Hb; eauto. Qed.

Lemma util_cost_range (v : PyVal) : ∃ q, util_cost v = Ok (Fin q) ∧ 0 <= q <= 1.
Proof.
unfold util_cost. destruct (py_float v) as [x|e].
- destruct (fdiv_total (fsub (lit 5.0) x) (Qred 4.0) eq_refl) as [y Hy].
  change (lit 4.0) with (Fin (Qred 4.0)). rewrite Hy. exc_simpl.
  destruct (clip01_range y) as (q & -> & Hq). eauto.
- exists (1 # 2). split; [reflexivity | lra].
Qed.

Lemma util_benefit_range (v : PyVal) : ∃ q, util_benefit v = Ok (Fin q) ∧ 0 <= q <= 1.
Proof.
unfold util_benefit. destruct (py_float v) as [x|e].
- destruct (fdiv_total (fsub x (lit 1.0)) (Qred 4.0) eq_refl) as [y Hy].
  change (lit 4.0) with (Fin (Qred 4.0)). rewrite Hy. exc_simpl.
  destruct (clip01_range y) as (q & -> & Hq). eauto.
- exists (1 # 2). split; [reflexivity | lra].
Qed.

Lemma util_group_range (v : PyVal) : ∃ q, util_group v = Ok (Fin q) ∧ 0 <= q <= 1.
Proof.
unfold util_group. destruct (py_float v) as [x|e].
- destruct (fdiv_total (fabs (fsub x (lit 3.0))) (Qred 2.0) eq_refl) as [y Hy].
  change (lit 2.0) with (Fin (Qred 2.0)). rewrite Hy. exc_simpl.
  destruct (clip01_range (fsub (lit 1.0) y)) as (q & -> & Hq). eauto.
- exists (1 # 2). split; [reflexivity | lra].
Qed.

(** C2.  Whatever the cell holds (a number in or out of the 1..5 range, a
  negative number, an infinity, NaN, text that is or is not a number, a
  boolean, or no value at all), [util_cost], [util_benefit] and
  [util_group] return a float [u] with [0 <= u <= 1]. *)
Theorem numeric_utilities_in_unit_interval (v : PyVal) :
(∃ u, util_cost v = Ok (Fin u) ∧ 0 <= u <= 1) ∧
(∃ u, util_benefit v = Ok (Fin u) ∧ 0 <= u <= 1) ∧
(∃ u, util_group v = Ok (Fin u) ∧ 0 <= u <= 1).
Proof.
split; [apply util_cost_range | split];
  [apply util_benefit_range | apply util_group_range].
Qed.

(** ** The categorical utilities *)

Lemma util_prog_values (v : PyVal) :
util_prog v = Fin 1 ∨ util_prog v = Fin (3 # 5).
Proof.
unfold util_prog. destruct (String.eqb _ "Y"); [left | right]; [done |].
destruct (String.eqb _ "N"); reflexivity.
Qed.

Lemma util_location_values (v : PyVal) :
util_location v = Fin 1 ∨ util_location v = Fin (4 # 5) ∨
util_location v = Fin (9 # 10).
Proof.
unfold util_location. destruct (String.eqb _ "Lindholmen"); [by left |].
destruct (String.eqb _ "Johanneberg"); [by right; left |].
right; right. destruct (String.eqb _ "online"); reflexivity.
Qed.

Lemma util_format_values (v : PyVal) :
util_format v = Fin 1 ∨ util_format v = Fin (9 # 10) ∨
util_format v = Fin (17 # 20).
Proof.
unfold util_format. destruct (contains "lecture" _); [by left |].
destruct (contains "project" _ && _); [by right; left |].
destruct (_ || _); [by right; right | by right; left].
Qed.

Lemma util_exam_values (v : PyVal) :
util_exam v = Fin 1 ∨ util_exam v = Fin (4 # 5) ∨ util_exam v = Fin (7 # 10).
Proof.
unfold util_exam. destruct (contains "proj" _); [by left |].
destruct (_ || _); [by right; left |].
destruct (contains "written" _); [by right; right | by right; left].
Qed.

(** ** [compute_score] always returns *)

Lemma utilities_total (row : Row) :
∃ h w i u a g : Q,
  (util_cost (get row COL_HARD) = Ok (Fin h) ∧ 0 <= h <= 1) ∧
  (util_cost (get row COL_WORK) = Ok (Fin w) ∧ 0 <= w <= 1) ∧
  (util_benefit (get row COL_INTEREST) = Ok (Fin i) ∧ 0 <= i <= 1) ∧
  (util_benefit (get row COL_USEFUL) = Ok (Fin u) ∧ 0 <= u <= 1) ∧
  (util_benefit (get row COL_ALIGN) = Ok (Fin a) ∧ 0 <= a <= 1) ∧
  (util_group (get row COL_GROUP) = Ok (Fin g) ∧ 0 <= g <= 1) ∧
  utilities row =
    Ok (mkUtilities (util_prog (get row COL_PROG))
          (util_location (get row COL_LOC)) (util_format (get row COL_FMT))
          (Fin h) (Fin w) (Fin i) (Fin u) (Fin a) (Fin g)
          (util_exam (get row COL_EXAM))).
Proof.
destruct (util_cost_range (get row COL_HARD)) as (h & Hh & ?).
destruct (util_cost_range (get row COL_WORK)) as (w & Hw & ?).
destruct (util_benefit_range (get row COL_INTEREST)) as (i & Hi & ?).
destruct (util_benefit_range (get row COL_USEFUL)) as (u & Hu & ?).
destruct (util_benefit_range (get row COL_ALIGN)) as (a & Ha & ?).
destruct (util_group_range (get row COL_GROUP)) as (g & Hg & ?).
exists h, w, i, u, a, g. repeat (split; [done |]).
unfold utilities. rewrite Hh, Hw, Hi, Hu, Ha, Hg. reflexivity.
Qed.

(** ** The score in exact arithmetic *)

Lemma fadd_Fin (a b : Q) : Fin a ⊕ Fin b = Fin (Qred (a + b)).
Proof. reflexivity. Qed.

Lemma fmul_Fin (a b : Q) : Fin a ⊗ Fin b = Fin (Qred (a * b)).
Proof. reflexivity. Qed.

Lemma score_of_Fin (p l f h w i u a g e : Q) :
∃ s, score_of (mkUtilities (Fin p) (Fin l) (Fin f) (Fin h) (Fin w) (Fin i)
                 (Fin u) (Fin a) (Fin g) (Fin e)) = Fin s ∧
     s = Qred s ∧ s == score_Q p l f h w i u a g e.
Proof.
unfold score_of, w_prog, w_loc, w_fmt, w_hard, w_work, w_interest, w_useful,
  w_align, w_group, w_exam, lit. cbn [u_prog u_loc u_fmt u_hard u_work
  u_inter u_useful u_align u_group u_exam].
rewrite !fmul_Fin, !fadd_Fin, fmul_Fin. eexists. split; [reflexivity |].
split; [symmetry; apply Qred_complete, Qred_correct |].
rewrite !Qred_correct. unfold score_Q. ring.
Qed.

Lemma compute_score_total (row : Row) :
∃ h w i u a g s : Q,
  (0 <= h <= 1 ∧ 0 <= w <= 1 ∧ 0 <= i <= 1 ∧ 0 <= u <= 1 ∧ 0 <= a <= 1 ∧
   0 <= g <= 1) ∧
  utilities row =
    Ok (mkUtilities (util_prog (get row COL_PROG))
          (util_location (get row COL_LOC)) (util_format (get row COL_FMT))
          (Fin h) (Fin w) (Fin i) (Fin u) (Fin a) (Fin g)
          (util_exam (get row COL_EXAM))) ∧
  compute_score row =
    Ok [ ("u_prog", util_prog (get row COL_PROG));
         ("u_loc", util_location (get row COL_LOC));
         ("u_fmt", util_format (get row COL_FMT));
         ("u_hard", Fin h); ("u_work", Fin w); ("u_interest", Fin i);
         ("u_useful", Fin u); ("u_align", Fin a); ("u_group", Fin g);
         ("u_exam", util_exam (get row COL_EXAM)); ("Score", Fin s) ] ∧
  s = Qred s ∧
  ∃ p l f e : Q,
    util_prog (get row COL_PROG) = Fin p ∧
    util_location (get row COL_LOC) = Fin l ∧
    util_format (get row COL_FMT) = Fin f ∧
    util_exam (get row COL_EXAM) = Fin e ∧
    (3 # 5 <= p <= 1 ∧ 4 # 5 <= l <= 1 ∧ 17 # 20 <= f <= 1 ∧ 7 # 10 <= e <= 1) ∧
    s == score_Q p l f h w i u a g e.
Proof.
destruct (utilities_total row)
  as (h & w & i & u & a & g & [_ ?] & [_ ?] & [_ ?] & [_ ?] & [_ ?] & [_ ?] & HU).
assert (∃ p, util_prog (get row COL_PROG) = Fin p ∧ 3 # 5 <= p <= 1)
  as (p & Hp & ?).
{ destruct (util_prog_values (get row COL_PROG)) as [-> | ->];
    eexists; (split; [reflexivity | lra]). }
assert (∃ l, util_location (get row COL_LOC) = Fin l ∧ 4 # 5 <= l <= 1)
  as (l & Hl & ?).
{ destruct (util_location_values (get row COL_LOC)) as [-> | [-> | ->]];
    eexists; (split; [reflexivity | lra]). }
assert (∃ f, util_format (get row COL_FMT) = Fin f ∧ 17 # 20 <= f <= 1)
  as (f & Hf & ?).
{ destruct (util_format_values (get row COL_FMT)) as [-> | [-> | ->]];
    eexists; (split; [reflexivity | lra]). }
assert (∃ e, util_exam (get row COL_EXAM) = Fin e ∧ 7 # 10 <= e <= 1)
  as (e & He & ?).
{ destruct (util_exam_values (get row COL_EXAM)) as [-> | [-> | ->]];
    eexists; (split; [reflexivity | lra]). }
destruct (score_of_Fin p l f h w i u a g e) as (s & Hs & Hred & Hq).
exists h, w, i, u, a, g, s. split; [done |]. split; [done |].
split.
- unfold compute_score. rewrite HU. exc_simpl.
  cbn [u_prog u_loc u_fmt u_hard u_work u_inter u_useful u_align u_group u_exam].
  rewrite Hp, Hl, Hf, He. rewrite Hs. reflexivity.
- split; [done |]. exists p, l, f, e. done.
Qed.

(** ** C1: the aggregator *)

Lemma spec_utilities_total (row : Row) :
∃ h w i u a g : Q,
  utilities row =
    Ok (mkUtilities (util_prog (get row COL_PROG))
          (util_location (get row COL_LOC)) (util_format (get row COL_FMT))
          (Fin h) (Fin w) (Fin i) (Fin u) (Fin a) (Fin g)
          (util_exam (get row COL_EXAM))) ∧
  spec_utilities row =
    Ok (zip attributes
          [ util_prog (get row COL_PROG); util_location (get row COL_LOC);
            util_format (get row COL_FMT); Fin h; Fin w; Fin i; Fin u;
            Fin a; Fin g; util_exam (get row COL_EXAM) ]).
Proof.
destruct (utilities_total row)
  as (h & w & i & u & a & g & [Hh _] & [Hw _] & [Hi _] & [Hu _] & [Ha _]
      & [Hg _] & HU).
exists h, w, i, u, a, g. split; [done |].
unfold spec_utilities, attributes.
cbn [mapM attr_utility attr_field].
rewrite Hh, Hw, Hi, Hu, Ha, Hg. reflexivity.
Qed.

(** C1.  For every row, [compute_score] returns, and what it returns is what
  the specification describes: each of the ten attributes' utility
  functions applied to the row's cell for it (a column the row lacks reads
  as [None]), listed under the names [u_prog], [u_loc], [u_fmt], [u_hard],
  [u_work], [u_interest], [u_useful], [u_align], [u_group], [u_exam], and
  then [Score], 100 times the sum of weight times utility. *)
Theorem compute_score_is_weighted_sum (row : Row) :
compute_score row = spec_result row ∧
(∃ d, compute_score row = Ok d ∧
      map fst d = [ "u_prog"; "u_loc"; "u_fmt"; "u_hard"; "u_work";
                    "u_interest"; "u_useful"; "u_align"; "u_group";
                    "u_exam"; "Score" ]%string) ∧
(row !! COL_LOC = None → get row COL_LOC = PyNone).
Proof.
destruct (compute_score_total row)
  as (h & w & i & u & a & g & s & _ & HU & HC & Hred & p & l & f & e
      & Hp & Hl & Hf & He & _ & Hs).
destruct (spec_utilities_total row) as (h' & w' & i' & u' & a' & g' & HU' & HS).
rewrite HU in HU'. injection HU' as <- <- <- <- <- <-.
split; [| split].
- rewrite HC. unfold spec_result. rewrite HS. exc_simpl.
  cbn [zip zip_with attributes map attr_name fst snd app]. repeat f_equal.
  unfold weighted_sum. cbn [foldl attr_weight fst snd].
  rewrite Hp, Hl, Hf, He.
  unfold w_prog, w_loc, w_fmt, w_hard, w_work, w_interest, w_useful,
    w_align, w_group, w_exam, lit.
  rewrite !fmul_Fin, !fadd_Fin, fmul_Fin. rewrite Hred. f_equal.
  apply Qred_complete. rewrite Hs, !Qred_correct. unfold score_Q. ring.
- eexists. split; [exact HC | reflexivity].
- intros Hnone. unfold get. rewrite Hnone. reflexivity.
Qed.

(** ** C3 and C10: bounds on the score *)

(** The weights are not negative and sum to 1. *)
Lemma weights_sum :
∃ wp wl wf wh ww wi wu wa wg we : Q,
  [w_prog; w_loc; w_fmt; w_hard; w_work; w_interest; w_useful; w_align;
   w_group; w_exam]
  = [Fin wp; Fin wl; Fin wf; Fin wh; Fin ww; Fin wi; Fin wu; Fin wa; Fin wg;
     Fin we] ∧
  Forall (λ x, 0 <= x) [wp; wl; wf; wh; ww; wi; wu; wa; wg; we] ∧
  wp + wl + wf + wh + ww + wi + wu + wa + wg + we == 1.
Proof.
do 10 eexists. split; [reflexivity |]. split.
- repeat (apply List.Forall_cons; [by vm_compute |]). apply List.Forall_nil.
- reflexivity.
Qed.

(** C3.  For every row, [compute_score] returns a [Score] between 0 and
  100. *)
Theorem score_between_0_and_100 (row : Row) :
∃ d s, compute_score row = Ok d ∧ dict_get d "Score" = Some (Fin s) ∧
       0 <= s <= 100.
Proof.
destruct (compute_score_total row)
  as (h & w & i & u & a & g & s & Hr & _ & HC & _ & p & l & f & e
      & _ & _ & _ & _ & Hc & Hs).
eexists _, s. split; [exact HC |]. split; [reflexivity |].
rewrite Hs. unfold score_Q. lra.
Qed.

(** C10.  For every row the [Score] is at least 14.25: [util_prog] is never
  below 0.6, [util_location] never below 0.8, [util_format] never below
  0.85, and no utility is negative.  So a [Score] of 0 is never returned. *)
Theorem score_at_least_14_25 (row : Row) :
(∃ p l f, util_prog (get row COL_PROG) = Fin p ∧ 0.6 <= p ∧
          util_location (get row COL_LOC) = Fin l ∧ 0.8 <= l ∧
          util_format (get row COL_FMT) = Fin f ∧ 0.85 <= f) ∧
∃ d s, compute_score row = Ok d ∧ dict_get d "Score" = Some (Fin s) ∧
       14.25 <= s ∧ 0 < s.
Proof.
destruct (compute_score_total row)
  as (h & w & i & u & a & g & s & Hr & _ & HC & _ & p & l & f & e
      & Hp & Hl & Hf & _ & Hc & Hs).
split.
- exists p, l, f. repeat split; try done; lra.
- eexists _, s. split; [exact HC |]. split; [reflexivity |].
  rewrite Hs. unfold score_Q. lra.
Qed.

(** ** C4: what the utilities return when the value is missing *)

(** For a column the table lacks, [row.get] gives [None], and every utility
  returns its default. *)
Lemma defaults_on_None :
util_prog PyNone = lit 0.6 ∧ util_location PyNone = lit 0.9 ∧
util_format PyNone = lit 0.9 ∧ util_exam PyNone = lit 0.8 ∧
util_cost PyNone = Ok (lit 0.5) ∧ util_benefit PyNone = Ok (lit 0.5) ∧
util_group PyNone = Ok (lit 0.5).
Proof. repeat split; reflexivity. Qed.

(** For an empty cell, which the table reader hands over as NaN, the four
  categorical utilities return their defaults. *)
Lemma categorical_defaults_on_NaN :
util_prog (PyFloat NaN) = lit 0.6 ∧ util_location (PyFloat NaN) = lit 0.9 ∧
util_format (PyFloat NaN) = lit 0.9 ∧ util_exam (PyFloat NaN) = lit 0.8.
Proof. repeat split; reflexivity. Qed.

(** No utility raises, whatever the cell holds. *)
Lemma utilities_never_raise (v : PyVal) :
(∃ u, util_cost v = Ok u) ∧ (∃ u, util_benefit v = Ok u) ∧
(∃ u, util_group v = Ok u).
Proof.
destruct (util_cost_range v) as (a & -> & _).
destruct (util_benefit_range v) as (b & -> & _).
destruct (util_group_range v) as (c & -> & _).
split; [| split]; eexists; reflexivity.
Qed.

(** C4.  On an empty cell (NaN) the three numeric utilities do not return
  the default 0.5: [float(nan)] succeeds, the linear map gives NaN, and
  [clip01(nan)] is [max(0.0, min(1.0, nan))]: [nan < 1.0] is false, so
  [min] keeps 1.0, and [max] then takes it over 0.0.  So they return 1.0,
  the best utility, for a rating that is not there. *)
Theorem numeric_utilities_on_empty_cell :
py_float (PyFloat NaN) = Ok NaN ∧
py_min (lit 1.0) NaN = lit 1.0 ∧
clip01 NaN = lit 1.0 ∧
util_cost (PyFloat NaN) = Ok (lit 1.0) ∧
util_benefit (PyFloat NaN) = Ok (lit 1.0) ∧
util_group (PyFloat NaN) = Ok (lit 1.0) ∧
lit 1.0 ≠ lit 0.5.
Proof. repeat split; try reflexivity. discriminate. Qed.

(** ** C5: [util_cost] *)

Lemma util_cost_parsed (v : PyVal) (x : pyfloat) :
py_float v = Ok x →
util_cost v = (u ← fdiv (fsub (lit 5.0) x) (lit 4.0); Ok (clip01 u)).
Proof. intros H. unfold util_cost. rewrite H. reflexivity. Qed.

Lemma util_cost_Fin (v : PyVal) (x : Q) :
py_float v = Ok (Fin x) →
∃ u, util_cost v = Ok (Fin u) ∧ u == Qmax 0 (Qmin 1 ((5 - x) / 4)).
Proof.
intros H. rewrite (util_cost_parsed _ _ H).
change (lit 5.0) with (Fin 5). change (lit 4.0) with (Fin 4).
change (fdiv (fsub (Fin 5) (Fin x)) (Fin 4))
  with (Ok (Fin (Qred (Qred (5 - x) / 4)))).
exc_simpl. destruct (clip01_Fin (Qred (Qred (5 - x) / 4))) as (u & -> & Hu).
exists u. split; [done |]. rewrite Hu, !Qred_correct. reflexivity.
Qed.

(** C5.  [util_cost] returns 0.5 when [float] fails; on a parsed finite
  number [x] it returns [(5 - x) / 4] clamped to the unit interval, the
  clamp coming after the linear map; so it gives 1.0 at 1, 0.0 at 5, 0.5
  at 3, 0.5 at the text "x", 0.0 at 6 (from -0.25) and 1.0 at 0 (from
  1.25). *)
Theorem util_cost_spec :
(∀ v, match py_float v with
      | Raise _ => util_cost v = Ok (lit 0.5)
      | Ok (Fin x) =>
          ∃ u, util_cost v = Ok (Fin u) ∧ u == Qmax 0 (Qmin 1 ((5 - x) / 4))
      | Ok PInf => util_cost v = Ok (lit 0.0)
      | Ok NInf => util_cost v = Ok (lit 1.0)
      | Ok NaN => util_cost v = Ok (lit 1.0)
      end) ∧
util_cost (PyInt 1) = Ok (lit 1.0) ∧
util_cost (PyInt 5) = Ok (lit 0.0) ∧
util_cost (PyInt 3) = Ok (lit 0.5) ∧
util_cost (PyStr "x") = Ok (lit 0.5) ∧
(fdiv (fsub (lit 5.0) (lit 6.0)) (lit 4.0) = Ok (lit (-0.25)) ∧
 util_cost (PyInt 6) = Ok (lit 0.0)) ∧
(fdiv (fsub (lit 5.0) (lit 0.0)) (lit 4.0) = Ok (lit 1.25) ∧
 util_cost (PyInt 0) = Ok (lit 1.0)).
Proof.
split; [| repeat split; reflexivity].
intros v. destruct (py_float v) as [[x| | |]|e] eqn:H.
- by apply util_cost_Fin.
- by rewrite (util_cost_parsed _ _ H).
- by rewrite (util_cost_parsed _ _ H).
- by rewrite (util_cost_parsed _ _ H).
- unfold util_cost. by rewrite H.
Qed.

(** ** C7: the score as a function of one utility *)

Lemma finite_utilities_Fin (u : Utilities) :
  finite_utilities u = true →
  ∃ p l f h w i us a g e,
    u = mkUtilities (Fin p) (Fin l) (Fin f) (Fin h) (Fin w) (Fin i) (Fin us)
          (Fin a) (Fin g) (Fin e).
Proof.
  destruct u as [p l f h w i us a g e]. unfold finite_utilities.
  cbn [u_prog u_loc u_fmt u_hard u_work u_inter u_useful u_align u_group
       u_exam forallb].
  intros H. repeat (apply andb_prop in H as [? H]). clear H.
  repeat match goal with
         | H : is_finite ?x = true |- _ => destruct x; [clear H | discriminate H ..]
         end.
  by do 10 eexists.
Qed.

(** Comparing two scores comes down to comparing their exact values. *)
Lemma score_le_Fin (p l f h w i u a g e p' l' f' h' w' i' u' a' g' e' : Q) :
  score_Q p l f h w i u a g e <= score_Q p' l' f' h' w' i' u' a' g' e' →
  fle (score_of (mkUtilities (Fin p) (Fin l) (Fin f) (Fin h) (Fin w) (Fin i)
                   (Fin u) (Fin a) (Fin g) (Fin e)))
      (score_of (mkUtilities (Fin p') (Fin l') (Fin f') (Fin h') (Fin w')
                   (Fin i') (Fin u') (Fin a') (Fin g') (Fin e'))) = true.
Proof.
  intros H.
  destruct (score_of_Fin p l f h w i u a g e) as (s & -> & _ & Hs).
  destruct (score_of_Fin p' l' f' h' w' i' u' a' g' e') as (s' & -> & _ & Hs').
  apply fle_Fin. by rewrite Hs, Hs'.
Qed.

(** [util_cost] falls, or stays, as the rating rises. *)
Lemma util_cost_antitone (x y : Q) :
  x <= y →
  ∃ ux uy, util_cost (PyFloat (Fin x)) = Ok (Fin ux) ∧
           util_cost (PyFloat (Fin y)) = Ok (Fin uy) ∧ uy <= ux.
Proof.
  intros Hxy.
  destruct (util_cost_Fin (PyFloat (Fin x)) x eq_refl) as (ux & Hx & Ex).
  destruct (util_cost_Fin (PyFloat (Fin y)) y eq_refl) as (uy & Hy & Ey).
  exists ux, uy. repeat (split; [done |]). rewrite Ex, Ey.
  apply Q.max_le_compat_l, Q.min_le_compat_l.
  unfold Qdiv. apply Qmult_le_compat_r; [lra | by vm_compute].
Qed.

(** C7, as the code has it.  With the weights fixed, the score does not fall
    when one utility is raised and the other nine are kept; this holds for
    the benefit-type utilities [u_interest], [u_useful], [u_align] and just
    the same for the cost-type utilities [u_hard], [u_work], whose weights
    are positive too.  The cost direction is inside [util_cost]: a higher
    hardness or workload rating gives a utility that is not higher. *)
Theorem score_nondecreasing_in_each_utility (u : Utilities) (x y : Q) :
  finite_utilities u = true → x <= y →
  fle (score_of (with_inter (Fin x) u)) (score_of (with_inter (Fin y) u)) = true ∧
  fle (score_of (with_useful (Fin x) u)) (score_of (with_useful (Fin y) u)) = true ∧
  fle (score_of (with_align (Fin x) u)) (score_of (with_align (Fin y) u)) = true ∧
  fle (score_of (with_hard (Fin x) u)) (score_of (with_hard (Fin y) u)) = true ∧
  fle (score_of (with_work (Fin x) u)) (score_of (with_work (Fin y) u)) = true ∧
  ∃ ux uy, util_cost (PyFloat (Fin x)) = Ok (Fin ux) ∧
           util_cost (PyFloat (Fin y)) = Ok (Fin uy) ∧ uy <= ux.
Proof.
  intros Hu Hxy.
  destruct (finite_utilities_Fin u Hu) as (p & l & f & h & w & i & us & a & g & e & ->).
  unfold with_inter, with_useful, with_align, with_hard, with_work.
  cbn [u_prog u_loc u_fmt u_hard u_work u_inter u_useful u_align u_group u_exam].
  repeat split; try (apply score_le_Fin; unfold score_Q; lra).
  by apply util_cost_antitone.
Qed.

(** ** C8: the exam type *)

Lemma get_agree (r1 r2 : Row) (col : string) :
  r1 !! col = r2 !! col → get r1 col = get r2 col.
Proof. intros H. unfold get. by rewrite H. Qed.

(** C8.  The weight of the exam type is 0.  So two rows that agree on every
    column but the exam-type one get the same [Score], while each row's
    [u_exam] is what [util_exam] gives for its own exam cell and is part of
    what [compute_score] returns. *)
Theorem exam_type_has_no_influence (r1 r2 : Row) :
  (∀ col, col ≠ COL_EXAM → r1 !! col = r2 !! col) →
  w_exam = Fin 0 ∧
  ∃ d1 d2 s,
    compute_score r1 = Ok d1 ∧ compute_score r2 = Ok d2 ∧
    dict_get d1 "Score" = Some (Fin s) ∧ dict_get d2 "Score" = Some (Fin s) ∧
    dict_get d1 "u_exam" = Some (util_exam (get r1 COL_EXAM)) ∧
    dict_get d2 "u_exam" = Some (util_exam (get r2 COL_EXAM)).
Proof.
  intros Hagree. split; [reflexivity |].
  destruct (compute_score_total r1)
    as (h & w & i & u & a & g & s & _ & HU1 & HC1 & Hred1 & p & l & f & e
        & Hp & Hl & Hf & He & _ & Hs1).
  destruct (compute_score_total r2)
    as (h' & w' & i' & u' & a' & g' & s' & _ & HU2 & HC2 & Hred2 & p' & l' & f'
        & e' & Hp' & Hl' & Hf' & He' & _ & Hs2).
  assert (s = s') as <-.
  { destruct (utilities_total r1)
      as (? & ? & ? & ? & ? & ? & [Hh _] & [Hw _] & [Hi _] & [Hu _] & [Ha _]
          & [Hg _] & HU1').
    destruct (utilities_total r2)
      as (? & ? & ? & ? & ? & ? & [Hh' _] & [Hw' _] & [Hi' _] & [Hu' _]
          & [Ha' _] & [Hg' _] & HU2').
    rewrite HU1 in HU1'. injection HU1' as <- <- <- <- <- <-.
    rewrite HU2 in HU2'. injection HU2' as <- <- <- <- <- <-.
    rewrite (get_agree r1 r2 COL_PROG) in Hp by (by apply Hagree).
    rewrite (get_agree r1 r2 COL_LOC) in Hl by (by apply Hagree).
    rewrite (get_agree r1 r2 COL_FMT) in Hf by (by apply Hagree).
    rewrite (get_agree r1 r2 COL_HARD) in Hh by (by apply Hagree).
    rewrite (get_agree r1 r2 COL_WORK) in Hw by (by apply Hagree).
    rewrite (get_agree r1 r2 COL_INTEREST) in Hi by (by apply Hagree).
    rewrite (get_agree r1 r2 COL_USEFUL) in Hu by (by apply Hagree).
    rewrite (get_agree r1 r2 COL_ALIGN) in Ha by (by apply Hagree).
    rewrite (get_agree r1 r2 COL_GROUP) in Hg by (by apply Hagree).
    assert (p = p') as <- by congruence. assert (l = l') as <- by congruence.
    assert (f = f') as <- by congruence. assert (h = h') as <- by congruence.
    assert (w = w') as <- by congruence. assert (i = i') as <- by congruence.
    assert (u = u') as <- by congruence. assert (a = a') as <- by congruence.
    assert (g = g') as <- by congruence.
    rewrite Hred1, Hred2. apply Qred_complete. rewrite Hs1, Hs2.
    unfold score_Q. ring. }
  eexists _, _, s. split; [exact HC1 |]. split; [exact HC2 |].
  repeat split; reflexivity.
Qed.

(** ** Sorting *)

Lemma is_finite_Fin (x : pyfloat) : is_finite x = true → ∃ q, x = Fin q.
Proof. destruct x; try discriminate. eauto. Qed.

Lemma fle_trans (x y z : pyfloat) :
  fle x y = true → fle y z = true → fle x z = true.
Proof.
  destruct x as [a| | |], y as [b| | |], z as [c| | |]; cbn; try done.
  rewrite !Qle_bool_iff. apply Qle_trans.
Qed.

(** On finite floats, one of [x <= y] and [y <= x] holds. *)
Lemma fle_total (x y : pyfloat) :
  is_finite x = true → is_finite y = true → fle x y = false → fle y x = true.
Proof.
  intros [a ->]%is_finite_Fin [b ->]%is_finite_Fin. cbn.
  rewrite <- not_true_iff_false, !Qle_bool_iff. lra.
Qed.

Section InsertionSortProofs.

Context {A : Type} (key : A → pyfloat).

Local Abbreviation R := (λ a b : A, fle (key b) (key a) = true).

Lemma insert_desc_perm (x : A) (l : list A) :
  Permutation (x :: l) (insert_desc key x l).
Proof.
  induction l as [|y l IH]; cbn; [done |].
  destruct (goes_before key x y); [done |].
  rewrite <- IH. apply perm_swap.
Qed.

Lemma isort_desc_perm (l : list A) : Permutation l (isort_desc key l).
Proof.
  induction l as [|x l IH]; cbn; [done |].
  rewrite <- insert_desc_perm. by constructor.
Qed.

Lemma goes_before_true (x y : A) :
  goes_before key x y = true → fle (key y) (key x) = true.
Proof. done. Qed.

Lemma goes_before_false (x y : A) :
  is_finite (key x) = true → is_finite (key y) = true →
  goes_before key x y = false → fle (key x) (key y) = true.
Proof.
  unfold goes_before. intros Hx Hy. by apply fle_total.
Qed.

Lemma insert_desc_sorted (x : A) (l : list A) :
  is_finite (key x) = true →
  Forall (λ a, is_finite (key a) = true) l →
  StronglySorted R l → StronglySorted R (insert_desc key x l).
Proof.
  intros Hx Hl Hs. induction Hs as [|y l Hs IH Hy]; cbn.
  - repeat constructor.
  - apply Forall_cons in Hl as [Hfy Hl].
    destruct (goes_before key x y) eqn:G.
    + apply goes_before_true in G. constructor; [by constructor |].
      constructor; [done |].
      eapply Forall_impl; [exact Hy |]. cbn. intros z Hz.
      by apply (fle_trans _ (key y)).
    + apply goes_before_false in G; [| done ..].
      constructor; [by apply IH |].
      rewrite <- insert_desc_perm. by constructor.
Qed.

Lemma isort_desc_sorted (l : list A) :
  Forall (λ a, is_finite (key a) = true) l →
  StronglySorted R (isort_desc key l).
Proof.
  induction l as [|x l IH]; cbn; intros Hl; [constructor |].
  apply Forall_cons in Hl as [Hx Hl].
  apply insert_desc_sorted; [done | | by apply IH].
  by rewrite <- isort_desc_perm.
Qed.

End InsertionSortProofs.

(** The insertion sort keeps the promise of [sort_values]. *)
Lemma isort_desc_sorts_descending {A : Type} : sorts_descending (@isort_desc A).
Proof.
  intros key l Hl. split; [apply isort_desc_perm | by apply isort_desc_sorted].
Qed.

Lemma StronglySorted_lookup {A : Type} (R : A → A → Prop) (l : list A)
    (i j : nat) (a b : A) :
  StronglySorted R l → (i < j)%nat → l !! i = Some a → l !! j = Some b → R a b.
Proof.
  intros Hs. revert i j. induction Hs as [|x l Hs IH Hx]; intros i j Hij Hi Hj.
  - done.
  - destruct j as [|j]; [lia |]. cbn in Hj. destruct i as [|i]; cbn in Hi.
    + injection Hi as ->. by eapply (proj1 (Forall_lookup _ _) Hx).
    + apply (IH i j); [lia | done ..].
Qed.

(** Rows with different keys have one descending order. *)
Lemma flt_not_fle (x y : pyfloat) : flt x y = true → fle y x = false.
Proof.
  destruct x as [a| | |], y as [b| | |]; cbn; try done.
  rewrite Qltb_true. intros H. apply not_true_iff_false.
  rewrite Qle_bool_iff. lra.
Qed.

Lemma sorted_perm_unique {A : Type} (key : A → pyfloat) (l1 l2 : list A) :
  Permutation l1 l2 →
  StronglySorted (λ a b, flt (key b) (key a) = true) l1 →
  StronglySorted (λ a b, fle (key b) (key a) = true) l2 →
  l1 = l2.
Proof.
  revert l2. induction l1 as [|x l1 IH]; intros l2 Hp H1 H2.
  - by apply Permutation_nil in Hp.
  - destruct l2 as [|y l2]; [by apply Permutation_sym, Permutation_nil in Hp |].
    apply StronglySorted_inv in H1 as [H1 Hx]. apply StronglySorted_inv in H2 as [H2 Hy].
    assert (y = x) as ->.
    { assert (y ∈ x :: l1) as Iy by (rewrite Hp; left).
      assert (x ∈ y :: l2) as Ix by (rewrite <- Hp; left).
      apply elem_of_cons in Iy as [-> | Iy]; [done |].
      apply elem_of_cons in Ix as [-> | Ix]; [done |].
      pose proof (proj1 (Forall_forall _ _) Hx y Iy) as Lt.
      pose proof (proj1 (Forall_forall _ _) Hy x Ix) as Le.
      cbn in Lt, Le. apply flt_not_fle in Lt. congruence. }
    f_equal. apply IH; [by apply Permutation_cons_inv in Hp | done ..].
Qed.

(** ** The table steps of [main] *)

Lemma df_apply_total (df : list Row) :
  ∃ scores_df, df_apply df = Ok scores_df ∧
               Forall2 (λ row d, compute_score row = Ok d) df scores_df.
Proof.
  unfold df_apply. induction df as [|row df (scores & IH & HF)]; cbn [mapM].
  - by exists [].
  - destruct (compute_score_total row)
      as (? & ? & ? & ? & ? & ? & ? & _ & _ & HC & _).
    rewrite HC, IH. cbn. eexists. split; [reflexivity |]. by constructor.
Qed.

Lemma concat_scored (df : list Row) (scores_df : list ScoreDict) :
  Forall2 (λ row d, compute_score row = Ok d) df scores_df →
  Forall (λ r, compute_score r.1 = Ok r.2) (concat df scores_df).
Proof. unfold concat. induction 1; cbn; by constructor. Qed.

(** The [Score] cell of an output row is a finite number in lowest terms. *)
Lemma score_column (r : Row * ScoreDict) :
  compute_score r.1 = Ok r.2 →
  ∃ s, column "Score" r = Fin s ∧ s = Qred s ∧ 0 <= s <= 100.
Proof.
  intros H.
  destruct (compute_score_total r.1)
    as (h & w & i & u & a & g & s & Hr & _ & HC & Hred & p & l & f & e
        & _ & _ & _ & _ & Hc & Hs).
  rewrite H in HC. injection HC as HC. exists s. unfold column. rewrite HC.
  split; [reflexivity |]. split; [done |]. rewrite Hs. unfold score_Q. lra.
Qed.

(** On a table with rows and columns and no [Score] column of its own the
    table steps return; on every other table [sort_values] raises. *)
Lemma main_table_total
    (sort : (Row * ScoreDict → pyfloat) → list (Row * ScoreDict) → list (Row * ScoreDict))
    (df : DataFrame) :
  one_axis_empty df = false → "Score" ∉ df_columns df →
  ∃ scores_df, df_apply (df_rows df) = Ok scores_df ∧
    Forall2 (λ row d, compute_score row = Ok d) (df_rows df) scores_df ∧
    main_table sort df = Ok (sort (column "Score") (concat (df_rows df) scores_df)).
Proof.
  intros Hne Hcol.
  destruct (df_apply_total (df_rows df)) as (scores & Happly & HF).
  exists scores. repeat (split; [done |]). unfold main_table.
  rewrite Hne, Happly. exc_simpl. by rewrite bool_decide_eq_false_2.
Qed.

(** ** The globals *)

(** Evaluating [score] leaves the globals as they are. *)
Lemma run_score_frame (u : Utilities) (g : Globals) :
  ∃ s, run_score u g = (Ok s, g).
Proof. eexists. reflexivity. Qed.

(** With the weights the module body assigns, [score] is [score_of]. *)
Lemma run_score_module (u : Utilities) :
  run_score u module_globals = (Ok (score_of u), module_globals).
Proof. reflexivity. Qed.

(** A call of [compute_score] returns a dict and leaves the globals as it
    found them. *)
Lemma run_compute_score_frame (row : Row) (g : Globals) :
  ∃ d, run_compute_score row g = (Ok d, g).
Proof.
  destruct (utilities_total row) as (? & ? & ? & ? & ? & ? & _ & _ & _ & _ & _ & _ & Hu).
  unfold run_compute_score, run_bind, call. rewrite Hu.
  destruct (run_score_frame (mkUtilities (util_prog (get row COL_PROG))
              (util_location (get row COL_LOC)) (util_format (get row COL_FMT))
              (Fin x) (Fin x0) (Fin x1) (Fin x2) (Fin x3) (Fin x4)
              (util_exam (get row COL_EXAM))) g) as [s ->].
  eexists. reflexivity.
Qed.

Lemma run_compute_score_module (row : Row) :
  run_compute_score row module_globals = (compute_score row, module_globals).
Proof.
  unfold run_compute_score, compute_score, run_bind, call.
  destruct (utilities row) as [u|e]; [| reflexivity].
  rewrite run_score_module. reflexivity.
Qed.

(** [apply] calls [compute_score] on every row with the globals the run
    started with, and leaves them as they were. *)
Lemma run_df_apply_frame (rows : list Row) (g : Globals) :
  ∃ scores_df, run_df_apply rows g = (Ok scores_df, g) ∧
    Forall2 (λ row d, run_compute_score row g = (Ok d, g)) rows scores_df.
Proof.
  unfold run_df_apply. induction rows as [|row rows (scores & IH & HF)].
  - by exists [].
  - destruct (run_compute_score_frame row g) as [d Hd].
    exists (d :: scores). split; [| by constructor].
    cbn [run_mapM]. unfold run_bind at 1. rewrite Hd.
    unfold run_bind at 1. rewrite IH. reflexivity.
Qed.

Lemma run_df_apply_module (rows : list Row) :
  run_df_apply rows module_globals = (df_apply rows, module_globals).
Proof.
  unfold run_df_apply, df_apply. induction rows as [|row rows IH]; [done |].
  cbn [run_mapM mapM]. unfold run_bind at 1. rewrite run_compute_score_module.
  destruct (compute_score row) as [d|e]; [| reflexivity].
  unfold run_bind at 1. rewrite IH. cbn [Py.bind].
  destruct (mapM compute_score rows); reflexivity.
Qed.

Lemma run_main_table_frame
    (sort : (Row * ScoreDict → pyfloat) → list (Row * ScoreDict) → list (Row * ScoreDict))
    (df : DataFrame) (g : Globals) :
  ∃ out, run_main_table sort df g = (out, g).
Proof.
  unfold run_main_table. destruct (one_axis_empty df).
  - destruct (bool_decide _); eexists; reflexivity.
  - destruct (run_df_apply_frame (df_rows df) g) as (scores & H & _).
    unfold run_bind. rewrite H. destruct (bool_decide _); eexists; reflexivity.
Qed.

(** With the weights the module body assigns, the table steps as a run
    return what [main_table] returns. *)
Lemma run_main_table_module
    (sort : (Row * ScoreDict → pyfloat) → list (Row * ScoreDict) → list (Row * ScoreDict))
    (df : DataFrame) :
  run_main_table sort df module_globals = (main_table sort df, module_globals).
Proof.
  unfold run_main_table, main_table. destruct (one_axis_empty df).
  - by destruct (bool_decide _).
  - unfold run_bind. rewrite run_df_apply_module.
    destruct (df_apply (df_rows df)) as [scores|e]; [| reflexivity].
    exc_simpl. by destruct (bool_decide _).
Qed.

(** C9.  A run of the table steps reads the weights and assigns none: it
    leaves the globals as it found them, so a second run in the same
    process, on the same table, starts from the same weights and returns
    the same scores and the same output table, whatever function of the key
    column and the table [sort_values] is.  The dict of a row is what
    [compute_score] returns for that row alone under these weights, whatever
    rows were scored before it.  With the weights the module body assigns,
    the run returns what [main_table] returns. *)
Theorem scoring_is_deterministic
    (sort : (Row * ScoreDict → pyfloat) → list (Row * ScoreDict) → list (Row * ScoreDict))
    (df : DataFrame) (g : Globals) :
  ∃ out,
    run_main_table sort df g = (out, g) ∧
    run_twice (run_main_table sort df) g = (Ok (out, out), g) ∧
    (∃ scores_df,
       run_df_apply (df_rows df) g = (Ok scores_df, g) ∧
       ∀ i row, df_rows df !! i = Some row →
         ∃ d, scores_df !! i = Some d ∧ run_compute_score row g = (Ok d, g)) ∧
    run_main_table sort df module_globals = (main_table sort df, module_globals).
Proof.
  destruct (run_main_table_frame sort df g) as [out Hout].
  exists out. split; [done |]. split.
  { unfold run_twice. by rewrite !Hout. }
  split.
  - destruct (run_df_apply_frame (df_rows df) g) as (scores & H & HF).
    exists scores. split; [done |]. intros i row Hi.
    by apply (Forall2_lookup_l _ _ _ _ _ HF Hi).
  - apply run_main_table_module.
Qed.

(** ** Further properties of the numeric utilities *)

(** What the clamp value tells about its argument. *)
Ltac clamp_cases u0 :=
  let m := fresh "m" in
  let M := fresh "M" in
  pose proof (Q.min_spec 1 u0); pose proof (Q.max_spec 0 (Qmin 1 u0));
  set (m := Qmin 1 u0) in *; set (M := Qmax 0 m) in *.

(** Names the quotient [t] of [n] by the constant [c], keeping [t * c == n]. *)
Ltac linear_arg t n c u0 :=
  let E := fresh "E" in
  remember t as u0 eqn:E;
  assert (u0 * c == n) by (rewrite E; field);
  clear E.

Lemma clamp_range (u0 : Q) : 0 <= Qmax 0 (Qmin 1 u0) <= 1.
Proof. clamp_cases u0. lra. Qed.

Lemma clamp_mono (a b : Q) : a <= b → Qmax 0 (Qmin 1 a) <= Qmax 0 (Qmin 1 b).
Proof. intros H. apply Q.max_le_compat_l, Q.min_le_compat_l, H. Qed.

Lemma util_benefit_parsed (v : PyVal) (x : pyfloat) :
  py_float v = Ok x →
  util_benefit v = (u ← fdiv (fsub x (lit 1.0)) (lit 4.0); Ok (clip01 u)).
Proof. intros H. unfold util_benefit. rewrite H. reflexivity. Qed.

Lemma util_benefit_Fin (v : PyVal) (x : Q) :
  py_float v = Ok (Fin x) →
  ∃ u, util_benefit v = Ok (Fin u) ∧ u == Qmax 0 (Qmin 1 ((x - 1) / 4)).
Proof.
  intros H. rewrite (util_benefit_parsed _ _ H).
  change (lit 1.0) with (Fin 1). change (lit 4.0) with (Fin 4).
  change (fdiv (fsub (Fin x) (Fin 1)) (Fin 4))
    with (Ok (Fin (Qred (Qred (x - 1) / 4)))).
  exc_simpl. destruct (clip01_Fin (Qred (Qred (x - 1) / 4))) as (u & -> & Hu).
  exists u. split; [done |]. rewrite Hu, !Qred_correct. reflexivity.
Qed.

Lemma util_group_parsed (v : PyVal) (x : pyfloat) :
  py_float v = Ok x →
  util_group v = (d ← fdiv (fabs (fsub x (lit 3.0))) (lit 2.0);
                  Ok (clip01 (fsub (lit 1.0) d))).
Proof. intros H. unfold util_group. rewrite H. reflexivity. Qed.

Lemma util_group_Fin (v : PyVal) (x : Q) :
  py_float v = Ok (Fin x) →
  ∃ u, util_group v = Ok (Fin u) ∧ u == Qmax 0 (Qmin 1 (1 - Qabs (x - 3) / 2)).
Proof.
  intros H. rewrite (util_group_parsed _ _ H).
  change (lit 1.0) with (Fin 1). change (lit 3.0) with (Fin 3).
  change (lit 2.0) with (Fin 2).
  change (fdiv (fabs (fsub (Fin x) (Fin 3))) (Fin 2))
    with (Ok (Fin (Qred (Qred (Qabs (Qred (x - 3))) / 2)))).
  exc_simpl.
  change (fsub (Fin 1) (Fin (Qred (Qred (Qabs (Qred (x - 3))) / 2))))
    with (Fin (Qred (1 - Qred (Qred (Qabs (Qred (x - 3))) / 2)))).
  destruct (clip01_Fin (Qred (1 - Qred (Qred (Qabs (Qred (x - 3))) / 2))))
    as (u & -> & Hu).
  exists u. split; [done |]. rewrite Hu, !Qred_correct. reflexivity.
Qed.

(** [util_benefit] rises, or stays, as the rating rises. *)
Lemma util_benefit_monotone (x y : Q) :
  x <= y →
  ∃ ux uy, util_benefit (PyFloat (Fin x)) = Ok (Fin ux) ∧
           util_benefit (PyFloat (Fin y)) = Ok (Fin uy) ∧ ux <= uy.
Proof.
  intros Hxy.
  destruct (util_benefit_Fin (PyFloat (Fin x)) x eq_refl) as (ux & Hx & Ex).
  destruct (util_benefit_Fin (PyFloat (Fin y)) y eq_refl) as (uy & Hy & Ey).
  exists ux, uy. repeat (split; [done |]). rewrite Ex, Ey.
  apply clamp_mono. unfold Qdiv. apply Qmult_le_compat_r; [lra | by vm_compute].
Qed.

(** X1.  [util_benefit] returns 0.5 when [float] fails; on a parsed finite number
    [x] it returns [(x - 1) / 4] clamped to the unit interval, so 0 up to 1,
    1 from 5 on; it does not fall as the rating rises. *)
Theorem util_benefit_spec :
  (∀ v, match py_float v with
        | Raise _ => util_benefit v = Ok (lit 0.5)
        | Ok (Fin x) =>
            ∃ u, util_benefit v = Ok (Fin u) ∧
                 u == Qmax 0 (Qmin 1 ((x - 1) / 4)) ∧
                 (u == 0 ↔ x <= 1) ∧ (u == 1 ↔ 5 <= x)
        | Ok PInf => util_benefit v = Ok (lit 1.0)
        | Ok NInf => util_benefit v = Ok (lit 0.0)
        | Ok NaN => util_benefit v = Ok (lit 1.0)
        end) ∧
  (∀ x y ux uy, x <= y →
     util_benefit (PyFloat (Fin x)) = Ok (Fin ux) →
     util_benefit (PyFloat (Fin y)) = Ok (Fin uy) → ux <= uy).
Proof.
  split.
  - intros v. destruct (py_float v) as [[x| | |]|e] eqn:H.
    + destruct (util_benefit_Fin v x H) as (u & Hu & E). exists u.
      split; [done |]. split; [done |]. rewrite E.
      linear_arg ((x - 1) / 4) (x - 1) 4 u0.
      clamp_cases u0. split; split; intros; lra.
    + by rewrite (util_benefit_parsed _ _ H).
    + by rewrite (util_benefit_parsed _ _ H).
    + by rewrite (util_benefit_parsed _ _ H).
    + unfold util_benefit. by rewrite H.
  - intros x y ux uy Hxy Hx Hy.
    destruct (util_benefit_monotone x y Hxy) as (ux' & uy' & Hx' & Hy' & Hle).
    rewrite Hx in Hx'. rewrite Hy in Hy'.
    injection Hx' as <-. injection Hy' as <-. done.
Qed.

(** X2.  [util_group] returns 0.5 when [float] fails; on a parsed finite number
    [x] it returns [1 - |x - 3| / 2] clamped to the unit interval: 1 at 3 and
    nowhere else, 0 up to 1 and from 5 on, and the same at equal distances
    below and above 3. *)
Theorem util_group_spec :
  (∀ v, match py_float v with
        | Raise _ => util_group v = Ok (lit 0.5)
        | Ok (Fin x) =>
            ∃ u, util_group v = Ok (Fin u) ∧
                 u == Qmax 0 (Qmin 1 (1 - Qabs (x - 3) / 2)) ∧
                 (u == 1 ↔ x == 3) ∧ (u == 0 ↔ x <= 1 ∨ 5 <= x)
        | Ok PInf => util_group v = Ok (lit 0.0)
        | Ok NInf => util_group v = Ok (lit 0.0)
        | Ok NaN => util_group v = Ok (lit 1.0)
        end) ∧
  (∀ d, ∃ u1 u2, util_group (PyFloat (Fin (3 - d))) = Ok (Fin u1) ∧
                 util_group (PyFloat (Fin (3 + d))) = Ok (Fin u2) ∧ u1 == u2).
Proof.
  split.
  - intros v. destruct (py_float v) as [[x| | |]|e] eqn:H.
    + destruct (util_group_Fin v x H) as (u & Hu & E). exists u.
      split; [done |]. split; [done |]. rewrite E.
      assert (Qabs (x - 3) == x - 3 ∧ 0 <= x - 3 ∨
              Qabs (x - 3) == 3 - x ∧ x - 3 <= 0) as Ha.
      { destruct (Qlt_le_dec (x - 3) 0) as [Hneg | Hpos].
        - right. split; [| lra].
          rewrite (Qabs_neg (x - 3)) by lra. ring.
        - left. split; [| lra]. by apply Qabs_pos. }
      linear_arg (Qabs (x - 3) / 2) (Qabs (x - 3)) 2 d.
      remember (Qabs (x - 3)) as A eqn:EA. clear EA.
      clamp_cases (1 - d). split; split; intros; lra.
    + by rewrite (util_group_parsed _ _ H).
    + by rewrite (util_group_parsed _ _ H).
    + by rewrite (util_group_parsed _ _ H).
    + unfold util_group. by rewrite H.
  - intros d.
    destruct (util_group_Fin (PyFloat (Fin (3 - d))) _ eq_refl) as (u1 & H1 & E1).
    destruct (util_group_Fin (PyFloat (Fin (3 + d))) _ eq_refl) as (u2 & H2 & E2).
    exists u1, u2. repeat (split; [done |]). rewrite E1, E2.
    assert (Qabs (3 - d - 3) == Qabs (3 + d - 3)) as ->; [| reflexivity].
    assert (3 - d - 3 == - d) as -> by ring.
    assert (3 + d - 3 == d) as -> by ring. apply Qabs_opp.
Qed.

(** X3.  The cost utility and the benefit utility of one cell add up to 1, also
    when the cell is no number (0.5 each) or an infinity (0 and 1); the one
    exception is NaN, where both are 1. *)
Theorem cost_and_benefit_add_up_to_1 (v : PyVal) :
  ∃ c b, util_cost v = Ok (Fin c) ∧ util_benefit v = Ok (Fin b) ∧
         match py_float v with
         | Ok NaN => c + b == 2
         | _ => c + b == 1
         end.
Proof.
  destruct (py_float v) as [[x| | |]|e] eqn:H.
  - destruct (util_cost_Fin v x H) as (c & Hc & Ec).
    destruct (util_benefit_Fin v x H) as (b & Hb & Eb).
    exists c, b. repeat (split; [done |]). rewrite Ec, Eb.
    linear_arg ((5 - x) / 4) (5 - x) 4 uc. linear_arg ((x - 1) / 4) (x - 1) 4 ub.
    clamp_cases uc. clamp_cases ub. lra.
  - rewrite (util_cost_parsed _ _ H), (util_benefit_parsed _ _ H).
    eexists _, _. repeat (split; [reflexivity |]). reflexivity.
  - rewrite (util_cost_parsed _ _ H), (util_benefit_parsed _ _ H).
    eexists _, _. repeat (split; [reflexivity |]). reflexivity.
  - rewrite (util_cost_parsed _ _ H), (util_benefit_parsed _ _ H).
    eexists _, _. repeat (split; [reflexivity |]). reflexivity.
  - unfold util_cost, util_benefit. rewrite H.
    eexists _, _. repeat (split; [reflexivity |]). reflexivity.
Qed.

(** X4.  [clip01] applied twice is [clip01], it leaves a number strictly between
    0 and 1 as it is, and it keeps the order of finite numbers. *)
Theorem clip01_idempotent_monotone :
  (∀ x, clip01 (clip01 x) = clip01 x) ∧
  (∀ q, 0 < q → q < 1 → clip01 (Fin q) = Fin q) ∧
  (∀ a b ua ub, a <= b → clip01 (Fin a) = Fin ua → clip01 (Fin b) = Fin ub →
                ua <= ub).
Proof.
  assert (∀ q, 0 < q → q < 1 → clip01 (Fin q) = Fin q) as Hfix.
  { intros q H0 H1. pose proof (clip01_cases (Fin q)) as H. cbn in H.
    apply Qltb_true in H0, H1. by rewrite H0, H1 in H. }
  split; [| split; [exact Hfix |]].
  - intros x. pose proof (clip01_cases x) as H. destruct x as [q| | |].
    + destruct (Qltb q 1) eqn:H1; [destruct (Qltb 0 q) eqn:H0 |].
      * rewrite H. apply Hfix; by apply Qltb_true.
      * by rewrite H.
      * by rewrite H.
    + by rewrite H.
    + by rewrite H.
    + by rewrite H.
  - intros a b ua ub Hab Ha Hb.
    destruct (clip01_Fin a) as (ua' & Ha' & Ea).
    destruct (clip01_Fin b) as (ub' & Hb' & Eb).
    rewrite Ha in Ha'. rewrite Hb in Hb'. injection Ha' as <-. injection Hb' as <-.
    rewrite Ea, Eb. by apply clamp_mono.
Qed.


(** ** Text: whitespace and letter case *)

(** Unfolds the text functions one step and leaves the tests on bytes and the
    case maps folded. *)
Lemma str_app_cons (c : ascii) (a b : string) :
  String c a ++ b = String c (a ++ b).
Proof. reflexivity. Qed.

Lemma str_app_nil (b : string) : "" ++ b = b.
Proof. reflexivity. Qed.


(** Induction on a text with the claim at hand for every shorter text. *)
Lemma shorter_ind (P : string → Prop) :
  (∀ s, (∀ t, (String.length t < String.length s)%nat → P t) → P s) →
  ∀ s, P s.
Proof.
  intros H s. remember (String.length s) as n eqn:E.
  revert s E. induction n as [n IH] using lt_wf_ind. intros s ->.
  apply H. intros t Ht. by apply (IH (String.length t)).
Qed.

(** A lead byte is no character of its own, and the lead bytes of two-byte
    and of three-byte characters differ. *)
Lemma space2_lead (c d : ascii) : space2 c d = true → space1 c = false.
Proof.
  unfold space2, space1, char2, char1.
  destruct (_ && _)%N eqn:E; [| done]. intros _.
  apply andb_prop in E as [E _]. apply N.leb_le in E.
  destruct (code c <? 128)%N eqn:F; [| done]. apply N.ltb_lt in F. lia.
Qed.

Lemma space3_lead (c d e : ascii) :
  space3 c d e = true → space1 c = false ∧ space2 c d = false.
Proof.
  unfold space3, space2, space1, char3, char2, char1.
  destruct ((224 <=? code c) && _)%N eqn:E; [| done]. intros _.
  apply andb_prop in E as [E _]. apply N.leb_le in E.
  destruct (code c <? 128)%N eqn:F; [apply N.ltb_lt in F; lia |].
  destruct ((194 <=? code c) && _)%N eqn:G; [| done].
  apply andb_prop in G as [_ G]. apply N.ltb_lt in G. lia.
Qed.

(** A byte that starts a whitespace character is no continuation byte. *)
Lemma space1_cont (c : ascii) : space1 c = true → cont c = None.
Proof.
  unfold space1, char1, cont.
  destruct (code c <? 128)%N eqn:F; [| done]. intros _. apply N.ltb_lt in F.
  destruct (128 <=? code c)%N eqn:G; [apply N.leb_le in G; lia | done].
Qed.

Lemma char2_cont (c d : ascii) : is_Some (char2 c d) → cont c = None.
Proof.
  unfold char2, cont. destruct ((194 <=? code c) && _)%N eqn:E; [| by intros []].
  intros _. apply andb_prop in E as [E _]. apply N.leb_le in E.
  destruct ((128 <=? code c) && (code c <? 192))%N eqn:G; [| done].
  apply andb_prop in G as [_ G]. apply N.ltb_lt in G. lia.
Qed.

Lemma char3_cont (c d e : ascii) : is_Some (char3 c d e) → cont c = None.
Proof.
  unfold char3, cont. destruct ((224 <=? code c) && _)%N eqn:E; [| by intros []].
  intros _. apply andb_prop in E as [E _]. apply N.leb_le in E.
  destruct ((128 <=? code c) && (code c <? 192))%N eqn:G; [| done].
  apply andb_prop in G as [_ G]. apply N.ltb_lt in G. lia.
Qed.

Lemma space2_cont (c d : ascii) : space2 c d = true → cont c = None.
Proof.
  unfold space2. intros H. apply (char2_cont c d). by destruct (char2 c d).
Qed.

Lemma space3_cont (c d e : ascii) : space3 c d e = true → cont c = None.
Proof.
  unfold space3. intros H. apply (char3_cont c d e). by destruct (char3 c d e).
Qed.

(** Without a continuation byte there is no longer character. *)
Lemma char2_no_cont (c d : ascii) : cont d = None → char2 c d = None.
Proof. unfold char2. intros ->. by destruct (_ && _)%N. Qed.

Lemma char3_no_cont (c d e : ascii) :
  cont d = None ∨ cont e = None → char3 c d e = None.
Proof.
  unfold char3. destruct (_ && _)%N; [| done].
  intros [-> | ->]; [done | by destruct (cont d)].
Qed.

Lemma char4_no_cont (c d e f : ascii) :
  cont d = None ∨ cont e = None ∨ cont f = None → char4 c d e f = None.
Proof.
  unfold char4. destruct (_ && _)%N; [| done].
  intros [-> | [-> | ->]]; [done | by destruct (cont d) |].
  destruct (cont d); [| done]. by destruct (cont e).
Qed.

(** How a blank text starts. *)
Lemma blank_cases (w : string) :
  blank w = true →
  w = "" ∨
  (∃ c r, w = String c r ∧ space1 c = true ∧ blank r = true) ∨
  (∃ c d r, w = String c (String d r) ∧ space2 c d = true ∧ blank r = true) ∨
  (∃ c d e r, w = String c (String d (String e r)) ∧ space3 c d e = true ∧
              blank r = true).
Proof.
  destruct w as [|c r]; [by left |]. cbn [blank]. intros Hb. right.
  apply orb_prop in Hb as [Hb | Hb].
  { apply andb_prop in Hb as [H1 H2]. left; eauto. }
  destruct r as [|d r2]; [done |]. apply orb_prop in Hb as [Hb | Hb].
  { apply andb_prop in Hb as [H1 H2]. right; left; eauto 6. }
  destruct r2 as [|e r3]; [done |].
  apply andb_prop in Hb as [H1 H2]. right; right. eauto 8.
Qed.

Lemma blank_starts_char (w : string) : blank w = true → starts_char w.
Proof.
  intros Hw.
  destruct (blank_cases w Hw) as
    [-> | [(c & r & -> & H & Hr) | [(c & d & r & -> & H & Hr)
                                   | (c & d & e & r & -> & H & Hr)]]]; cbn.
  - done.
  - by apply space1_cont.
  - by apply space2_cont in H.
  - by apply space3_cont in H.
Qed.

Lemma lstrip_space1 (c : ascii) (r : string) :
  space1 c = true → lstrip (String c r) = lstrip r.
Proof. intros H. cbn [lstrip]. by rewrite H. Qed.

Lemma lstrip_space2 (c d : ascii) (r : string) :
  space2 c d = true → lstrip (String c (String d r)) = lstrip r.
Proof. intros H. cbn [lstrip]. by rewrite (space2_lead c d H), H. Qed.

Lemma lstrip_space3 (c d e : ascii) (r : string) :
  space3 c d e = true → lstrip (String c (String d (String e r))) = lstrip r.
Proof.
  intros H. cbn [lstrip]. destruct (space3_lead c d e H) as [-> ->]. by rewrite H.
Qed.

Lemma lstrip_blank (w s : string) : blank w = true → lstrip (w ++ s) = lstrip s.
Proof.
  induction w as [w IH] using shorter_ind. intros Hw.
  destruct (blank_cases w Hw) as
    [-> | [(c & r & -> & H & Hr) | [(c & d & r & -> & H & Hr)
                                   | (c & d & e & r & -> & H & Hr)]]].
  - done.
  - rewrite str_app_cons, lstrip_space1 by done. apply IH; [cbn; lia | done].
  - rewrite !str_app_cons, lstrip_space2 by done. apply IH; [cbn; lia | done].
  - rewrite !str_app_cons, lstrip_space3 by done. apply IH; [cbn; lia | done].
Qed.

Lemma str_app_nil_r (a : string) : a ++ "" = a.
Proof. induction a as [|c a IH]; [done |]. by rewrite str_app_cons, IH. Qed.

Lemma str_app_assoc (a b c : string) : (a ++ b) ++ c = a ++ b ++ c.
Proof. induction a as [|x a IH]; [done |]. by rewrite !str_app_cons, IH. Qed.

Lemma lstrip_blank_nil (w : string) : blank w = true → lstrip w = "".
Proof. intros H. rewrite <- (str_app_nil_r w). by rewrite lstrip_blank. Qed.

(** A whitespace character followed by a blank text is a blank text. *)
Lemma blank_space1 (c : ascii) (r : string) :
  space1 c = true → blank r = true → blank (String c r) = true.
Proof. intros H Hr. cbn [blank]. by rewrite H, Hr. Qed.

Lemma blank_space2 (c d : ascii) (r : string) :
  space2 c d = true → blank r = true → blank (String c (String d r)) = true.
Proof. intros H Hr. cbn [blank]. rewrite H, Hr. by rewrite orb_true_r. Qed.

Lemma blank_space3 (c d e : ascii) (r : string) :
  space3 c d e = true → blank r = true →
  blank (String c (String d (String e r))) = true.
Proof. intros H Hr. cbn [blank]. rewrite H, Hr. by rewrite !orb_true_r. Qed.

Lemma blank_app (a b : string) :
  blank a = true → blank b = true → blank (a ++ b) = true.
Proof.
  induction a as [a IH] using shorter_ind. intros Ha Hb.
  destruct (blank_cases a Ha) as
    [-> | [(c & r & -> & H & Hr) | [(c & d & r & -> & H & Hr)
                                   | (c & d & e & r & -> & H & Hr)]]].
  - done.
  - rewrite str_app_cons. apply blank_space1; [done |]. apply IH; [cbn; lia | done ..].
  - rewrite !str_app_cons. apply blank_space2; [done |]. apply IH; [cbn; lia | done ..].
  - rewrite !str_app_cons. apply blank_space3; [done |]. apply IH; [cbn; lia | done ..].
Qed.

(** How [lstrip] starts: at a text without whitespace at its head, or after
    one whitespace character. *)
Lemma lstrip_cases (s : string) :
  lstrip s = s ∨
  (∃ c r, s = String c r ∧ space1 c = true ∧ lstrip s = lstrip r) ∨
  (∃ c d r, s = String c (String d r) ∧ space2 c d = true ∧ lstrip s = lstrip r) ∨
  (∃ c d e r, s = String c (String d (String e r)) ∧ space3 c d e = true ∧
              lstrip s = lstrip r).
Proof.
  destruct s as [|c r]; [by left |]. cbn [lstrip].
  destruct (space1 c) eqn:H1; [right; left; eauto |].
  destruct r as [|d r2]; [by left |].
  destruct (space2 c d) eqn:H2; [right; right; left; eauto 6 |].
  destruct r2 as [|e r3]; [by left |].
  destruct (space3 c d e) eqn:H3; [right; right; right; eauto 8 | by left].
Qed.

Lemma lstrip_length (s : string) : (String.length (lstrip s) <= String.length s)%nat.
Proof.
  induction s as [s IH] using shorter_ind.
  destruct (lstrip_cases s) as
    [-> | [(c & r & -> & H & ->) | [(c & d & r & -> & H & ->)
                                   | (c & d & e & r & -> & H & ->)]]].
  - done.
  - specialize (IH r). cbn in *. lia.
  - specialize (IH r). cbn in *. lia.
  - specialize (IH r). cbn in *. lia.
Qed.

(** A text is a blank prefix, then its [lstrip], which has no whitespace at
    its head. *)
Lemma lstrip_split (s : string) :
  ∃ w, blank w = true ∧ s = w ++ lstrip s ∧ lstrip (lstrip s) = lstrip s.
Proof.
  induction s as [s IH] using shorter_ind.
  destruct (lstrip_cases s) as
    [E | [(c & r & -> & H & E) | [(c & d & r & -> & H & E)
                                 | (c & d & e & r & -> & H & E)]]].
  - exists "". by rewrite E.
  - destruct (IH r) as (w & Hw & Hr & Hi); [cbn; lia |].
    exists (String c w). rewrite E. split; [by apply blank_space1 |].
    split; [by rewrite str_app_cons, <- Hr | done].
  - destruct (IH r) as (w & Hw & Hr & Hi); [cbn; lia |].
    exists (String c (String d w)). rewrite E. split; [by apply blank_space2 |].
    split; [by rewrite !str_app_cons, <- Hr | done].
  - destruct (IH r) as (w & Hw & Hr & Hi); [cbn; lia |].
    exists (String c (String d (String e w))). rewrite E.
    split; [by apply blank_space3 |].
    split; [by rewrite !str_app_cons, <- Hr | done].
Qed.

(** ** [rstrip] *)

(** A continuation byte starts no character. *)
Lemma cont_char1 (d : ascii) : is_Some (cont d) → char1 d = None.
Proof.
  unfold cont, char1. destruct ((128 <=? code d) && _)%N eqn:G; [| by intros []].
  intros _. apply andb_prop in G as [G _]. apply N.leb_le in G.
  destruct (code d <? 128)%N eqn:F; [apply N.ltb_lt in F; lia | done].
Qed.

Lemma cont_char2 (d e : ascii) : is_Some (cont d) → char2 d e = None.
Proof.
  intros H. destruct (char2 d e) eqn:E; [| done].
  rewrite (char2_cont d e) in H by (by rewrite E). by destruct H.
Qed.

Lemma cont_space1 (d : ascii) : is_Some (cont d) → space1 d = false.
Proof. intros H. unfold space1. by rewrite cont_char1. Qed.

Lemma cont_space2 (d e : ascii) : is_Some (cont d) → space2 d e = false.
Proof. intros H. unfold space2. by rewrite cont_char2. Qed.

Lemma space2_second (c d : ascii) : space2 c d = true → is_Some (cont d).
Proof.
  unfold space2, char2. destruct (_ && _)%N; [| done].
  destruct (cont d); [eauto | done].
Qed.

Lemma space3_second (c d e : ascii) :
  space3 c d e = true → is_Some (cont d) ∧ is_Some (cont e).
Proof.
  unfold space3, char3. destruct (_ && _)%N; [| done].
  destruct (cont d); [| done]. destruct (cont e); [eauto | done].
Qed.

Lemma is_space_char_blank (k : string) : is_space_char k = true → blank k = true.
Proof.
  destruct k as [|c [|d [|e [|f r]]]]; cbn [is_space_char]; try done; intros H.
  - by apply blank_space1.
  - by apply blank_space2.
  - by apply blank_space3.
Qed.

Lemma rstrip_blank (w : string) : blank w = true → rstrip w = "".
Proof.
  induction w as [w IH] using shorter_ind. intros Hw.
  destruct (blank_cases w Hw) as
    [-> | [(c & r & -> & H & Hr) | [(c & d & r & -> & H & Hr)
                                   | (c & d & e & r & -> & H & Hr)]]].
  - done.
  - cbn [rstrip]. rewrite (IH r) by (done || (cbn; lia)). cbn [is_space_char].
    by rewrite H.
  - cbn [rstrip]. rewrite (IH r) by (done || (cbn; lia)). cbn [is_space_char].
    rewrite (cont_space1 d) by (by eapply space2_second).
    cbn [is_space_char]. by rewrite H.
  - cbn [rstrip]. rewrite (IH r) by (done || (cbn; lia)). cbn [is_space_char].
    destruct (space3_second c d e H) as [Hd He].
    rewrite (cont_space1 e) by done. cbn [is_space_char].
    rewrite (cont_space2 d e) by done. cbn [is_space_char]. by rewrite H.
Qed.

Lemma rstrip_app_blank (s w : string) :
  blank w = true → rstrip (s ++ w) = rstrip s.
Proof.
  intros Hw. induction s as [|c s IH]; [by apply rstrip_blank |].
  rewrite str_app_cons. cbn [rstrip]. by rewrite IH.
Qed.

(** A text is its [rstrip], then a blank suffix; [rstrip] of that is itself. *)
Lemma rstrip_split (s : string) :
  ∃ w, blank w = true ∧ s = rstrip s ++ w ∧ rstrip (rstrip s) = rstrip s.
Proof.
  induction s as [|c s (w & Hw & Hs & Hi)]; [by exists "" |]. cbn [rstrip].
  destruct (is_space_char (String c (rstrip s))) eqn:E.
  - exists (String c (rstrip s) ++ w). split; [| split; [| done]].
    + apply blank_app; [by apply is_space_char_blank | done].
    + by rewrite str_app_nil, str_app_cons, <- Hs.
  - exists w. split; [done |]. split; [by rewrite str_app_cons, <- Hs |].
    cbn [rstrip]. by rewrite Hi, E.
Qed.

(** [lstrip] looks at the head of a text only. *)
Lemma lstrip_app (s w : string) :
  blank w = true → rstrip (lstrip (s ++ w)) = rstrip (lstrip s).
Proof.
  intros Hw. pose proof (blank_starts_char w Hw) as Hc.
  induction s as [s IH] using shorter_ind.
  destruct s as [|c r]; [by rewrite str_app_nil, lstrip_blank_nil |].
  rewrite str_app_cons. cbn [lstrip]. destruct (space1 c) eqn:H1.
  { apply IH. cbn; lia. }
  destruct r as [|d r2].
  { rewrite str_app_nil. rewrite <- (rstrip_app_blank (String c "") w) by done.
    rewrite str_app_cons, str_app_nil. f_equal.
    destruct w as [|d [|e r3]]; [done | |]; cbn in Hc.
    - unfold space2. by rewrite char2_no_cont.
    - unfold space2, space3. rewrite char2_no_cont, char3_no_cont by eauto. done. }
  rewrite str_app_cons. destruct (space2 c d) eqn:H2.
  { apply IH. cbn; lia. }
  destruct r2 as [|e r3].
  { rewrite str_app_nil. rewrite <- (rstrip_app_blank (String c (String d "")) w) by done.
    rewrite !str_app_cons, str_app_nil. f_equal.
    destruct w as [|e r3]; [done |]. cbn in Hc.
    unfold space3. rewrite char3_no_cont by eauto. done. }
  rewrite str_app_cons. destruct (space3 c d e) eqn:H3.
  { apply IH. cbn; lia. }
  rewrite <- (rstrip_app_blank (String c (String d (String e r3))) w) by done.
  by rewrite !str_app_cons.
Qed.

(** Whitespace around a text does not change what [strip] returns. *)
Lemma strip_pad (w1 s w2 : string) :
  blank w1 = true → blank w2 = true → strip (w1 ++ s ++ w2) = strip s.
Proof.
  intros H1 H2. unfold strip. rewrite lstrip_blank by done. by apply lstrip_app.
Qed.

(** A text is blank exactly when [lstrip] leaves nothing of it. *)
Lemma blank_lstrip (s : string) : blank s = true ↔ lstrip s = "".
Proof.
  split; [apply lstrip_blank_nil |]. intros E.
  destruct (lstrip_split s) as (w & Hw & Hs & _).
  rewrite E, str_app_nil_r in Hs. by subst.
Qed.

Lemma str_length_app (a b : string) :
  String.length (a ++ b) = (String.length a + String.length b)%nat.
Proof. induction a as [|c a IH]; [done |]. rewrite str_app_cons. cbn. by rewrite IH. Qed.

(** A text without whitespace at its head keeps none there when a blank
    suffix is taken off. *)
Lemma lstrip_prefix (p w : string) :
  lstrip (p ++ w) = p ++ w → p ≠ "" → lstrip p = p.
Proof.
  intros E Hp.
  assert (∀ k r, p = k ++ r → k ≠ "" → lstrip (p ++ w) = lstrip (r ++ w) → False) as No.
  { intros k r -> Hk E'. rewrite E in E'.
    pose proof (lstrip_length (r ++ w)) as L. rewrite <- E' in L.
    rewrite !str_length_app in L. destruct k; [done |]. cbn in L. lia. }
  destruct (lstrip_cases p) as
    [Ep | [(c & r & -> & H & _) | [(c & d & r & -> & H & _)
                                  | (c & d & e & r & -> & H & _)]]]; [done | ..];
    exfalso.
  - apply (No (String c "") r); [done | done |].
    by rewrite str_app_cons, lstrip_space1.
  - apply (No (String c (String d "")) r); [done | done |].
    by rewrite !str_app_cons, lstrip_space2.
  - apply (No (String c (String d (String e ""))) r); [done | done |].
    by rewrite !str_app_cons, lstrip_space3.
Qed.

(** What [strip] returns: the text without its blank prefix and its blank
    suffix; it is empty exactly for a blank text, and [lstrip] and [rstrip]
    find nothing more to take off it. *)
Lemma strip_spec (s : string) :
  (∃ w1 w2, blank w1 = true ∧ blank w2 = true ∧ s = w1 ++ strip s ++ w2) ∧
  (strip s = "" ↔ blank s = true) ∧
  lstrip (strip s) = strip s ∧ rstrip (strip s) = strip s.
Proof.
  unfold strip.
  destruct (lstrip_split s) as (w1 & Hw1 & Hs & Hl).
  destruct (rstrip_split (lstrip s)) as (w2 & Hw2 & Hr & Hi).
  split; [exists w1, w2; by rewrite <- Hr |]. split; [| split; [| done]].
  - split.
    + intros E. rewrite E, str_app_nil in Hr. rewrite Hs, Hr. by apply blank_app.
    + intros Hb. apply blank_lstrip in Hb. by rewrite Hb.
  - destruct (rstrip (lstrip s)) as [|c r] eqn:E; [done |]. rewrite <- E in *.
    apply (lstrip_prefix _ w2); [by rewrite <- Hr | by rewrite E].
Qed.

(** ** Letter case *)














(** ** [float] and whitespace *)

Lemma float_lstrip_blank (p s : string) :
  float_lstrip p = "" → float_lstrip (p ++ s) = float_lstrip s.
Proof.
  induction p as [|c p IH]; [done |]. rewrite str_app_cons. cbn [float_lstrip].
  destruct (is_float_space c); [done | discriminate].
Qed.

Lemma float_lstrip_cons (c : ascii) (p : string) :
  float_lstrip (String c p) = "" → is_float_space c = true ∧ float_lstrip p = "".
Proof. cbn [float_lstrip]. by destruct (is_float_space c). Qed.

Lemma float_rstrip_blank (p : string) : float_lstrip p = "" → float_rstrip p = "".
Proof.
  induction p as [|c p IH]; [done |]. intros [Hc Hp]%float_lstrip_cons.
  cbn [float_rstrip]. by rewrite (IH Hp), Hc.
Qed.

Lemma float_rstrip_app_blank (s p : string) :
  float_lstrip p = "" → float_rstrip (s ++ p) = float_rstrip s.
Proof.
  intros Hp. induction s as [|c s IH]; [by apply float_rstrip_blank |].
  rewrite str_app_cons. cbn [float_rstrip]. by rewrite IH.
Qed.

Lemma float_lstrip_app (s p : string) :
  float_lstrip p = "" →
  float_rstrip (float_lstrip (s ++ p)) = float_rstrip (float_lstrip s).
Proof.
  intros Hp. induction s as [|c s IH].
  - by rewrite str_app_nil, Hp.
  - rewrite str_app_cons. cbn [float_lstrip]. destruct (is_float_space c); [done |].
    change (String c (s ++ p)) with (String c s ++ p).
    by apply float_rstrip_app_blank.
Qed.

(** Whitespace around a number does not change what [float_strip] returns. *)
Lemma float_strip_pad (p1 t p2 : string) :
  float_lstrip p1 = "" → float_lstrip p2 = "" →
  float_strip (p1 ++ t ++ p2) = float_strip t.
Proof.
  intros H1 H2. unfold float_strip. rewrite float_lstrip_blank by done.
  by apply float_lstrip_app.
Qed.

(** A character of several bytes lies beyond ASCII, and its lead byte
    starts no shorter character. *)
Lemma char2_lead (c d : ascii) (n : N) :
  char2 c d = Some n → char1 c = None ∧ (128 <= n)%N.
Proof.
  unfold char2, char1. destruct (_ && _)%N eqn:E; [| done].
  apply andb_prop in E as [E _]. apply N.leb_le in E.
  destruct (cont d) as [x|]; [| done]. intros [= <-].
  destruct (code c <? 128)%N eqn:F; [apply N.ltb_lt in F; lia |]. split; [done | lia].
Qed.

Lemma char3_lead (c d e : ascii) (n : N) :
  char3 c d e = Some n → char1 c = None ∧ char2 c d = None ∧ (128 <= n)%N.
Proof.
  unfold char3, char2, char1. destruct ((224 <=? code c) && _)%N eqn:E; [| done].
  apply andb_prop in E as [E _]. apply N.leb_le in E.
  destruct (cont d) as [x|]; [| done]. destruct (cont e) as [y|]; [| done]. cbn.
  destruct ((2048 <=? _) && _)%N eqn:G; [| done]. intros [= <-].
  apply andb_prop in G as [G _]. apply N.leb_le in G.
  destruct (code c <? 128)%N eqn:F; [apply N.ltb_lt in F; lia |].
  destruct ((194 <=? code c) && _)%N eqn:G'.
  { apply andb_prop in G' as [_ G']. apply N.ltb_lt in G'. lia. }
  split; [done | split; [done | lia]].
Qed.

Lemma char4_lead (c d e f : ascii) (n : N) :
  char4 c d e f = Some n →
  char1 c = None ∧ char2 c d = None ∧ char3 c d e = None ∧ (128 <= n)%N.
Proof.
  unfold char4, char3, char2, char1. destruct ((240 <=? code c) && _)%N eqn:E; [| done].
  apply andb_prop in E as [E _]. apply N.leb_le in E.
  destruct (cont d) as [x|]; [| done]. destruct (cont e) as [y|]; [| done].
  destruct (cont f) as [z|]; [| done]. cbn.
  destruct ((65536 <=? _) && _)%N eqn:G; [| done]. intros [= <-].
  apply andb_prop in G as [G _]. apply N.leb_le in G.
  destruct (code c <? 128)%N eqn:F; [apply N.ltb_lt in F; lia |].
  destruct ((194 <=? code c) && _)%N eqn:G'.
  { apply andb_prop in G' as [_ G']. apply N.ltb_lt in G'. lia. }
  destruct ((224 <=? code c) && _)%N eqn:G''.
  { apply andb_prop in G'' as [_ G'']. apply N.ltb_lt in G''. lia. }
  split; [done | split; [done | split; [done | lia]]].
Qed.

Lemma to_ascii_char1 (c : ascii) (r : string) (n : N) :
  char1 c = Some n → to_ascii (String c r) = put n (to_ascii r).
Proof. intros H. cbn [Py.to_ascii]. by rewrite H. Qed.

Lemma to_ascii_char2 (c d : ascii) (r : string) (n : N) :
  char2 c d = Some n → to_ascii (String c (String d r)) = put n (to_ascii r).
Proof.
  intros H. destruct (char2_lead c d n H) as [H1 _].
  cbn [Py.to_ascii]. by rewrite H1, H.
Qed.

Lemma to_ascii_char3 (c d e : ascii) (r : string) (n : N) :
  char3 c d e = Some n →
  to_ascii (String c (String d (String e r))) = put n (to_ascii r).
Proof.
  intros H. destruct (char3_lead c d e n H) as (H1 & H2 & _).
  cbn [Py.to_ascii]. by rewrite H1, H2, H.
Qed.

Lemma to_ascii_char4 (c d e f : ascii) (r : string) (n : N) :
  char4 c d e f = Some n →
  to_ascii (String c (String d (String e (String f r)))) = put n (to_ascii r).
Proof.
  intros H. destruct (char4_lead c d e f n H) as (H1 & H2 & H3 & _).
  cbn [Py.to_ascii]. by rewrite H1, H2, H3, H.
Qed.

(** A text starts with a character, or it starts with bytes that are none,
    and then no text put after it makes them one. *)
Lemma first_char (s : string) :
  s = "" ∨
  (∃ k r n, s = k ++ r ∧ k ≠ "" ∧
            ∀ x, to_ascii (k ++ x) = put n (to_ascii x)) ∨
  (∀ w, starts_char w → to_ascii (s ++ w) = None).
Proof.
  destruct s as [|c r]; [by left |]. right.
  destruct (char1 c) as [n|] eqn:H1.
  { left. exists (String c ""), r, n. split; [done |]. split; [done |].
    intros x. by apply to_ascii_char1. }
  destruct r as [|d r2].
  { right. intros w Hw. rewrite str_app_cons, str_app_nil. cbn [Py.to_ascii].
    rewrite H1. destruct w as [|d [|e [|f r4]]]; cbn in Hw; [done | ..];
      rewrite char2_no_cont by done; [done | ..];
      rewrite char3_no_cont by eauto; [done |].
    by rewrite char4_no_cont by eauto. }
  destruct (char2 c d) as [n|] eqn:H2.
  { left. exists (String c (String d "")), r2, n. split; [done |]. split; [done |].
    intros x. by apply to_ascii_char2. }
  destruct r2 as [|e r3].
  { right. intros w Hw. rewrite !str_app_cons, str_app_nil. cbn [Py.to_ascii].
    rewrite H1, H2. destruct w as [|e [|f r4]]; cbn in Hw; [done | ..];
      rewrite char3_no_cont by eauto; [done |].
    by rewrite char4_no_cont by eauto. }
  destruct (char3 c d e) as [n|] eqn:H3.
  { left. exists (String c (String d (String e ""))), r3, n.
    split; [done |]. split; [done |]. intros x. by apply to_ascii_char3. }
  destruct r3 as [|f r4].
  { right. intros w Hw. rewrite !str_app_cons, str_app_nil. cbn [Py.to_ascii].
    rewrite H1, H2, H3. destruct w as [|f r4]; cbn in Hw; [done |].
    by rewrite char4_no_cont by eauto. }
  destruct (char4 c d e f) as [n|] eqn:H4.
  { left. exists (String c (String d (String e (String f "")))), r4, n.
    split; [done |]. split; [done |]. intros x. by apply to_ascii_char4. }
  right. intros w Hw. rewrite !str_app_cons. cbn [Py.to_ascii].
  by rewrite H1, H2, H3, H4.
Qed.

(** [to_ascii] goes through a text character by character. *)
Lemma to_ascii_app (s w : string) :
  starts_char w →
  to_ascii (s ++ w) = t ← to_ascii s; u ← to_ascii w; Some (t ++ u).
Proof.
  intros Hw. induction s as [s IH] using shorter_ind.
  destruct (first_char s) as [-> | [(k & r & n & -> & Hk & Hstep) | Hnone]].
  - rewrite str_app_nil. cbn. by destruct (to_ascii w).
  - rewrite str_app_assoc, !Hstep. rewrite IH.
    2:{ rewrite str_length_app. destruct k; [done |]. cbn. lia. }
    unfold put. destruct (ascii_of_char n) as [a|]; [| done]. cbn.
    destruct (to_ascii r) as [t|]; [| done]. cbn.
    by destruct (to_ascii w).
  - rewrite (Hnone w Hw). specialize (Hnone "" I). rewrite str_app_nil_r in Hnone.
    by rewrite Hnone.
Qed.

(** How a text of the whitespace [float] drops starts. *)
Lemma float_blank_cases (w : string) :
  float_blank w = true →
  w = "" ∨
  (∃ c r, w = String c r ∧ is_float_space c = true ∧ float_blank r = true) ∨
  (∃ c d r, w = String c (String d r) ∧ space2 c d = true ∧ float_blank r = true) ∨
  (∃ c d e r, w = String c (String d (String e r)) ∧ space3 c d e = true ∧
              float_blank r = true).
Proof.
  destruct w as [|c r]; [by left |]. cbn [float_blank]. intros Hb. right.
  apply orb_prop in Hb as [Hb | Hb].
  { apply andb_prop in Hb as [H1 H2]. left; eauto. }
  destruct r as [|d r2]; [done |]. apply orb_prop in Hb as [Hb | Hb].
  { apply andb_prop in Hb as [H1 H2]. right; left; eauto 6. }
  destruct r2 as [|e r3]; [done |].
  apply andb_prop in Hb as [H1 H2]. right; right. eauto 8.
Qed.

Lemma float_space_byte (c : ascii) :
  is_float_space c = true → char1 c = Some (code c) ∧ cont c = None ∧ (code c <= 32)%N.
Proof.
  unfold is_float_space, char1, cont. intros H.
  assert (code c <= 32)%N as L.
  { apply orb_prop in H as [[_ H]%andb_prop | H].
    - apply N.leb_le in H. lia.
    - apply N.eqb_eq in H. lia. }
  destruct (code c <? 128)%N eqn:F; [| apply N.ltb_ge in F; lia].
  destruct (128 <=? code c)%N eqn:G; [apply N.leb_le in G; lia | done].
Qed.

Lemma float_blank_starts_char (w : string) : float_blank w = true → starts_char w.
Proof.
  intros Hw.
  destruct (float_blank_cases w Hw) as
    [-> | [(c & r & -> & H & Hr) | [(c & d & r & -> & H & Hr)
                                   | (c & d & e & r & -> & H & Hr)]]]; cbn.
  - done.
  - by apply float_space_byte.
  - by apply space2_cont in H.
  - by apply space3_cont in H.
Qed.

(** [float] keeps a character below 127 as it is. *)
Lemma ascii_of_char_ascii (c : ascii) :
  (code c < 127)%N → ascii_of_char (code c) = Some c.
Proof.
  intros H. unfold Py.ascii_of_char. apply N.ltb_lt in H. rewrite H.
  unfold code. by rewrite ascii_N_embedding.
Qed.

Lemma space_beyond_ascii (n : N) :
  is_space n = true → (128 <= n)%N → ascii_of_char n = Some " "%char.
Proof.
  intros Hs Hn. unfold Py.ascii_of_char.
  destruct (n <? 127)%N eqn:F; [apply N.ltb_lt in F; lia |]. by rewrite Hs.
Qed.

(** [to_ascii] turns such a text into whitespace [float_strip] drops, and
    goes on behind it. *)
Lemma to_ascii_float_blank (w : string) :
  float_blank w = true →
  ∃ p, float_lstrip p = "" ∧ ∀ x, to_ascii (w ++ x) = append p <$> to_ascii x.
Proof.
  induction w as [w IH] using shorter_ind. intros Hw.
  destruct (float_blank_cases w Hw) as
    [-> | [(c & r & -> & H & Hr) | [(c & d & r & -> & H & Hr)
                                   | (c & d & e & r & -> & H & Hr)]]].
  - exists "". split; [done |]. intros x. rewrite str_app_nil.
    by destruct (to_ascii x).
  - destruct (IH r) as (p & Hp & Hx); [cbn; lia | done |].
    destruct (float_space_byte c H) as (H1 & _ & L).
    assert (ascii_of_char (code c) = Some c) as Ha by (apply ascii_of_char_ascii; lia).
    exists (String c p). split; [by cbn [float_lstrip]; rewrite H |].
    intros x. rewrite str_app_cons, (to_ascii_char1 _ _ _ H1), Hx. unfold put.
    rewrite Ha. cbn. by destruct (to_ascii x).
  - destruct (IH r) as (p & Hp & Hx); [cbn; lia | done |].
    unfold space2 in H. destruct (char2 c d) as [n|] eqn:E; [| done]. cbn in H.
    destruct (char2_lead c d n E) as [_ Hn].
    exists (String " " p). split; [done |].
    intros x. rewrite !str_app_cons, (to_ascii_char2 _ _ _ _ E), Hx. unfold put.
    rewrite space_beyond_ascii by done. cbn. by destruct (to_ascii x).
  - destruct (IH r) as (p & Hp & Hx); [cbn; lia | done |].
    unfold space3 in H. destruct (char3 c d e) as [n|] eqn:E; [| done]. cbn in H.
    destruct (char3_lead c d e n E) as (_ & _ & Hn).
    exists (String " " p). split; [done |].
    intros x. rewrite !str_app_cons, (to_ascii_char3 _ _ _ _ _ E), Hx. unfold put.
    rewrite space_beyond_ascii by done. cbn. by destruct (to_ascii x).
Qed.

(** [float] takes no notice of the whitespace it drops around a text. *)
Lemma float_of_string_pad (w1 s w2 : string) :
  float_blank w1 = true → float_blank w2 = true →
  float_of_string (w1 ++ s ++ w2) = float_of_string s.
Proof.
  intros H1 H2. unfold Py.float_of_string.
  destruct (to_ascii_float_blank w1 H1) as (p1 & Hp1 & E1).
  destruct (to_ascii_float_blank w2 H2) as (p2 & Hp2 & E2).
  rewrite E1, to_ascii_app by (by apply float_blank_starts_char).
  specialize (E2 ""). rewrite str_app_nil_r in E2. rewrite E2. cbn.
  destruct (to_ascii s) as [t|]; [| done]. cbn.
  rewrite str_app_nil_r. by rewrite float_strip_pad.
Qed.


(** X5.  The four categorical utilities give a text cell with whitespace
    around it what they give the text alone, for all the whitespace
    [str.strip] removes.  The three numeric utilities do so for the
    whitespace [float] drops: tab, line feed, vertical tab, form feed,
    carriage return, space, and the whitespace characters beyond ASCII.  The
    separators 28 to 31 are whitespace for [strip] and none for [float]: a
    rating with one of them before it is no number, and gets 0.5. *)
Theorem utilities_ignore_surrounding_whitespace (w1 s w2 : string) :
  blank w1 = true → blank w2 = true →
  (util_prog (PyStr (w1 ++ s ++ w2)) = util_prog (PyStr s) ∧
   util_location (PyStr (w1 ++ s ++ w2)) = util_location (PyStr s) ∧
   util_format (PyStr (w1 ++ s ++ w2)) = util_format (PyStr s) ∧
   util_exam (PyStr (w1 ++ s ++ w2)) = util_exam (PyStr s)) ∧
  (float_blank w1 = true → float_blank w2 = true →
   util_cost (PyStr (w1 ++ s ++ w2)) = util_cost (PyStr s) ∧
   util_benefit (PyStr (w1 ++ s ++ w2)) = util_benefit (PyStr s) ∧
   util_group (PyStr (w1 ++ s ++ w2)) = util_group (PyStr s)) ∧
  (blank (String "028" "") = true ∧ float_blank (String "028" "") = false ∧
   util_cost (PyStr "4") = Ok (lit 0.25) ∧
   util_cost (PyStr (String "028" "4")) = Ok (lit 0.5)).
Proof.
  intros H1 H2. split; [| split].
  - unfold util_prog, util_location, util_format, util_exam, py_str.
    rewrite !strip_pad by done. done.
  - intros F1 F2. unfold util_cost, util_benefit, util_group, Py.py_float.
    rewrite !float_of_string_pad by done. done.
  - repeat split; reflexivity.
Qed.



(** ** Which texts get which categorical utility *)

Lemma lit_values_differ :
  lit 1.0 ≠ lit 0.9 ∧ lit 1.0 ≠ lit 0.85 ∧ lit 1.0 ≠ lit 0.8 ∧
  lit 1.0 ≠ lit 0.7 ∧ lit 0.9 ≠ lit 0.85 ∧ lit 0.9 ≠ lit 0.8 ∧
  lit 0.8 ≠ lit 0.7.
Proof. repeat split; intros H; vm_compute in H; discriminate H. Qed.

(** X7.  [util_location] matches the two campus names exactly, letter case
    included: 1.0 for "Lindholmen" alone, 0.8 for "Johanneberg" alone, and
    0.9 for every other cell. *)
Theorem util_location_cases (v : PyVal) :
  (util_location v = lit 1.0 ↔ strip (str v) = "Lindholmen") ∧
  (util_location v = lit 0.8 ↔ strip (str v) = "Johanneberg") ∧
  (util_location v = lit 0.9 ↔
     strip (str v) ≠ "Lindholmen" ∧ strip (str v) ≠ "Johanneberg").
Proof.
  destruct lit_values_differ as (D1 & _ & D2 & _ & _ & D3 & _).
  unfold util_location.
  destruct (String.eqb_spec (strip (str v)) "Lindholmen") as [E1 | E1].
  - rewrite E1. repeat split; try done; intros; by destruct_and?.
  - destruct (String.eqb_spec (strip (str v)) "Johanneberg") as [E2 | E2].
    + rewrite E2. repeat split; try done; intros; try by destruct_and?.
      all: exfalso; by (apply D2 || apply D3).
    + assert ((if String.eqb (lower (strip (str v))) "online"
               then lit 0.9 else lit 0.9) = lit 0.9) as -> by (by destruct (_ =? _)%string).
      repeat split; try done; intros H; exfalso;
        by (apply D1; rewrite H || apply D3; rewrite H).
Qed.

(** X8.  [util_format] goes by the first keyword that is found, in this order:
    "lecture" gives 1.0 whatever else the text holds; "project" gives 0.9;
    "both", "bth" or "mixed" give 0.85; a text with none of them gets 0.9. *)
Theorem util_format_cases (v : PyVal) :
  (util_format v = lit 1.0 ↔ contains "lecture" (lower (strip (str v))) = true) ∧
  (util_format v = lit 0.85 ↔
     contains "lecture" (lower (strip (str v))) = false ∧
     contains "project" (lower (strip (str v))) = false ∧
     (contains "both" (lower (strip (str v))) = true ∨
      contains "bth" (lower (strip (str v))) = true ∨
      contains "mixed" (lower (strip (str v))) = true)) ∧
  (util_format v = lit 0.9 ↔
     contains "lecture" (lower (strip (str v))) = false ∧
     (contains "project" (lower (strip (str v))) = true ∨
      (contains "both" (lower (strip (str v))) = false ∧
       contains "bth" (lower (strip (str v))) = false ∧
       contains "mixed" (lower (strip (str v))) = false))).
Proof.
  destruct lit_values_differ as (D1 & D2 & _ & _ & D3 & _).
  unfold util_format. set (t := lower (strip (str v))).
  destruct (contains "lecture" t), (contains "project" t), (contains "both" t),
    (contains "bth" t), (contains "mixed" t); cbn [andb orb negb];
    repeat split; intros; destruct_and?; destruct_or?; destruct_and?;
    try done; auto;
    solve [ exfalso; eauto using eq_sym | left; done | right; auto ].
Qed.

(** X9.  [util_exam] goes by the first keyword that is found, in this order:
    "proj" gives 1.0; "mix" or "both" give 0.8; "written" gives 0.7; a text
    with none of them gets 0.8. *)
Theorem util_exam_cases (v : PyVal) :
  (util_exam v = lit 1.0 ↔ contains "proj" (lower (strip (str v))) = true) ∧
  (util_exam v = lit 0.7 ↔
     contains "proj" (lower (strip (str v))) = false ∧
     contains "mix" (lower (strip (str v))) = false ∧
     contains "both" (lower (strip (str v))) = false ∧
     contains "written" (lower (strip (str v))) = true) ∧
  (util_exam v = lit 0.8 ↔
     contains "proj" (lower (strip (str v))) = false ∧
     (contains "mix" (lower (strip (str v))) = true ∨
      contains "both" (lower (strip (str v))) = true ∨
      contains "written" (lower (strip (str v))) = false)).
Proof.
  destruct lit_values_differ as (_ & _ & D1 & D2 & _ & _ & D3).
  unfold util_exam. set (t := lower (strip (str v))).
  destruct (contains "proj" t), (contains "mix" t), (contains "both" t),
    (contains "written" t); cbn [andb orb negb];
    repeat split; intros; destruct_and?; destruct_or?; destruct_and?;
    try done; auto;
    solve [ exfalso; eauto using eq_sym | left; done | right; auto ].
Qed.


(** ** The score of a row as a function of its cells *)

Lemma get_insert_eq (row : Row) (col : string) (v : PyVal) :
  get (<[col := v]> row) col = v.
Proof. unfold get. by rewrite lookup_insert_eq. Qed.

Lemma get_insert_ne (row : Row) (col col' : string) (v : PyVal) :
  col ≠ col' → get (<[col := v]> row) col' = get row col'.
Proof. intros H. unfold get. by rewrite lookup_insert_ne. Qed.

(** The ten utilities of a row, their ranges, and its score. *)
Lemma row_score_spec (row : Row) :
  ∃ p l f h w i u a g e s,
    (util_prog (get row COL_PROG) = Fin p ∧
     util_location (get row COL_LOC) = Fin l ∧
     util_format (get row COL_FMT) = Fin f ∧
     util_cost (get row COL_HARD) = Ok (Fin h) ∧
     util_cost (get row COL_WORK) = Ok (Fin w) ∧
     util_benefit (get row COL_INTEREST) = Ok (Fin i) ∧
     util_benefit (get row COL_USEFUL) = Ok (Fin u) ∧
     util_benefit (get row COL_ALIGN) = Ok (Fin a) ∧
     util_group (get row COL_GROUP) = Ok (Fin g) ∧
     util_exam (get row COL_EXAM) = Fin e) ∧
    (3 # 5 <= p <= 1 ∧ 4 # 5 <= l <= 1 ∧ 17 # 20 <= f <= 1 ∧ 0 <= h <= 1 ∧
     0 <= w <= 1 ∧ 0 <= i <= 1 ∧ 0 <= u <= 1 ∧ 0 <= a <= 1 ∧ 0 <= g <= 1 ∧
     7 # 10 <= e <= 1) ∧
    row_score row = Fin s ∧ s = Qred s ∧ s == score_Q p l f h w i u a g e.
Proof.
  destruct (utilities_total row)
    as (h & w & i & u & a & g & [Hh ?] & [Hw ?] & [Hi ?] & [Hu ?] & [Ha ?]
        & [Hg ?] & HU).
  destruct (compute_score_total row)
    as (h' & w' & i' & u' & a' & g' & s & _ & HU' & HC & Hred & p & l & f & e
        & Hp & Hl & Hf & He & (? & ? & ? & ?) & Hs).
  rewrite HU in HU'. injection HU' as <- <- <- <- <- <-.
  exists p, l, f, h, w, i, u, a, g, e, s.
  split; [done |]. split; [done |].
  unfold row_score. rewrite HC. done.
Qed.

(** Brings two rows' utilities of one cell to one name. *)
Ltac same_utility :=
  match goal with
  | H1 : ?t = Fin ?a, H2 : ?t = Fin ?b |- _ =>
      rewrite H1 in H2; injection H2 as ?; subst b
  | H1 : ?t = Ok (Fin ?a), H2 : ?t = Ok (Fin ?b) |- _ =>
      rewrite H1 in H2; injection H2 as ?; subst b
  end.

(** X10.  [compute_score] reads the ten attribute columns and nothing else: two
    rows whose cells in these columns read the same get the same dict,
    whatever else they hold. *)
Theorem compute_score_reads_ten_columns (r1 r2 : Row) :
  (∀ col, col ∈ attribute_columns → get r1 col = get r2 col) →
  compute_score r1 = compute_score r2.
Proof.
  intros H. unfold compute_score, utilities.
  rewrite !(H COL_PROG), !(H COL_LOC), !(H COL_FMT), !(H COL_HARD),
    !(H COL_WORK), !(H COL_INTEREST), !(H COL_USEFUL), !(H COL_ALIGN),
    !(H COL_GROUP), !(H COL_EXAM); [done | unfold attribute_columns; set_solver ..].
Qed.

(** The score of a row and of the row with one cell replaced. *)
Ltac two_rows row col v1 v2 :=
  destruct (row_score_spec (<[col := v1]> row))
    as (p1 & l1 & f1 & h1 & w1 & i1 & u1 & a1 & g1 & e1 & s1
        & (? & ? & ? & ? & ? & ? & ? & ? & ? & ?)
        & (? & ? & ? & ? & ? & ? & ? & ? & ? & ?) & Hs1 & ? & ?);
  destruct (row_score_spec (<[col := v2]> row))
    as (p2 & l2 & f2 & h2 & w2 & i2 & u2 & a2 & g2 & e2 & s2
        & (? & ? & ? & ? & ? & ? & ? & ? & ? & ?)
        & (? & ? & ? & ? & ? & ? & ? & ? & ? & ?) & Hs2 & ? & ?);
  repeat match goal with
         | H : context [get (<[col := _]> row) ?c] |- _ =>
             first [ rewrite (get_insert_ne row col c) in H by done
                   | rewrite (get_insert_eq row col) in H ]
         end;
  repeat same_utility.

(** X11.  Rating a course harder or heavier never raises its [Score], and rating
    it more interesting, more useful or better aligned never lowers it: for
    finite ratings [x <= y] put in one of these cells, the other cells
    kept. *)
Theorem score_monotone_in_ratings (row : Row) (x y : Q) :
  x <= y →
  fle (row_score (<[COL_HARD := PyFloat (Fin y)]> row))
      (row_score (<[COL_HARD := PyFloat (Fin x)]> row)) = true ∧
  fle (row_score (<[COL_WORK := PyFloat (Fin y)]> row))
      (row_score (<[COL_WORK := PyFloat (Fin x)]> row)) = true ∧
  fle (row_score (<[COL_INTEREST := PyFloat (Fin x)]> row))
      (row_score (<[COL_INTEREST := PyFloat (Fin y)]> row)) = true ∧
  fle (row_score (<[COL_USEFUL := PyFloat (Fin x)]> row))
      (row_score (<[COL_USEFUL := PyFloat (Fin y)]> row)) = true ∧
  fle (row_score (<[COL_ALIGN := PyFloat (Fin x)]> row))
      (row_score (<[COL_ALIGN := PyFloat (Fin y)]> row)) = true.
Proof.
  intros Hxy.
  destruct (util_cost_antitone x y Hxy) as (cx & cy & Hcx & Hcy & Hc).
  destruct (util_benefit_monotone x y Hxy) as (bx & by_ & Hbx & Hby & Hb).
  repeat split.
  - two_rows row COL_HARD (PyFloat (Fin y)) (PyFloat (Fin x)).
    rewrite Hs1, Hs2. apply fle_Fin.
    repeat same_utility. unfold score_Q in *. lra.
  - two_rows row COL_WORK (PyFloat (Fin y)) (PyFloat (Fin x)).
    rewrite Hs1, Hs2. apply fle_Fin.
    repeat same_utility. unfold score_Q in *. lra.
  - two_rows row COL_INTEREST (PyFloat (Fin x)) (PyFloat (Fin y)).
    rewrite Hs1, Hs2. apply fle_Fin.
    repeat same_utility. unfold score_Q in *. lra.
  - two_rows row COL_USEFUL (PyFloat (Fin x)) (PyFloat (Fin y)).
    rewrite Hs1, Hs2. apply fle_Fin.
    repeat same_utility. unfold score_Q in *. lra.
  - two_rows row COL_ALIGN (PyFloat (Fin x)) (PyFloat (Fin y)).
    rewrite Hs1, Hs2. apply fle_Fin.
    repeat same_utility. unfold score_Q in *. lra.
Qed.


(** ** The path [main] reads *)

(** X14.  [main] gives up with "No path given" exactly when the line typed is
    blank (empty, or whitespace characters only); otherwise it goes on with
    the line minus the whitespace before and after it, which is not empty
    and has no whitespace character left at either end. *)
Theorem read_path_spec (line : string) :
  match read_path line with
  | None => blank line = true
  | Some csv_path =>
      blank line = false ∧ csv_path ≠ "" ∧
      (∃ w1 w2, blank w1 = true ∧ blank w2 = true ∧
                line = w1 ++ csv_path ++ w2) ∧
      lstrip csv_path = csv_path ∧ rstrip csv_path = csv_path
  end.
Proof.
  unfold read_path.
  destruct (strip_spec line) as (Hline & Hblank & Hl & Hr).
  destruct (String.eqb_spec (strip line) "") as [E | E].
  - by apply Hblank.
  - split; [| done]. apply not_true_is_false. intros B. by apply Hblank in B.
Qed.

(** ** The name of the output file *)

Lemma str_take_drop (k : nat) (p : string) : str_take k p ++ str_drop k p = p.
Proof.
  revert p. induction k as [|k IH]; intros [|c r]; cbn [str_take str_drop];
    rewrite ?str_app_nil, ?str_app_cons; [done .. |]. by rewrite IH.
Qed.

Lemma rfind_from_range (c : ascii) (p : string) (i : Z) :
  (0 <= i)%Z →
  rfind_from c p i = (-1)%Z ∨
  (i <= rfind_from c p i < i + Z.of_nat (String.length p))%Z.
Proof.
  revert i. induction p as [|d r IH]; intros i Hi; cbn [rfind_from]; [by left |].
  destruct (IH (i + 1)%Z ltac:(lia)) as [E | E].
  - rewrite E. cbn. destruct (Ascii.eqb d c); [right | by left].
    cbn [String.length]. lia.
  - destruct (Z.leb_spec 0 (rfind_from c r (i + 1))); [| lia].
    right. cbn [String.length]. lia.
Qed.

Lemma rfind_from_none (c : ascii) (p : string) (i : Z) :
  (0 <= i)%Z → rfind_from c p i = (-1)%Z → occurs c p = false.
Proof.
  revert i. induction p as [|d r IH]; intros i Hi; cbn [rfind_from occurs];
    [done |].
  destruct (rfind_from_range c r (i + 1)%Z ltac:(lia)) as [E | E].
  - rewrite E. cbn. destruct (Ascii.eqb d c); [lia |]. intros _.
    by apply (IH (i + 1)%Z ltac:(lia)).
  - destruct (Z.leb_spec 0 (rfind_from c r (i + 1))); lia.
Qed.

(** From the index [rfind] returns on, the text is the character searched
    for and then a text without it. *)
Lemma rfind_from_drop (c : ascii) (p : string) (i : Z) :
  (0 <= i)%Z → (i <= rfind_from c p i)%Z →
  ∃ e, str_drop (Z.to_nat (rfind_from c p i - i)) p = String c e ∧
       occurs c e = false.
Proof.
  revert i. induction p as [|d r IH]; intros i Hi; cbn [rfind_from]; [lia |].
  destruct (rfind_from_range c r (i + 1)%Z ltac:(lia)) as [E | E].
  - rewrite E. cbn. destruct (Ascii.eqb_spec d c) as [-> | ?]; [| lia].
    intros _. rewrite Z.sub_diag. cbn. exists r. split; [done |].
    by apply (rfind_from_none c r (i + 1)%Z ltac:(lia)).
  - destruct (Z.leb_spec 0 (rfind_from c r (i + 1))); [| lia]. intros _.
    destruct (IH (i + 1)%Z ltac:(lia) ltac:(lia)) as (e & He & Hocc).
    exists e. split; [| done].
    replace (Z.to_nat (rfind_from c r (i + 1) - i))
      with (S (Z.to_nat (rfind_from c r (i + 1) - (i + 1)))) by lia.
    done.
Qed.

(** After the index [rfind] returns, the character does not occur. *)
Lemma rfind_from_after (c : ascii) (p : string) (i k : Z) :
  (0 <= i)%Z → (i <= k)%Z → (rfind_from c p i < k)%Z →
  occurs c (str_drop (Z.to_nat (k - i)) p) = false.
Proof.
  revert i. induction p as [|d r IH]; intros i Hi Hik.
  - intros _. by destruct (Z.to_nat (k - i)).
  - intros Hlt. destruct (Z.eq_dec k i) as [-> | Hne].
    + rewrite Z.sub_diag. cbn [Z.to_nat str_drop].
      apply (rfind_from_none c _ i Hi).
      destruct (rfind_from_range c (String d r) i Hi); [done | lia].
    + replace (Z.to_nat (k - i)) with (S (Z.to_nat (k - (i + 1)))) by lia.
      cbn [str_drop]. apply IH; [lia | lia |].
      cbn [rfind_from] in Hlt.
      destruct (Z.leb_spec 0 (rfind_from c r (i + 1))); [done | lia].
Qed.

Lemma splitext_join (p : string) : (splitext p).1 ++ (splitext p).2 = p.
Proof.
  unfold splitext. destruct (_ <? _)%Z; [| apply str_app_nil_r].
  destruct (name_before_dot _ _ _); [apply str_take_drop | apply str_app_nil_r].
Qed.

(** What [os.path.splitext] returns as extension is empty, or a dot and
    then a text with no dot and no separator in it. *)
Lemma splitext_ext (p : string) :
  (splitext p).2 = "" ∨
  ∃ e, (splitext p).2 = String "." e ∧ occurs "." e = false ∧
       occurs "/" e = false.
Proof.
  unfold splitext. destruct (Z.ltb_spec (rfind "/" p) (rfind "." p)) as [Hlt |];
    [| by left].
  destruct (name_before_dot _ _ _); [right | by left]. cbn [snd].
  unfold rfind in *.
  destruct (rfind_from_range "/" p 0 ltac:(lia)) as [Es | Es];
    (destruct (rfind_from_drop "." p 0 ltac:(lia) ltac:(lia)) as (e & He & Hdot)).
  all: rewrite Z.sub_0_r in He; exists e; split; [done |]; split; [done |].
  all: pose proof (rfind_from_after "/" p 0 (rfind_from "." p 0)
                     ltac:(lia) ltac:(lia) Hlt) as Hsep.
  all: rewrite Z.sub_0_r, He in Hsep; cbn [occurs] in Hsep.
  all: by apply orb_false_elim in Hsep as [_ ?].
Qed.

(** X15.  The output file is named after the input file, with "_scored" put
    before its extension, or "_scored.csv" added when it has none; so the
    name is 7 or 11 characters longer, and [main] never writes over the file
    it read. *)
Theorem out_path_spec (csv_path : string) :
  ∃ base ext,
    splitext csv_path = (base, ext) ∧ base ++ ext = csv_path ∧
    (ext = "" ∨ ∃ e, ext = String "." e ∧ occurs "." e = false ∧
                     occurs "/" e = false) ∧
    out_path csv_path = base ++ "_scored" ++ (if String.eqb ext "" then ".csv" else ext) ∧
    String.length (out_path csv_path)
      = (String.length csv_path + (if String.eqb ext "" then 11 else 7))%nat ∧
    out_path csv_path ≠ csv_path.
Proof.
  pose proof (splitext_join csv_path) as Hjoin.
  pose proof (splitext_ext csv_path) as Hext.
  unfold out_path. destruct (splitext csv_path) as [base ext]. cbn [fst snd] in *.
  exists base, ext. repeat (split; [done |]).
  assert (String.length (base ++ "_scored" ++ (if String.eqb ext "" then ".csv" else ext))
          = (String.length csv_path + (if String.eqb ext "" then 11 else 7))%nat) as Hlen.
  { rewrite <- Hjoin, !str_length_app.
    destruct (String.eqb_spec ext "") as [-> | ?]; cbn [String.length]; lia. }
  split; [done |]. intros Heq. rewrite Heq in Hlen.
  destruct (String.eqb ext ""); lia.
Qed.


(** ** The preview *)

Lemma filter_sublist {A : Type} (f : A → bool) (l : list A) :
  sublist (List.filter f l) l.
Proof.
  induction l as [|x l IH]; cbn; [constructor |].
  destruct (f x); by constructor.
Qed.

Lemma filter_elem_of {A : Type} (f : A → bool) (l : list A) (x : A) :
  x ∈ List.filter f l ↔ x ∈ l ∧ f x = true.
Proof. rewrite !list_elem_of_In. apply List.filter_In. Qed.

(** X16.  The preview shows at most two identifying columns and then [Score]: the
    identifying columns are columns of the table whose label holds "Course",
    "code" or "name" (letter case as written), in the order of the table;
    when fewer than two are shown, the table has no other such column. *)
Theorem cols_to_show_spec (columns : list string) :
  ∃ ids,
    cols_to_show columns = (ids ++ ["Score"])%list ∧
    (length ids <= 2)%nat ∧
    sublist ids columns ∧
    Forall (λ c, names_course c = true) ids ∧
    ((length ids < 2)%nat →
       ∀ c, c ∈ columns → names_course c = true → c ∈ ids).
Proof.
  exists (take 2 (List.filter names_course columns)).
  split; [reflexivity |]. split; [rewrite length_take; lia |].
  split; [| split].
  - etrans; [apply sublist_take | apply filter_sublist].
  - apply Forall_forall. intros c Hc.
    apply (proj1 (filter_elem_of names_course columns c)).
    by apply (subseteq_take 2).
  - intros Hlen c Hc Hn. rewrite length_take in Hlen.
    rewrite take_ge by lia. by apply filter_elem_of.
Qed.

Lemma one_axis_empty_false (df : DataFrame) :
  df_rows df ≠ [] → df_columns df ≠ [] → one_axis_empty df = false.
Proof.
  intros Hr Hc. unfold one_axis_empty.
  by rewrite !bool_decide_eq_false_2.
Qed.

(** The rows of the output table, sorted, with their scores. *)
Lemma main_table_sorted
    (sort : (Row * ScoreDict → pyfloat) → list (Row * ScoreDict) → list (Row * ScoreDict))
    (df : DataFrame) :
  sorts_descending sort →
  one_axis_empty df = false → "Score" ∉ df_columns df →
  ∃ out, main_table sort df = Ok out ∧ length out = length (df_rows df) ∧
         Forall (λ r, compute_score r.1 = Ok r.2) out ∧
         StronglySorted (λ a b, fle (column "Score" b) (column "Score" a) = true) out.
Proof.
  intros Hsort Hne Hcol.
  destruct (main_table_total sort df Hne Hcol) as (scores & Happly & HF & Hmain).
  pose proof (concat_scored _ _ HF) as Hall.
  destruct (Hsort (column "Score") (concat (df_rows df) scores)) as [Hperm Hsorted].
  { eapply Forall_impl; [exact Hall |]. cbn. intros r Hr.
    destruct (score_column r Hr) as (s & -> & _). reflexivity. }
  eexists. split; [exact Hmain |]. split; [| split; [by rewrite <- Hperm | done]].
  rewrite <- Hperm. unfold concat. rewrite length_zip.
  apply Forall2_length in HF. lia.
Qed.

(** X17.  On a table with rows and columns and no [Score] column of its own,
    and with a [sort_values] that orders by descending [Score], the preview
    shows the first five rows of the sorted table, or all of them when there
    are fewer; no row left out has a larger [Score] than a row shown. *)
Theorem preview_shows_best_rows
    (sort : (Row * ScoreDict → pyfloat) → list (Row * ScoreDict) → list (Row * ScoreDict))
    (df : DataFrame) :
  sorts_descending sort →
  df_rows df ≠ [] → df_columns df ≠ [] → "Score" ∉ df_columns df →
  ∃ out, main_table sort df = Ok out ∧
    length (head5 out) = Nat.min 5 (length (df_rows df)) ∧
    length (drop 5 out) = (length (df_rows df) - 5)%nat ∧
    ∀ a b, a ∈ head5 out → b ∈ drop 5 out →
      ∃ sa sb, column "Score" a = Fin sa ∧ column "Score" b = Fin sb ∧
               sb <= sa.
Proof.
  intros Hsort Hrows Hcols Hcol.
  pose proof (one_axis_empty_false df Hrows Hcols) as Hne.
  destruct (main_table_sorted sort df Hsort Hne Hcol)
    as (out & Hmain & Hlen & Hall & Hsorted).
  exists out. split; [done |]. unfold head5.
  split; [rewrite length_take; lia |].
  split; [rewrite length_drop; lia |].
  intros a b Ha Hb.
  apply list_elem_of_lookup in Ha as [i Hi], Hb as [j Hj].
  pose proof (lookup_lt_Some _ _ _ Hi) as Hi5. rewrite length_take in Hi5.
  rewrite lookup_take_lt in Hi by lia. rewrite lookup_drop in Hj.
  pose proof (StronglySorted_lookup _ _ i (5 + j) a b Hsorted ltac:(lia) Hi Hj)
    as Hab. cbn in Hab.
  pose proof (proj1 (Forall_lookup _ _) Hall i a Hi) as Ca.
  pose proof (proj1 (Forall_lookup _ _) Hall (5 + j)%nat b Hj) as Cb.
  destruct (score_column a Ca) as (sa & Ea & _).
  destruct (score_column b Cb) as (sb & Eb & _).
  exists sa, sb. rewrite Ea, Eb in *. by apply fle_Fin in Hab.
Qed.

(** ** The ranking *)






(** ** A number written as text *)

Lemma digit_char_facts (c : ascii) (d : Z) :
  digit_of c = Some d →
  is_float_space c = false ∧ lower_char c = c ∧ c ≠ "-"%char ∧ c ≠ "+"%char ∧
  c ≠ "i"%char ∧ c ≠ "n"%char.
Proof.
  destruct c as [[] [] [] [] [] [] [] []]; cbn; intros H; try discriminate H;
    repeat split; discriminate.
Qed.

Lemma digit_char_ascii (c : ascii) (d : Z) :
  digit_of c = Some d → char1 c = Some (code c) ∧ (code c < 127)%N.
Proof.
  unfold digit_of, char1. destruct (_ && _)%N eqn:E; [| done]. intros _.
  apply andb_prop in E as [_ E]. apply N.leb_le in E.
  destruct (code c <? 128)%N eqn:F; [split; [done | lia] |].
  apply N.ltb_ge in F. lia.
Qed.

Lemma digit_of_digit_char (d : Z) :
  (0 <= d <= 9)%Z → digit_of (digit_char d) = Some d.
Proof.
  intros H.
  assert (d = 0 ∨ d = 1 ∨ d = 2 ∨ d = 3 ∨ d = 4 ∨ d = 5 ∨ d = 6 ∨ d = 7 ∨
          d = 8 ∨ d = 9)%Z as Hd by lia.
  destruct_or!; subst d; reflexivity.
Qed.

Lemma all_digits_lstrip (s : string) : all_digits s = true → float_lstrip s = s.
Proof.
  destruct s as [|c r]; [done |]. cbn [all_digits float_lstrip].
  destruct (digit_of c) as [d|] eqn:E; [| done]. intros _.
  by destruct (digit_char_facts c d E) as (-> & _).
Qed.

Lemma all_digits_rstrip (s : string) : all_digits s = true → float_rstrip s = s.
Proof.
  induction s as [|c r IH]; [done |]. cbn [all_digits float_rstrip].
  destruct (digit_of c) as [d|] eqn:E; [| done]. cbn [andb]. intros Hr.
  rewrite (IH Hr). destruct (digit_char_facts c d E) as (-> & _).
  by destruct r.
Qed.

(** Digits are ASCII already. *)
Lemma all_digits_to_ascii (s : string) : all_digits s = true → to_ascii s = Some s.
Proof.
  induction s as [|c r IH]; [done |]. cbn [all_digits].
  destruct (digit_of c) as [d|] eqn:E; [| done]. cbn [andb]. intros Hr.
  destruct (digit_char_ascii c d E) as [H1 Hc].
  rewrite (to_ascii_char1 _ _ _ H1), (IH Hr). unfold put.
  by rewrite ascii_of_char_ascii.
Qed.

Lemma all_digits_lower (s : string) : all_digits s = true → lower s = s.
Proof.
  unfold lower. induction s as [|c r IH]; [done |]. cbn [all_digits map_chars].
  destruct (digit_of c) as [d|] eqn:E; [| done]. cbn [andb]. intros Hr.
  rewrite (IH Hr). by destruct (digit_char_facts c d E) as (_ & -> & _).
Qed.

Lemma nat_digits_all_digits (fuel : nat) (n : Z) (acc : string) :
  (0 <= n)%Z → all_digits acc = true → all_digits (nat_digits fuel n acc) = true.
Proof.
  revert n acc. induction fuel as [|fuel IH]; intros n acc Hn Hacc; [done |].
  cbn [nat_digits].
  assert (all_digits (String (digit_char (n mod 10)) acc) = true) as Hacc'.
  { cbn [all_digits]. rewrite digit_of_digit_char, Hacc; [done |].
    pose proof (Z.mod_pos_bound n 10%Z). lia. }
  destruct (n <? 10)%Z; [done |]. apply IH; [| done].
  apply Z.div_pos; lia.
Qed.

Lemma digits_rest_digit (c : ascii) (d : Z) (r : string) (a : Z) (k : nat) :
  digit_of c = Some d →
  digits_rest (String c r) a k = digits_rest r (10 * a + d)%Z (S k).
Proof. intros H. cbn [digits_rest]. by rewrite H. Qed.

(** Reading back the digits written for [n]: the number read so far is
    shifted by the number of digits, and [n] is added. *)
Lemma nat_digits_read (fuel : nat) (n : Z) (acc : string) :
  (0 <= n < 10 ^ Z.of_nat fuel)%Z →
  ∃ L : nat, ∀ a k,
    digits_rest (nat_digits fuel n acc) a k
    = digits_rest acc (a * 10 ^ Z.of_nat L + n)%Z (k + L).
Proof.
  revert n acc. induction fuel as [|fuel IH]; intros n acc Hn.
  - change (10 ^ Z.of_nat 0)%Z with 1%Z in Hn. exists 0%nat. intros a k.
    cbn [nat_digits]. f_equal; [| lia].
    change (10 ^ Z.of_nat 0)%Z with 1%Z. lia.
  - cbn [nat_digits].
    assert (0 <= n mod 10 <= 9)%Z as Hd by (pose proof (Z.mod_pos_bound n 10%Z); lia).
    destruct (Z.ltb_spec n 10%Z) as [Hlt | Hge].
    + exists 1%nat. intros a k.
      rewrite (digits_rest_digit _ _ _ _ _ (digit_of_digit_char _ Hd)).
      rewrite Z.mod_small by lia. f_equal; [| lia].
      change (10 ^ Z.of_nat 1)%Z with 10%Z. lia.
    + destruct (IH (n / 10)%Z (String (digit_char (n mod 10)) acc)) as [L HL].
      { split; [apply Z.div_pos; lia |].
        apply Z.div_lt_upper_bound; [lia |].
        rewrite Nat2Z.inj_succ, Z.pow_succ_r in Hn by lia. lia. }
      exists (S L). intros a k. rewrite HL.
      rewrite (digits_rest_digit _ _ _ _ _ (digit_of_digit_char _ Hd)).
      f_equal; [| lia].
      rewrite Nat2Z.inj_succ, Z.pow_succ_r by lia.
      pose proof (Z.div_mod n 10%Z ltac:(lia)). lia.
Qed.

Lemma nat_digits_first (fuel : nat) (n : Z) (acc : string) :
  (0 <= n)%Z →
  ∃ c r d, nat_digits (S fuel) n acc = String c r ∧ digit_of c = Some d.
Proof.
  revert n acc. induction fuel as [|fuel IH]; intros n acc Hn.
  - cbn [nat_digits].
    assert (0 <= n mod 10 <= 9)%Z as Hd by (pose proof (Z.mod_pos_bound n 10%Z); lia).
    destruct (n <? 10)%Z; eexists _, _, _;
      (split; [reflexivity | by apply digit_of_digit_char]).
  - change (nat_digits (S (S fuel)) n acc)
      with (let acc' := String (digit_char (n mod 10)) acc in
            if (n <? 10)%Z then acc' else nat_digits (S fuel) (n / 10) acc').
    cbn zeta.
    assert (0 <= n mod 10 <= 9)%Z as Hd by (pose proof (Z.mod_pos_bound n 10%Z); lia).
    destruct (n <? 10)%Z.
    + eexists _, _, _. split; [reflexivity | by apply digit_of_digit_char].
    + apply IH. apply Z.div_pos; lia.
Qed.

Lemma fuel_enough (m : Z) :
  (0 <= m)%Z → (0 <= m < 10 ^ Z.of_nat (S (Z.to_nat (Z.log2 m))))%Z.
Proof.
  intros Hm. split; [done |].
  rewrite Nat2Z.inj_succ, Z2Nat.id by apply Z.log2_nonneg.
  destruct (Z.eq_dec m 0%Z) as [-> | Hne]; [done |].
  pose proof (Z.log2_spec m ltac:(lia)) as [_ Hlt].
  eapply Z.lt_le_trans; [exact Hlt |].
  apply Z.pow_le_mono_l. pose proof (Z.log2_nonneg m). lia.
Qed.

(** The digits of a number that is not negative, read as a [digitpart]. *)
Lemma digitpart_digits (m : Z) :
  (0 <= m)%Z →
  let ds := nat_digits (S (Z.to_nat (Z.log2 m))) m "" in
  all_digits ds = true ∧
  (∃ c r d, ds = String c r ∧ digit_of c = Some d) ∧
  ∃ L, digitpart ds = Some (m, L, "").
Proof.
  intros Hm ds. split; [by apply nat_digits_all_digits |].
  destruct (nat_digits_first (Z.to_nat (Z.log2 m)) m "" Hm) as (c & r & d & Hds & Hc).
  split; [by exists c, r, d |].
  destruct (nat_digits_read _ m "" (fuel_enough m Hm)) as [L HL].
  exists L. specialize (HL 0%Z 0%nat). fold ds in HL, Hds.
  unfold digitpart. rewrite Hds, Hc. rewrite Hds in HL.
  rewrite (digits_rest_digit _ _ _ _ _ Hc) in HL.
  change (10 * 0 + d)%Z with d in HL. rewrite HL. cbn [digits_rest].
  by rewrite Z.mul_0_l, Z.add_0_l.
Qed.

Lemma Qred_inject_Z (n : Z) : Qred (inject_Z n) = inject_Z n.
Proof.
  unfold Qred, inject_Z.
  pose proof (Z.ggcd_gcd n 1%Z) as Hg.
  pose proof (Z.ggcd_correct_divisors n 1%Z) as Hd.
  destruct (Z.ggcd n 1%Z) as [g [a b]]. cbn [fst snd] in *.
  rewrite Z.gcd_1_r in Hg. subst g. destruct Hd as [Ha Hb].
  assert (b = 1%Z) as -> by lia. assert (a = n) as -> by lia. done.
Qed.

Lemma overflows_Qeq (a b : Q) : a == b → overflows a = overflows b.
Proof.
  intros H. unfold overflows.
  destruct (Qle_bool overflow_threshold (Qabs b)) eqn:E.
  - apply Qle_bool_iff. apply Qle_bool_iff in E. by rewrite H.
  - apply not_true_iff_false. apply not_true_iff_false in E.
    rewrite Qle_bool_iff in *. by rewrite H.
Qed.

(** [float] of the digits of a whole number is that number. *)
Lemma float_of_int_str (n : Z) :
  overflows (inject_Z n) = false →
  float_of_string (int_str n) = Ok (Fin (inject_Z n)).
Proof.
  intros Hov.
  destruct (digitpart_digits (Z.abs n) (Z.abs_nonneg n))
    as (Hall & (c & r & d & Hds & Hc) & L & Hpart).
  destruct (digit_char_facts c d Hc) as (Hsp & Hlow & Hm & Hp & Hi & Hn).
  unfold int_str, Py.float_of_string, parse_float.
  set (ds := nat_digits (S (Z.to_nat (Z.log2 (Z.abs n)))) (Z.abs n) "") in *.
  assert (number ds = Some (inject_Z (Z.abs n), "")) as Hnum.
  { unfold number. by rewrite Hpart. }
  assert (String.eqb (lower ds) "inf" || String.eqb (lower ds) "infinity" = false)
    as Hinf.
  { rewrite all_digits_lower by done. rewrite Hds. cbn [String.eqb].
    destruct (Ascii.eqb_spec c "i"); [done |]. done. }
  assert (String.eqb (lower ds) "nan" = false) as Hnan.
  { rewrite all_digits_lower by done. rewrite Hds. cbn [String.eqb].
    by destruct (Ascii.eqb_spec c "n"). }
  assert (sign ds = (false, ds)) as Hsign.
  { rewrite Hds. unfold sign.
    destruct c as [[] [] [] [] [] [] [] []]; try done. }
  assert (float_strip ds = ds) as Hstrip.
  { unfold float_strip. by rewrite all_digits_lstrip, all_digits_rstrip. }
  pose proof (all_digits_to_ascii ds Hall) as Hascii.
  destruct (Z.ltb_spec n 0%Z) as [Hneg | Hpos].
  - assert (to_ascii (String "-" ds) = Some (String "-" ds)) as ->.
    { rewrite (to_ascii_char1 "-" ds 45 eq_refl), Hascii. reflexivity. }
    assert (float_strip (String "-" ds) = String "-" ds) as ->.
    { unfold float_strip. cbn [float_lstrip].
      change (is_float_space "-") with false. cbn [float_rstrip].
      rewrite all_digits_rstrip by done. by rewrite Hds. }
    cbn [sign]. rewrite Hinf, Hnan, Hnum. cbn [exponent].
    unfold to_float.
    assert (- (inject_Z (Z.abs n) * Qpow10 0) == inject_Z n) as Eq.
    { unfold Qpow10. rewrite Qmult_1_r. unfold Qeq, inject_Z. cbn. lia. }
    rewrite (overflows_Qeq _ _ Eq), Hov. do 2 f_equal.
    rewrite <- (Qred_inject_Z n). by apply Qred_complete.
  - rewrite Hascii, Hstrip, Hsign, Hinf, Hnan, Hnum. cbn [exponent].
    unfold to_float.
    assert (inject_Z (Z.abs n) * Qpow10 0 == inject_Z n) as Eq.
    { unfold Qpow10. rewrite Qmult_1_r. unfold Qeq, inject_Z. cbn. lia. }
    rewrite (overflows_Qeq _ _ Eq), Hov. do 2 f_equal.
    rewrite <- (Qred_inject_Z n). by apply Qred_complete.
Qed.

(** X19.  A whole number written out as text (what a cell holds when its column
    also has text in it) gets the utility of the number itself. *)
Theorem rating_as_text (n : Z) :
  overflows (inject_Z n) = false →
  py_float (PyStr (int_str n)) = Ok (Fin (inject_Z n)) ∧
  util_cost (PyStr (int_str n)) = util_cost (PyInt n) ∧
  util_benefit (PyStr (int_str n)) = util_benefit (PyInt n) ∧
  util_group (PyStr (int_str n)) = util_group (PyInt n).
Proof.
  intros Hov. pose proof (float_of_int_str n Hov) as H.
  unfold util_cost, util_benefit, util_group, Py.py_float. by rewrite H, Hov.
Qed.


End Rater.

(* ===================================================================== *)
(** * Part 5: instances                                                   *)
(* ===================================================================== *)

Local Open Scope Q_scope.
Local Open Scope string_scope.

(** C7, as the specification words it, fails for the cost-type utilities:
    from ten utilities of 0.5, raising [u_hard] alone from 0.0 to 1.0 raises
    the score from 45 to 55, and so does raising [u_work] alone. *)
Lemma raising_u_hard_raises_score :
  finite_utilities u_half = true ∧
  score_of (with_hard (lit 0.0) u_half) = lit 45.0 ∧
  score_of (with_hard (lit 1.0) u_half) = lit 55.0 ∧
  fle (score_of (with_hard (lit 1.0) u_half))
      (score_of (with_hard (lit 0.0) u_half)) = false ∧
  score_of (with_work (lit 0.0) u_half) = lit 45.0 ∧
  score_of (with_work (lit 1.0) u_half) = lit 55.0 ∧
  fle (score_of (with_work (lit 1.0) u_half))
      (score_of (with_work (lit 0.0) u_half)) = false.
Proof. repeat split; reflexivity. Qed.

(** From ten utilities of 0.5, with one utility raised from 0 to 1. *)
Lemma score_nondecreasing_witness :
  (finite_utilities u_half = true ∧ 0 <= 1) ∧
  fle (score_of (with_inter (Fin 0) u_half)) (score_of (with_inter (Fin 1) u_half)) = true ∧
  fle (score_of (with_useful (Fin 0) u_half)) (score_of (with_useful (Fin 1) u_half)) = true ∧
  fle (score_of (with_align (Fin 0) u_half)) (score_of (with_align (Fin 1) u_half)) = true ∧
  fle (score_of (with_hard (Fin 0) u_half)) (score_of (with_hard (Fin 1) u_half)) = true ∧
  fle (score_of (with_work (Fin 0) u_half)) (score_of (with_work (Fin 1) u_half)) = true ∧
  ∃ ux uy, util_cost sample_decimal (PyFloat (Fin 0)) = Ok (Fin ux) ∧
           util_cost sample_decimal (PyFloat (Fin 1)) = Ok (Fin uy) ∧ uy <= ux.
Proof.
  split; [split; [reflexivity | discriminate] |].
  apply (score_nondecreasing_in_each_utility sample_decimal u_half 0 1); [reflexivity | discriminate].
Defined.

(** The two rows agree outside the exam-type column. *)
Lemma course_a_project_agrees (col : string) :
  col ≠ COL_EXAM → course_a !! col = course_a_project !! col.
Proof. intros H. unfold course_a_project. by rewrite lookup_insert_ne. Qed.

(** Two rows that differ in the exam type only: "written" and "project". *)
Lemma exam_type_witness :
  w_exam = Fin 0 ∧
  ∃ d1 d2 s,
    compute_score sample_repr sample_decimal course_a = Ok d1 ∧
    compute_score sample_repr sample_decimal course_a_project = Ok d2 ∧
    dict_get d1 "Score" = Some (Fin s) ∧ dict_get d2 "Score" = Some (Fin s) ∧
    dict_get d1 "u_exam" = Some (util_exam sample_repr (get course_a COL_EXAM)) ∧
    dict_get d2 "u_exam" = Some (util_exam sample_repr (get course_a_project COL_EXAM)).
Proof.
  apply (exam_type_has_no_influence sample_repr sample_decimal course_a course_a_project).
  exact course_a_project_agrees.
Defined.

(** The two exam cells do give different utilities. *)
Example exam_utilities_differ :
  util_exam sample_repr (get course_a COL_EXAM) = lit 0.7 ∧
  util_exam sample_repr (get course_a_project COL_EXAM) = lit 1.0 ∧
  (∃ d, compute_score sample_repr sample_decimal course_a = Ok d ∧
        dict_get d "Score" = Some (lit 71.5)) ∧
  (∃ d, compute_score sample_repr sample_decimal course_a_project = Ok d ∧
        dict_get d "Score" = Some (lit 71.5)).
Proof.
  split; [by vm_compute |]. split; [by vm_compute |].
  split; eexists; (split; [vm_compute; reflexivity | reflexivity]).
Qed.

(** What [compute_score] returns on the sample courses. *)
Lemma compute_score_samples :
  compute_score sample_repr sample_decimal course_a = Ok scores_a ∧
  compute_score sample_repr sample_decimal course_b = Ok scores_a ∧
  compute_score sample_repr sample_decimal course_c = Ok scores_c.
Proof. repeat split; vm_compute; reflexivity. Qed.

(** ** The values the specification lists *)

Example util_prog_examples :
  util_prog sample_repr (PyStr "Y") = lit 1.0 ∧
  util_prog sample_repr (PyStr "n") = lit 0.6 ∧
  util_prog sample_repr (PyStr " y ") = lit 1.0 ∧
  util_prog sample_repr (PyStr "") = lit 0.6.
Proof. repeat split; reflexivity. Qed.

Example util_location_examples :
  util_location sample_repr (PyStr "Lindholmen") = lit 1.0 ∧
  util_location sample_repr (PyStr "Johanneberg") = lit 0.8 ∧
  util_location sample_repr (PyStr "ONLINE") = lit 0.9 ∧
  util_location sample_repr (PyStr "lindholmen") = lit 0.9.
Proof. repeat split; reflexivity. Qed.

Example util_format_examples :
  util_format sample_repr (PyStr "Lectures and project") = lit 1.0 ∧
  util_format sample_repr (PyStr "Project") = lit 0.9 ∧
  util_format sample_repr (PyStr "bth") = lit 0.85 ∧
  util_format sample_repr (PyStr "seminar") = lit 0.9.
Proof. repeat split; reflexivity. Qed.

Example util_exam_examples :
  util_exam sample_repr (PyStr "proj") = lit 1.0 ∧
  util_exam sample_repr (PyStr "Mixed") = lit 0.8 ∧
  util_exam sample_repr (PyStr "written") = lit 0.7 ∧
  util_exam sample_repr (PyStr "oral") = lit 0.8.
Proof. repeat split; reflexivity. Qed.

Example util_benefit_examples :
  util_benefit sample_decimal (PyInt 1) = Ok (lit 0.0) ∧ util_benefit sample_decimal (PyInt 5) = Ok (lit 1.0) ∧
  util_benefit sample_decimal (PyInt 3) = Ok (lit 0.5) ∧ util_benefit sample_decimal (PyStr "4.0") = Ok (lit 0.75).
Proof. repeat split; reflexivity. Qed.

Example util_group_examples :
  util_group sample_decimal (PyInt 3) = Ok (lit 1.0) ∧
  util_group sample_decimal (PyInt 2) = Ok (lit 0.5) ∧ util_group sample_decimal (PyInt 4) = Ok (lit 0.5) ∧
  util_group sample_decimal (PyInt 1) = Ok (lit 0.0) ∧ util_group sample_decimal (PyInt 5) = Ok (lit 0.0) ∧
  util_group sample_decimal (PyInt 9) = Ok (lit 0.0).
Proof. repeat split; reflexivity. Qed.

Example float_examples :
  py_float sample_decimal (PyStr " 3 ") = Ok (lit 3.0) ∧ py_float sample_decimal (PyStr "2.5") = Ok (lit 2.5) ∧
  py_float sample_decimal (PyStr "-1e2") = Ok (lit (-100.0)) ∧
  py_float sample_decimal (PyStr "1_0.5e-1") = Ok (lit 1.05) ∧
  py_float sample_decimal (PyStr "NaN") = Ok NaN ∧ py_float sample_decimal (PyStr "-Infinity") = Ok NInf ∧
  py_float sample_decimal (PyStr "1e400") = Ok PInf ∧
  py_float sample_decimal (PyStr "x") = Raise ValueError ∧ py_float sample_decimal (PyStr "") = Raise ValueError ∧
  py_float sample_decimal (PyStr "1__0") = Raise ValueError ∧ py_float sample_decimal (PyStr "1e") = Raise ValueError ∧
  py_float sample_decimal PyNone = Raise TypeError ∧ py_float sample_decimal (PyBool true) = Ok (lit 1.0).
Proof. repeat split; reflexivity. Qed.

Example text_examples :
  strip "  Y  " = "Y" ∧ strip "a b " = "a b" ∧ upper "abZ z" = "ABZ Z" ∧
  lower "Lectures" = "lectures" ∧ contains "bth" "abthc" = true ∧
  contains "both" "bth" = false ∧ int_str (-45) = "-45" ∧ int_str 100 = "100".
Proof. repeat split; reflexivity. Qed.

(** The lowest score is reached: programme "N", Johanneberg, format "both",
    and the worst rating everywhere. *)
Example lowest_score :
  score_of (mkUtilities (lit 0.6) (lit 0.8) (lit 0.85) (lit 0.0) (lit 0.0)
              (lit 0.0) (lit 0.0) (lit 0.0) (lit 0.0) (lit 0.7)) = lit 14.25.
Proof. reflexivity. Qed.

(** ** The arithmetic on binary64 numbers *)

Local Open Scope float_scope.

Lemma ltb_leb (x y : float) : (x <? y) = true → (x <=? y) = true.
Proof.
  rewrite ltb_spec, leb_spec. unfold SFltb, SFleb.
  destruct (SFcompare _ _) as [[]|]; congruence.
Qed.

(** On every binary64 number, NaN and the infinities included, [clip01]
    returns a number between 0 and 1. *)
Lemma binary64_clip01_range (x : float) :
  (0.0 <=? Binary64.clip01 x) = true ∧ (Binary64.clip01 x <=? 1.0) = true.
Proof.
  unfold Binary64.clip01, Binary64.py_min, Binary64.py_max.
  destruct (x <? 1.0) eqn:H1.
  - destruct (0.0 <? x) eqn:H0.
    + split; by apply ltb_leb.
    + split; reflexivity.
  - split; reflexivity.
Qed.

(** So do the three numeric utilities after it. *)
Lemma binary64_utilities_range (x : float) :
  ((0.0 <=? Binary64.cost x) = true ∧ (Binary64.cost x <=? 1.0) = true) ∧
  ((0.0 <=? Binary64.benefit x) = true ∧ (Binary64.benefit x <=? 1.0) = true) ∧
  ((0.0 <=? Binary64.group x) = true ∧ (Binary64.group x <=? 1.0) = true).
Proof. repeat split; apply binary64_clip01_range. Qed.

(** NaN goes through [clip01] to 1.0. *)
Example binary64_nan :
  Binary64.py_min 1.0 nan = 1.0 ∧ Binary64.clip01 nan = 1.0 ∧
  Binary64.cost nan = 1.0 ∧ Binary64.benefit nan = 1.0 ∧ Binary64.group nan = 1.0.
Proof. repeat split; reflexivity. Qed.

Example binary64_cost :
  Binary64.cost 1.0 = 1.0 ∧ Binary64.cost 5.0 = 0.0 ∧ Binary64.cost 3.0 = 0.5 ∧
  ((5.0 - 6.0) / 4.0 = -0.25 ∧ Binary64.cost 6.0 = 0.0) ∧
  ((5.0 - 0.0) / 4.0 = 1.25 ∧ Binary64.cost 0.0 = 1.0) ∧
  Binary64.cost infinity = 0.0 ∧ Binary64.cost neg_infinity = 1.0.
Proof. repeat split; reflexivity. Qed.

Example binary64_benefit_group :
  Binary64.benefit 1.0 = 0.0 ∧ Binary64.benefit 5.0 = 1.0 ∧
  Binary64.benefit 3.0 = 0.5 ∧ Binary64.group 3.0 = 1.0 ∧
  Binary64.group 2.0 = 0.5 ∧ Binary64.group 4.0 = 0.5 ∧
  Binary64.group 1.0 = 0.0 ∧ Binary64.group 5.0 = 0.0.
Proof. repeat split; reflexivity. Qed.

(** The two ends of the score range: every utility at its largest value
    gives exactly 100.0, and every utility at its smallest value gives
    14.250000000000002, which is not below 14.25. *)
Example binary64_score_ends :
  Binary64.score 1.0 1.0 1.0 1.0 1.0 1.0 1.0 1.0 1.0 1.0 = 100.0 ∧
  Binary64.score 0.6 0.8 0.85 0.0 0.0 0.0 0.0 0.0 0.0 0.7 = 14.250000000000002 ∧
  (14.25 <=? Binary64.score 0.6 0.8 0.85 0.0 0.0 0.0 0.0 0.0 0.0 0.7) = true ∧
  (Binary64.score 0.5 0.5 0.5 0.0 0.5 0.5 0.5 0.5 0.5 0.5
     <? Binary64.score 0.5 0.5 0.5 1.0 0.5 0.5 0.5 0.5 0.5 0.5) = true.
Proof. repeat split; reflexivity. Qed.

(** The exam utility is one of 1.0, 0.8 and 0.7, and its product with the
    weight 0.00 is 0.0 each time, so it leaves the binary64 score as it is. *)
Lemma binary64_exam_product (e : float) :
  e = 1.0 ∨ e = 0.8 ∨ e = 0.7 → Binary64.w_exam * e = 0.0.
Proof. intros [-> | [-> | ->]]; reflexivity. Qed.

Lemma binary64_exam_no_influence (p l f h w i u a g e1 e2 : float) :
  e1 = 1.0 ∨ e1 = 0.8 ∨ e1 = 0.7 → e2 = 1.0 ∨ e2 = 0.8 ∨ e2 = 0.7 →
  Binary64.score p l f h w i u a g e1 = Binary64.score p l f h w i u a g e2.
Proof.
  intros H1 H2. unfold Binary64.score.
  by rewrite (binary64_exam_product e1 H1), (binary64_exam_product e2 H2).
Qed.

(** ** Instances of the further properties *)

Local Open Scope Q_scope.
Local Open Scope string_scope.

(** The two sample courses differ in the course code only. *)
Lemma course_b_same_cells (col : string) :
  col ∈ attribute_columns → get course_a col = get course_b col.
Proof.
  intros Hcol. unfold course_b. symmetry. apply get_insert_ne. intros <-.
  unfold attribute_columns in Hcol.
  repeat (apply elem_of_cons in Hcol as [Hcol | Hcol]; [discriminate Hcol |]).
  by apply elem_of_nil in Hcol.
Qed.

Lemma reads_ten_columns_witness :
  (∀ col, col ∈ attribute_columns → get course_a col = get course_b col) ∧
  compute_score sample_repr sample_decimal course_a = compute_score sample_repr sample_decimal course_b.
Proof.
  split; [exact course_b_same_cells |].
  apply (compute_score_reads_ten_columns sample_repr sample_decimal course_a course_b).
  exact course_b_same_cells.
Defined.

(** [course_a] with the hardness, and then the interest, rated 2 and 4. *)
Lemma score_monotone_witness :
  2 <= 4 ∧
  fle (row_score sample_repr sample_decimal (<[COL_HARD := PyFloat (Fin 4)]> course_a))
      (row_score sample_repr sample_decimal (<[COL_HARD := PyFloat (Fin 2)]> course_a)) = true ∧
  fle (row_score sample_repr sample_decimal (<[COL_INTEREST := PyFloat (Fin 2)]> course_a))
      (row_score sample_repr sample_decimal (<[COL_INTEREST := PyFloat (Fin 4)]> course_a)) = true.
Proof.
  assert (2 <= 4) as H by discriminate.
  split; [exact H |].
  pose proof (score_monotone_in_ratings sample_repr sample_decimal course_a 2 4 H)
    as (H1 & _ & H3 & _).
  split; [exact H1 | exact H3].
Defined.

(** The rating 3, as the number and as the text "3". *)
Lemma rating_as_text_witness :
  overflows (inject_Z 3) = false ∧ int_str 3 = "3" ∧
  util_cost sample_decimal (PyStr (int_str 3)) = util_cost sample_decimal (PyInt 3).
Proof.
  split; [reflexivity |]. split; [reflexivity |].
  exact (proj1 (proj2 (rating_as_text sample_decimal 3 eq_refl))).
Defined.

(** Paths and preview columns, evaluated. *)
Example out_path_examples :
  out_path "courses.csv" = "courses_scored.csv" ∧
  out_path "courses" = "courses_scored.csv" ∧
  out_path "my.dir/courses" = "my.dir/courses_scored.csv" ∧
  out_path "x.tar.gz" = "x.tar_scored.gz" ∧
  out_path ".hidden" = ".hidden_scored.csv" ∧
  splitext "a/.hidden.csv" = ("a/.hidden", ".csv") ∧
  read_path "   " = None ∧ read_path " data/courses.csv " = Some "data/courses.csv".
Proof. repeat split; reflexivity. Qed.

Example cols_to_show_examples :
  cols_to_show ["Course code"; "Course name"; "Nickname"; COL_HARD]
    = ["Course code"; "Course name"; "Score"] ∧
  cols_to_show ["course"; "Name"; COL_HARD] = ["Score"] ∧
  cols_to_show [COL_HARD; "Short name"] = ["Short name"; "Score"].
Proof. repeat split; reflexivity. Qed.

(** ** The table steps on a sample table *)

Lemma compute_score_rated :
  compute_score sample_repr sample_decimal (course_rated "DAT101" 3 3)
    = Ok (scores_rated 0.5 0.5 61.5) ∧
  compute_score sample_repr sample_decimal (course_rated "DAT102" 1 5)
    = Ok (scores_rated 0.0 0.0 46.5) ∧
  compute_score sample_repr sample_decimal (course_rated "DAT103" 5 1)
    = Ok (scores_rated 1.0 1.0 76.5) ∧
  compute_score sample_repr sample_decimal (course_rated "DAT104" 2 3)
    = Ok (scores_rated 0.25 0.5 56.5) ∧
  compute_score sample_repr sample_decimal (course_rated "DAT105" 5 3)
    = Ok (scores_rated 1.0 0.5 71.5) ∧
  compute_score sample_repr sample_decimal (course_rated "DAT106" 1 3)
    = Ok (scores_rated 0.0 0.5 51.5) ∧
  compute_score sample_repr sample_decimal (course_rated "DAT107" 4 3)
    = Ok (scores_rated 0.75 0.5 66.5).
Proof. repeat split; vm_compute; reflexivity. Qed.

Lemma seven_courses_shape :
  df_rows seven_courses ≠ [] ∧ df_columns seven_courses ≠ [] ∧
  "Score" ∉ df_columns seven_courses.
Proof.
  split; [done |]. split; [done |]. cbn. intros H.
  repeat (apply elem_of_cons in H as [H | H]; [discriminate H |]).
  by apply elem_of_nil in H.
Qed.

(** The scores of the seven courses differ, so whatever [sort_values] does
    with equal scores, a sort that orders by descending [Score] can return
    one table only. *)
Lemma ranking_of_seven_courses
    (sort : (Row * ScoreDict → pyfloat) → list (Row * ScoreDict) → list (Row * ScoreDict)) :
  sorts_descending sort →
  main_table sample_repr sample_decimal sort seven_courses = Ok seven_sorted.
Proof.
  intros Hsort.
  destruct compute_score_rated as (H1 & H2 & H3 & H4 & H5 & H6 & H7).
  destruct seven_courses_shape as (Hr & Hc & Hs).
  unfold main_table. rewrite (one_axis_empty_false _ Hr Hc).
  rewrite (bool_decide_eq_false_2 _ Hs).
  unfold df_apply, seven_courses. cbn [df_rows mapM].
  rewrite H1, H2, H3, H4, H5, H6, H7. cbn [Py.bind mbind Exc_bind].
  unfold concat. cbn [zip zip_with]. unfold seven_sorted.
  clear H1 H2 H3 H4 H5 H6 H7 Hr Hc Hs.
  generalize (course_rated "DAT101" 3 3) (course_rated "DAT102" 1 5)
    (course_rated "DAT103" 5 1) (course_rated "DAT104" 2 3)
    (course_rated "DAT105" 5 3) (course_rated "DAT106" 1 3)
    (course_rated "DAT107" 4 3).
  intros r1 r2 r3 r4 r5 r6 r7. f_equal. symmetry.
  match goal with |- _ = sort _ ?l => destruct (Hsort (column "Score") l) as [Hp Hd] end.
  { repeat constructor. }
  apply (sorted_perm_unique (column "Score")); [| | exact Hd].
  - rewrite <- Hp.
    match goal with |- Permutation _ ?l =>
      rewrite (isort_desc_perm (column "Score") l) end.
    reflexivity.
  - repeat first [reflexivity | constructor].
Qed.

(** The seven courses: the preview shows five, two are left out. *)
Lemma preview_witness :
  (sorts_descending (@isort_desc (Row * ScoreDict)) ∧
   df_rows seven_courses ≠ [] ∧ df_columns seven_courses ≠ [] ∧
   "Score" ∉ df_columns seven_courses) ∧
  ∃ out,
    main_table sample_repr sample_decimal isort_desc seven_courses = Ok out ∧
    length (head5 out) = Nat.min 5 (length (df_rows seven_courses)) ∧
    length (drop 5 out) = (length (df_rows seven_courses) - 5)%nat ∧
    ∀ a b, a ∈ head5 out → b ∈ drop 5 out →
      ∃ sa sb, column "Score" a = Fin sa ∧ column "Score" b = Fin sb ∧ sb <= sa.
Proof.
  destruct seven_courses_shape as (Hr & Hc & Hs).
  split; [split; [apply isort_desc_sorts_descending | done] |].
  apply (preview_shows_best_rows sample_repr sample_decimal isort_desc
           seven_courses); [apply isort_desc_sorts_descending | done ..].
Defined.

(** The five rows shown and the two left out. *)
Example preview_of_seven_courses :
  head5 seven_sorted
    = [ (course_rated "DAT103" 5 1, scores_rated 1.0 1.0 76.5);
        (course_rated "DAT105" 5 3, scores_rated 1.0 0.5 71.5);
        (course_rated "DAT107" 4 3, scores_rated 0.75 0.5 66.5);
        (course_rated "DAT101" 3 3, scores_rated 0.5 0.5 61.5);
        (course_rated "DAT104" 2 3, scores_rated 0.25 0.5 56.5) ] ∧
  drop 5 seven_sorted
    = [ (course_rated "DAT106" 1 3, scores_rated 0.0 0.5 51.5);
        (course_rated "DAT102" 1 5, scores_rated 0.0 0.0 46.5) ] ∧
  cols_to_show (df_columns seven_courses) = ["Course"; "Score"].
Proof. repeat split; reflexivity. Qed.

(** A table without rows, and a table that has a [Score] column already:
    [sort_values] raises on both. *)
Example main_table_raises
    (sort : (Row * ScoreDict → pyfloat) → list (Row * ScoreDict) → list (Row * ScoreDict)) :
  main_table sample_repr sample_decimal sort
    (mkDataFrame (df_columns seven_courses) []) = Raise KeyError ∧
  main_table sample_repr sample_decimal sort
    (mkDataFrame (df_columns seven_courses ++ ["u_prog"; "Score"])
                 (df_rows seven_courses)) = Raise ValueError.
Proof.
  split; [reflexivity |].
  destruct compute_score_rated as (H1 & H2 & H3 & H4 & H5 & H6 & H7).
  unfold main_table, df_apply, seven_courses. cbn [df_rows df_columns mapM].
  rewrite H1, H2, H3, H4, H5, H6, H7. reflexivity.
Qed.

(** ** The globals on the sample table *)

(** Two runs on the seven courses, one after the other. *)
Example seven_courses_twice
    (sort : (Row * ScoreDict → pyfloat) → list (Row * ScoreDict) → list (Row * ScoreDict)) :
  sorts_descending sort →
  run_twice (run_main_table sample_repr sample_decimal sort seven_courses)
    module_globals
  = (Ok (Ok seven_sorted, Ok seven_sorted), module_globals).
Proof.
  intros Hsort. unfold run_twice.
  by rewrite !run_main_table_module, !ranking_of_seven_courses.
Qed.

(** The score does depend on what the globals hold: with [w_exam] at 0.10,
    the exam utility 0.7 of [course_a] adds 7 points. *)
Example score_reads_globals :
  (run_compute_score sample_repr sample_decimal course_a module_globals).1
    = Ok scores_a ∧
  dict_get scores_a "Score" = Some (lit 71.5) ∧
  ∃ d, (run_compute_score sample_repr sample_decimal course_a
          (with_w_exam (lit 0.10) module_globals)).1 = Ok d ∧
       dict_get d "Score" = Some (lit 78.5).
Proof.
  split; [vm_compute; reflexivity |]. split; [reflexivity |].
  eexists. split; [vm_compute; reflexivity | reflexivity].
Qed.

(** ** Whitespace *)

(** "Y" and "4" with a no-break space and a space before and a tab after. *)
Lemma whitespace_witness :
  (blank (no_break_space ++ " ") = true ∧ blank (String "009" "") = true ∧
   float_blank (no_break_space ++ " ") = true ∧
   float_blank (String "009" "") = true) ∧
  util_prog sample_repr (PyStr ((no_break_space ++ " ") ++ "Y" ++ String "009" ""))
    = util_prog sample_repr (PyStr "Y") ∧
  util_cost sample_decimal (PyStr ((no_break_space ++ " ") ++ "4" ++ String "009" ""))
    = util_cost sample_decimal (PyStr "4").
Proof.
  split; [repeat split; reflexivity |].
  pose proof (utilities_ignore_surrounding_whitespace sample_repr sample_decimal
                (no_break_space ++ " ") "Y" (String "009" "") eq_refl eq_refl)
    as ((H & _) & _).
  pose proof (utilities_ignore_surrounding_whitespace sample_repr sample_decimal
                (no_break_space ++ " ") "4" (String "009" "") eq_refl eq_refl)
    as (_ & H' & _).
  split; [exact H | exact (proj1 (H' eq_refl eq_refl))].
Defined.

(** What [strip] and [float] make of characters beyond ASCII, and of the
    separators 28 to 31. *)
Example unicode_examples :
  strip (no_break_space ++ "Lindholmen" ++ no_break_space) = "Lindholmen" ∧
  util_location sample_repr (PyStr (no_break_space ++ "Lindholmen")) = lit 1.0 ∧
  read_path (no_break_space ++ no_break_space) = None ∧
  read_path (no_break_space ++ "courses.csv" ++ no_break_space) = Some "courses.csv" ∧
  strip (String "028" "4") = "4" ∧
  py_float sample_decimal (PyStr (String "028" "4")) = Raise ValueError ∧
  py_float sample_decimal (PyStr (no_break_space ++ "4")) = Ok (lit 4.0) ∧
  py_float sample_decimal (PyStr "٣") = Ok (lit 3.0) ∧
  py_float sample_decimal (PyStr "４.５") = Ok (lit 4.5) ∧
  py_float sample_decimal (PyStr "é") = Raise ValueError.
Proof. repeat split; reflexivity. Qed.

(** ** The ranking of the sample table *)


